(** * libsigchain: the signal-chain interposition layer of ART

    A shallow embedding of [sigchainlib/sigchain.cc].  The library wraps
    [sigaction], [signal] and [sigprocmask], keeps one [SignalChain] record
    per signal number and installs one dispatcher, [SignalChain::Handler],
    with the kernel for every claimed signal.

    Conventions of the embedding:
    - pointers (handlers, restorers, fault addresses) and the [int] flag
      words are bit patterns in [Z];
    - a signal set is the [Z] whose bit [s - 1] stands for signal [s], as in
      the kernel and in every libc this file is built against;
    - the code of the real libc, of the special handlers, of the user
      handlers and of [android_handle_signal] is external: it is a
      parameter of the development;
    - every call that leaves the library (real libc, handlers, log) is
      recorded in a trace of [Event]s next to the state it acts on. *)

From Stdlib Require Import ZArith List Bool Lia String.
Import ListNotations.
Local Open Scope Z_scope.

(** ** Constants of the system headers *)

(** [<signal.h>] of Linux (asm-generic values, shared by arm, arm64, x86,
    x86_64 and riscv64). *)
Definition SA_NOCLDSTOP : Z := 0x00000001.
Definition SA_NOCLDWAIT : Z := 0x00000002.
Definition SA_SIGINFO   : Z := 0x00000004.
Definition SA_ONSTACK   : Z := 0x08000000.
Definition SA_RESTART   : Z := 0x10000000.
Definition SA_NODEFER   : Z := 0x40000000.
Definition SA_RESETHAND : Z := 0x80000000.
(** sigchain.cc:49, 50 and 324. *)
Definition SA_UNSUPPORTED    : Z := 0x00000400.
Definition SA_EXPOSE_TAGBITS : Z := 0x00000800.
Definition SA_RESTORER       : Z := 0x04000000.

Definition SIG_BLOCK   : Z := 0.
Definition SIG_UNBLOCK : Z := 1.
Definition SIG_SETMASK : Z := 2.

Definition SIG_DFL : Z := 0.
Definition SIG_IGN : Z := 1.
Definition SIG_ERR : Z := -1.

Definition SIGILL  : Z := 4.
Definition SIGTRAP : Z := 5.
Definition SIGBUS  : Z := 7.
Definition SIGFPE  : Z := 8.
Definition SIGSEGV : Z := 11.

Definition SI_USER       : Z := 0.
Definition SI_KERNEL     : Z := 0x80.
Definition TRAP_HWBKPT   : Z := 4.
Definition SEGV_MTEAERR  : Z := 8.
Definition SEGV_MTESERR  : Z := 9.

Definition EINVAL : Z := 22.

(** sigchain.h *)
Definition SIGCHAIN_ALLOW_NORETURN : Z := 0x1.

(** The [nullptr] of every pointer type. *)
Definition nullptr : Z := 0.

(** ** Build configuration

    The preprocessor conditions of the file and the sizes it takes from the
    target's headers. *)
Record Platform := mkPlatform {
  bionic : bool;                  (* defined(__BIONIC__) *)
  lp64 : bool;                    (* defined(__LP64__) *)
  aarch64 : bool;                 (* defined(__aarch64__) *)
  sa_restorer_in_headers : bool;  (* <signal.h> itself defines SA_RESTORER *)
  NSIG : Z;                       (* _NSIG *)
  sigset_bits : Z;                (* sizeof(sigset_t) * CHAR_BIT *)
  sigset64_bits : Z               (* sizeof(sigset64_t) * CHAR_BIT *)
}.

(** Android on arm64: Bionic, one 64-bit word per signal set. *)
Definition android_arm64 : Platform :=
  {| bionic := true; lp64 := true; aarch64 := true;
     sa_restorer_in_headers := true;
     NSIG := 65; sigset_bits := 64; sigset64_bits := 64 |}.

(** Android on 32-bit arm: Bionic, a 32-bit [sigset_t] next to [sigset64_t]. *)
Definition android_arm : Platform :=
  {| bionic := true; lp64 := false; aarch64 := false;
     sa_restorer_in_headers := true;
     NSIG := 65; sigset_bits := 32; sigset64_bits := 64 |}.

(** A glibc host build: [sigset_t] has 1024 bits, there is no [sigset64_t]. *)
Definition linux_glibc_x86_64 : Platform :=
  {| bionic := false; lp64 := true; aarch64 := false;
     sa_restorer_in_headers := false;
     NSIG := 65; sigset_bits := 1024; sigset64_bits := 1024 |}.

(** The two signal-set types the templates are instantiated at. *)
Inductive SigsetType := sigset_t | sigset64_t.

Definition SigsetType_eqb (a b : SigsetType) : bool :=
  match a, b with
  | sigset_t, sigset_t | sigset64_t, sigset64_t => true
  | _, _ => false
  end.

Section SignalSets.

Variable plat : Platform.

(** [std::numeric_limits<uintptr_t>::digits] *)
Definition kNumSignalsPerKey : Z := if lp64 plat then 64 else 32.

Definition bits_of (t : SigsetType) : Z :=
  match t with
  | sigset_t => sigset_bits plat
  | sigset64_t => sigset64_bits plat
  end.

(** *** The libc operations on signal sets

    [sigismember], [sigaddset] and [sigdelset] accept the signal numbers the
    set type has a bit for, and fail (return -1, leave the set alone) on any
    other: Bionic checks [signum - 1] against the width of the set, glibc
    checks [signum] against [_NSIG]. *)
Definition sig_in_set_range (w signum : Z) : bool :=
  (0 <? signum) && (signum <=? w) && (signum <? NSIG plat).

(** glibc keeps the signals 32 and 33 (SIGCANCEL and SIGSETXID) to itself:
    its [sigaddset] and [sigdelset] fail on them as on a number out of
    range, and its [sigfillset] leaves them out.  Bionic has no such
    signals. *)
Definition is_internal_signal (signum : Z) : bool :=
  negb (bionic plat) && ((signum =? 32) || (signum =? 33)).

(** The signal numbers [sigaddset] and [sigdelset] act on. *)
Definition sig_settable (w signum : Z) : bool :=
  sig_in_set_range w signum && negb (is_internal_signal signum).

Definition sigbit (signum : Z) : Z := Z.shiftl 1 (signum - 1).

Definition sigismember (w set signum : Z) : Z :=
  if sig_in_set_range w signum
  then (if Z.testbit set (signum - 1) then 1 else 0)
  else -1.

Definition sigemptyset : Z := 0.

(** [sigfillset(&set)] on a set that holds [dest].  Bionic sets every bit
    of the type.  glibc sets the words that hold the signals below [_NSIG],
    leaves the words above them as they are, and clears its internal
    signals. *)
Definition sigfillset (w dest : Z) : Z :=
  if bionic plat then Z.ones w
  else
    Z.lor (Z.land dest (Z.lnot (Z.ones (NSIG plat - 1))))
          (Z.land (Z.ones (NSIG plat - 1))
                  (Z.lnot (Z.lor (sigbit 32) (sigbit 33)))).

Definition sigaddset (w set signum : Z) : Z :=
  if sig_settable w signum then Z.lor set (sigbit signum) else set.

Definition sigdelset (w set signum : Z) : Z :=
  if sig_settable w signum then Z.land set (Z.lnot (sigbit signum)) else set.

(** *** sigchain.cc:90 [sigorset]

    The loop variable runs over [0 .. sizeof(SigsetType) * CHAR_BIT - 1] and
    is used as the signal number. *)
Definition sigorset_step (w left right dest : Z) (i : nat) : Z :=
  if (sigismember w left (Z.of_nat i) =? 1) || (sigismember w right (Z.of_nat i) =? 1)
  then sigaddset w dest (Z.of_nat i)
  else dest.

Definition sigorset (w left right : Z) : Z :=
  fold_left (sigorset_step w left right) (seq 0 (Z.to_nat w)) sigemptyset.

End SignalSets.

(** ** Data model *)

(** The two [sigaction] structure types the templates are instantiated at. *)
Inductive SigactionType := struct_sigaction | struct_sigaction64.

Definition SigactionType_eqb (a b : SigactionType) : bool :=
  match a, b with
  | struct_sigaction, struct_sigaction
  | struct_sigaction64, struct_sigaction64 => true
  | _, _ => false
  end.

Definition mask_type (t : SigactionType) : SigsetType :=
  match t with
  | struct_sigaction => sigset_t
  | struct_sigaction64 => sigset64_t
  end.

(** The content of a [struct sigaction] or [struct sigaction64].
    [sa_handler] and [sa_sigaction] are the two members of one union. *)
Record sigaction_s := mkSigaction {
  sa_handler : Z;
  sa_flags : Z;
  sa_mask : Z;
  sa_restorer : Z
}.

Definition sa_sigaction (a : sigaction_s) : Z := sa_handler a.

(** sigchain.h [SigchainAction] *)
Record SigchainAction := mkSigchainAction {
  sc_sigaction : Z;
  sc_mask : Z;
  sc_flags : Z
}.

(** The fields of [siginfo_t] and [ucontext_t] the library reads or writes.
    On Bionic the dispatcher reads the saved mask through [uc_sigmask64],
    which is the same storage. *)
Record siginfo_t := mkSiginfo { si_code : Z; si_addr : Z }.
Record ucontext_t := mkUcontext { uc_sigmask : Z; uc_mcontext : Z }.

(** sigchain.cc:268 [class SignalChain], the members. *)
Record SignalChain := mkSignalChain {
  claimed_ : bool;
  kernel_supported_flags_ : Z;
  action_ : sigaction_s;
  orig_action_ : sigaction_s;
  special_handlers_ : list SigchainAction
}.

Definition zero_sigaction : sigaction_s :=
  {| sa_handler := 0; sa_flags := 0; sa_mask := 0; sa_restorer := 0 |}.

Definition zero_SigchainAction : SigchainAction :=
  {| sc_sigaction := nullptr; sc_mask := 0; sc_flags := 0 |}.

(** [SigchainAction special_handlers_[2]] *)
Definition kSpecialHandlers : nat := 2.

(** A chain as the zero-initialised [static SignalChain chains[_NSIG]] holds it. *)
Definition zero_SignalChain : SignalChain :=
  {| claimed_ := false;
     kernel_supported_flags_ := 0;
     action_ := zero_sigaction;
     orig_action_ := zero_sigaction;
     special_handlers_ := repeat zero_SigchainAction kSpecialHandlers |}.

(** What leaves the library. *)
Inductive Event :=
| EvLinkedSigaction (t : SigactionType) (signo : Z)
    (new_action : option sigaction_s) (old_requested : bool)
| EvLinkedSigprocmask (t : SigsetType) (how : Z)
    (new_set : option Z) (old_requested : bool)
| EvSpecialHandler (handler : SigchainAction) (signo : Z)
    (handling_bit : bool) (result : option bool)
| EvAndroidHandleSignal (signo : Z) (result : option bool)
| EvSaSigaction (fn signo : Z) (info : siginfo_t)
| EvSaHandler (fn signo : Z)
| EvLogError (msg : string)
| EvLogStack.

Section Sigchain.

Variable plat : Platform.

(** The state of the kernel and of the real libc, whatever it is. *)
Context {OS : Type}.

(** What the real libc can touch. *)
Record Sys := mkSys { errno : Z; kernel : OS }.

(** The state of the process as seen from one thread: the globals of the
    library, the thread's [pthread_getspecific] slots for the handling-signal
    keys (indexed by key number) and the system underneath. *)
Record Proc := mkProc {
  chains : Z -> SignalChain;
  is_signal_hook_debuggable : bool;
  handling_keys : Z -> Z;
  sys : Sys
}.

(** The real libc as resolved by [InitializeSignalChain]: a call takes the
    arguments ([None] for a null pointer, [old_requested] for a non-null
    result pointer) and answers with the return value and with what it wrote
    through the result pointer, if anything. *)
Record Libc := mkLibc {
  libc_sigaction :
    SigactionType -> Z -> option sigaction_s -> bool -> Sys ->
    Z * option sigaction_s * Sys;
  libc_sigprocmask :
    SigsetType -> Z -> option Z -> bool -> Sys -> Z * option Z * Sys;
  (* mallopt(M_BIONIC_SIGCHAINLIB_SHOULD_INTERCEPT_MTE_SIGSEGV, 0) *)
  mallopt_should_intercept_mte_sigsegv : Sys -> Z;
  untag_address : Z -> Z
}.

(** The code behind the function pointers the library calls.  A handler
    that does not come back (it may [longjmp] or exit) answers [None]. *)
Record Code := mkCode {
  special_code :
    Z -> Z -> siginfo_t -> ucontext_t -> Proc ->
    option (bool * siginfo_t * ucontext_t * Proc);
  (* weak symbol: [None] when it is not linked in *)
  android_handle_signal :
    option (Z -> siginfo_t -> ucontext_t -> Proc ->
            option (bool * siginfo_t * ucontext_t * Proc));
  sa_sigaction_code :
    Z -> Z -> siginfo_t -> ucontext_t -> Proc -> option Proc;
  sa_handler_code : Z -> Z -> Proc -> option Proc;
  (* the address of SignalChain::Handler *)
  Handler_addr : Z;
  (* what an uninitialised local holds *)
  indeterminate_sigset : Z;
  indeterminate_sigaction : sigaction_s
}.

Variable libc : Libc.
Variable code : Code.

(** *** The monad of the library's code: state, trace, [fatal] *)

Inductive Outcome (A : Type) :=
| Ret (a : A) (p : Proc)
| Fatal (msg : string)
| NoReturn.
Arguments Ret {A} a p.
Arguments Fatal {A} msg.
Arguments NoReturn {A}.

Definition M (A : Type) : Type := Proc -> list Event * Outcome A.

Definition ret {A} (a : A) : M A := fun p => ([], Ret a p).

Definition bind {A B} (m : M A) (f : A -> M B) : M B :=
  fun p =>
    match m p with
    | (t, Ret a p') => let (t', o) := f a p' in (t ++ t', o)
    | (t, Fatal msg) => (t, Fatal msg)
    | (t, NoReturn) => (t, NoReturn)
    end.

Notation "x <- m ;; k" := (bind m (fun x => k))
  (at level 61, m at next level, right associativity).
Notation "m ;; k" := (bind m (fun _ => k))
  (at level 61, right associativity).

Definition get : M Proc := fun p => ([], Ret p p).
Definition gets {A} (f : Proc -> A) : M A := fun p => ([], Ret (f p) p).
Definition modify (f : Proc -> Proc) : M unit := fun p => ([], Ret tt (f p)).
Definition emit (e : Event) : M unit := fun p => ([e], Ret tt p).
Definition fatal {A} (msg : string) : M A := fun _ => ([], Fatal msg).

Definition events {A} (r : list Event * Outcome A) : list Event := fst r.
Definition outcome {A} (r : list Event * Outcome A) : Outcome A := snd r.

Definition set_chain (signo : Z) (c : SignalChain) (p : Proc) : Proc :=
  {| chains := fun i => if i =? signo then c else chains p i;
     is_signal_hook_debuggable := is_signal_hook_debuggable p;
     handling_keys := handling_keys p;
     sys := sys p |}.

Definition set_handling_key (key : Z) (v : Z) (p : Proc) : Proc :=
  {| chains := chains p;
     is_signal_hook_debuggable := is_signal_hook_debuggable p;
     handling_keys := fun i => if i =? key then v else handling_keys p i;
     sys := sys p |}.

Definition set_sys (s : Sys) (p : Proc) : Proc :=
  {| chains := chains p;
     is_signal_hook_debuggable := is_signal_hook_debuggable p;
     handling_keys := handling_keys p;
     sys := s |}.

Definition set_errno (e : Z) (p : Proc) : Proc :=
  set_sys {| errno := e; kernel := kernel (sys p) |} p.

Definition set_debuggable (b : bool) (p : Proc) : Proc :=
  {| chains := chains p;
     is_signal_hook_debuggable := b;
     handling_keys := handling_keys p;
     sys := sys p |}.

(** *** Calls that leave the library *)

Definition LogError (msg : string) : M unit := emit (EvLogError msg).

(** sigchain.cc:101: unwinds and logs on Bionic, empty elsewhere. *)
Definition LogStack : M unit :=
  if bionic plat then emit EvLogStack else ret tt.

Definition linked_sigaction (t : SigactionType) (signo : Z)
    (new_action : option sigaction_s) (old_requested : bool)
    : M (Z * option sigaction_s) :=
  fun p =>
    let '(r, old, s) := libc_sigaction libc t signo new_action old_requested (sys p) in
    ([EvLinkedSigaction t signo new_action old_requested],
     Ret (r, if old_requested then old else None) (set_sys s p)).

Definition linked_sigprocmask (t : SigsetType) (how : Z)
    (new_set : option Z) (old_requested : bool) : M (Z * option Z) :=
  fun p =>
    let '(r, old, s) := libc_sigprocmask libc t how new_set old_requested (sys p) in
    ([EvLinkedSigprocmask t how new_set old_requested],
     Ret (r, if old_requested then old else None) (set_sys s p)).

(** *** sigchain.cc:179-266: the handling-signal bitmap

    [GetHandlingSignalKey(idx)] hands out the key created for word [idx];
    the thread's value under that key is [handling_keys p idx].  Its first
    call in the process creates the keys (lines 203-210) and is fatal when
    [pthread_key_create] fails: [Proc] and the functions of this part
    describe a process in which the keys exist, and
    [GetHandlingSignalKey_once] further down is the step that creates
    them. *)

Definition size_t (x : Z) : Z := x mod 2 ^ kNumSignalsPerKey plat.

Definition RoundUp (x n : Z) : Z := Z.land (size_t (x + n - 1)) (size_t (- n)).

Definition kSignalSetLength : Z := NSIG plat - 1.

Definition kHandlingSignalKeyCount : Z :=
  RoundUp kSignalSetLength (kNumSignalsPerKey plat) / kNumSignalsPerKey plat.

Definition bit_idx_of (signo : Z) : Z := size_t (signo - 1).
Definition key_idx_of (signo : Z) : Z := bit_idx_of signo / kNumSignalsPerKey plat.
Definition bit_mask_of (signo : Z) : Z :=
  size_t (Z.shiftl 1 (bit_idx_of signo mod kNumSignalsPerKey plat)).

(** [GetHandlingSignal()] *)
Definition GetHandlingSignalAny (p : Proc) : bool :=
  existsb (fun i => negb (handling_keys p (Z.of_nat i) =? 0))
          (seq 0 (Z.to_nat kHandlingSignalKeyCount)).

(** [GetHandlingSignal(int signo)] *)
Definition GetHandlingSignal (signo : Z) (p : Proc) : bool :=
  negb (Z.land (handling_keys p (key_idx_of signo)) (bit_mask_of signo) =? 0).

(** The thread's bitmap after [SetHandlingSignal(signo, value)]. *)
Definition store_handling_bit (signo : Z) (value : bool) (p : Proc) : Proc :=
  let key := key_idx_of signo in
  let bitmap := handling_keys p key in
  let bitmap' :=
    if value then Z.lor bitmap (bit_mask_of signo)
    else Z.land bitmap (size_t (Z.lnot (bit_mask_of signo))) in
  set_handling_key key bitmap' p.

(** [SetHandlingSignal(int signo, bool value)]: the new state and the
    previous value of the bit. *)
Definition SetHandlingSignal (signo : Z) (value : bool) : M bool :=
  fun p =>
    let bitmap := handling_keys p (key_idx_of signo) in
    let ret_ := negb (Z.land bitmap (bit_mask_of signo) =? 0) in
    ([], Ret ret_ (store_handling_bit signo value p)).

(** [ScopedHandlingSignal]: the constructor answers [original_value_], the
    destructor takes it back. *)
Definition ScopedHandlingSignal_ctor (signo : Z) (set : bool) : M bool :=
  if set then SetHandlingSignal signo true else gets (GetHandlingSignal signo).

Definition ScopedHandlingSignal_dtor (signo_ : Z) (original_value_ : bool) : M unit :=
  SetHandlingSignal signo_ original_value_ ;; ret tt.

(** *** sigchain.cc:268-418 [class SignalChain], the methods

    A method takes the index of its object in [chains] as [this]. *)

(** [decltype(action_)] *)
Definition action_type : SigactionType :=
  if bionic plat then struct_sigaction64 else struct_sigaction.

(** [#if defined(SA_RESTORER)] at lines 328, 352 and 368: the file defines
    it itself outside Bionic. *)
Definition SA_RESTORER_defined : bool :=
  negb (bionic plat) || sa_restorer_in_headers plat.

Definition sa_mask_bits (t : SigactionType) : Z := bits_of plat (mask_type t).

Definition IsClaimed (c : SignalChain) : bool := claimed_ c.

(** [memcpy(dst, src, n)] on the first [n] bits of a signal set. *)
Definition memcpy_bits (dst src n : Z) : Z :=
  Z.lor (Z.land src (Z.ones n)) (Z.land dst (Z.lnot (Z.ones n))).

(** [GetAction<SigactionType>()] *)
Definition GetAction (t : SigactionType) (c : SignalChain) : sigaction_s :=
  if SigactionType_eqb action_type t then action_ c
  else
    let result := indeterminate_sigaction code in
    {| sa_flags := sa_flags (action_ c);
       sa_handler := sa_handler (action_ c);
       sa_restorer :=
         if SA_RESTORER_defined then sa_restorer (action_ c)
         else sa_restorer result;
       sa_mask :=
         memcpy_bits (sa_mask result) (sa_mask (action_ c))
           (Z.min (sa_mask_bits action_type) (sa_mask_bits t)) |}.

Definition with_action (a : sigaction_s) (c : SignalChain) : SignalChain :=
  {| claimed_ := claimed_ c;
     kernel_supported_flags_ := kernel_supported_flags_ c;
     action_ := a;
     orig_action_ := orig_action_ c;
     special_handlers_ := special_handlers_ c |}.

Definition with_flags (f : Z) (a : sigaction_s) : sigaction_s :=
  {| sa_handler := sa_handler a; sa_flags := f;
     sa_mask := sa_mask a; sa_restorer := sa_restorer a |}.

(** [SetAction<SigactionType>(new_action)] *)
Definition SetAction (t : SigactionType) (new_action : sigaction_s)
    (c : SignalChain) : SignalChain :=
  let a :=
    if SigactionType_eqb action_type t then new_action
    else
      {| sa_flags := sa_flags new_action;
         sa_handler := sa_handler new_action;
         sa_restorer :=
           if SA_RESTORER_defined then sa_restorer new_action
           else sa_restorer (action_ c);
         sa_mask :=
           memcpy_bits sigemptyset (sa_mask new_action)
             (Z.min (sa_mask_bits action_type) (sa_mask_bits t)) |} in
  with_action (with_flags (Z.land (sa_flags a) (kernel_supported_flags_ c)) a) c.

(** The flags [Register] asks the kernel for. *)
Definition Register_flags : Z :=
  Z.lor (Z.lor (Z.lor (Z.lor SA_RESTART SA_SIGINFO) SA_ONSTACK) SA_UNSUPPORTED)
        SA_EXPOSE_TAGBITS.

(** Lines 326-330. *)
Definition base_supported_flags : Z :=
  let f :=
    Z.lor (Z.lor (Z.lor (Z.lor (Z.lor (Z.lor SA_NOCLDSTOP SA_NOCLDWAIT) SA_SIGINFO)
      SA_ONSTACK) SA_RESTART) SA_NODEFER) SA_RESETHAND in
  if SA_RESTORER_defined then Z.lor f SA_RESTORER else f.

(** Lines 326-341, from the flags read back into [handler_action]. *)
Definition supported_flags_from (readback_flags : Z) : Z :=
  if (Z.land readback_flags SA_UNSUPPORTED =? 0)
     && negb (Z.land readback_flags SA_EXPOSE_TAGBITS =? 0)
  then Z.lor base_supported_flags SA_EXPOSE_TAGBITS
  else base_supported_flags.

(** Lines 287-296: the action [Register] installs with the kernel. *)
Definition handler_action : sigaction_s :=
  {| sa_handler := Handler_addr code;
     sa_flags := Register_flags;
     sa_mask := sigfillset plat (sa_mask_bits action_type) 0;
     sa_restorer := 0 |}.

(** [Register(int signo)] *)
Definition Register (this signo : Z) : M unit :=
  r1 <- linked_sigaction action_type signo (Some handler_action) true ;;
  modify (fun p =>
    let c := chains p this in
    let c1 := match snd r1 with Some old => with_action old c | None => c end in
    set_chain this
      {| claimed_ := claimed_ c1;
         kernel_supported_flags_ := kernel_supported_flags_ c1;
         action_ := action_ c1;
         orig_action_ := if bionic plat then action_ c1 else orig_action_ c1;
         special_handlers_ := special_handlers_ c1 |} p) ;;
  r2 <- linked_sigaction action_type signo None true ;;
  let handler_action' :=
    match snd r2 with Some a => a | None => handler_action end in
  modify (fun p =>
    let c := chains p this in
    set_chain this
      {| claimed_ := claimed_ c;
         kernel_supported_flags_ := supported_flags_from (sa_flags handler_action');
         action_ := action_ c;
         orig_action_ := orig_action_ c;
         special_handlers_ := special_handlers_ c |} p).

(** [Claim(int signo)] *)
Definition Claim (this signo : Z) : M unit :=
  c <- gets (fun p => chains p this) ;;
  if negb (claimed_ c) then
    Register this signo ;;
    modify (fun p =>
      let c := chains p this in
      set_chain this
        {| claimed_ := true;
           kernel_supported_flags_ := kernel_supported_flags_ c;
           action_ := action_ c;
           orig_action_ := orig_action_ c;
           special_handlers_ := special_handlers_ c |} p)
  else ret tt.

Definition with_special_handlers (l : list SigchainAction) (c : SignalChain)
    : SignalChain :=
  {| claimed_ := claimed_ c;
     kernel_supported_flags_ := kernel_supported_flags_ c;
     action_ := action_ c;
     orig_action_ := orig_action_ c;
     special_handlers_ := l |}.

(** The loop of [AddSpecialHandler]: the first free slot takes [*sa]. *)
Fixpoint add_special_slot (l : list SigchainAction) (sa : SigchainAction)
    : option (list SigchainAction) :=
  match l with
  | [] => None
  | slot :: rest =>
      if sc_sigaction slot =? nullptr then Some (sa :: rest)
      else option_map (cons slot) (add_special_slot rest sa)
  end.

Definition AddSpecialHandler (this : Z) (sa : SigchainAction) : M unit :=
  c <- gets (fun p => chains p this) ;;
  match add_special_slot (special_handlers_ c) sa with
  | Some l => modify (fun p => set_chain this (with_special_handlers l (chains p this)) p)
  | None => fatal "too many special signal handlers"
  end.

(** The inner loop of [RemoveSpecialHandler]: every slot takes its
    successor, the last one keeps its mask and flags and loses its function. *)
Fixpoint shift_slots (l : list SigchainAction) : list SigchainAction :=
  match l with
  | [] => []
  | a :: tl =>
      match tl with
      | [] => [mkSigchainAction nullptr (sc_mask a) (sc_flags a)]
      | b :: _ => b :: shift_slots tl
      end
  end.

Fixpoint remove_special_slot (l : list SigchainAction) (fn : Z)
    : option (list SigchainAction) :=
  match l with
  | [] => None
  | slot :: rest =>
      if sc_sigaction slot =? fn then Some (shift_slots l)
      else option_map (cons slot) (remove_special_slot rest fn)
  end.

Definition RemoveSpecialHandler (this : Z) (fn : Z) : M unit :=
  c <- gets (fun p => chains p this) ;;
  match remove_special_slot (special_handlers_ c) fn with
  | Some l => modify (fun p => set_chain this (with_special_handlers l (chains p this)) p)
  | None => fatal "failed to find special handler to remove"
  end.

(** *** Calls through function pointers *)

Definition call_special (handler : SigchainAction) (signo : Z)
    (info : siginfo_t) (uc : ucontext_t) : M (bool * siginfo_t * ucontext_t) :=
  fun p =>
    let r := special_code code (sc_sigaction handler) signo info uc p in
    let ev := EvSpecialHandler handler signo (GetHandlingSignal signo p)
                (option_map (fun x => fst (fst (fst x))) r) in
    match r with
    | Some (b, info', uc', p') => ([ev], Ret (b, info', uc') p')
    | None => ([ev], NoReturn)
    end.

Definition call_android_handle_signal
    (f : Z -> siginfo_t -> ucontext_t -> Proc ->
         option (bool * siginfo_t * ucontext_t * Proc))
    (signo : Z) (info : siginfo_t) (uc : ucontext_t)
    : M (bool * siginfo_t * ucontext_t) :=
  fun p =>
    let r := f signo info uc p in
    let ev := EvAndroidHandleSignal signo
                (option_map (fun x => fst (fst (fst x))) r) in
    match r with
    | Some (b, info', uc', p') => ([ev], Ret (b, info', uc') p')
    | None => ([ev], NoReturn)
    end.

Definition call_sa_sigaction (fn signo : Z) (info : siginfo_t) (uc : ucontext_t)
    : M unit :=
  fun p =>
    match sa_sigaction_code code fn signo info uc p with
    | Some p' => ([EvSaSigaction fn signo info], Ret tt p')
    | None => ([EvSaSigaction fn signo info], NoReturn)
    end.

Definition call_sa_handler (fn signo : Z) : M unit :=
  fun p =>
    match sa_handler_code code fn signo p with
    | Some p' => ([EvSaHandler fn signo], Ret tt p')
    | None => ([EvSaHandler fn signo], NoReturn)
    end.

(** *** sigchain.cc:432 [SignalChain::Handler] *)

(** Line 444: [handler.sc_flags & SIGCHAIN_ALLOW_NORETURN] *)
Definition allows_noreturn (handler : SigchainAction) : bool :=
  negb (Z.land (sc_flags handler) SIGCHAIN_ALLOW_NORETURN =? 0).

(** Lines 441-454: the body of the loop over the special handlers, for a
    slot that holds a handler.  The destructor of [restorer] runs when the
    body is left, after the mask is put back or on [return]. *)
Definition InvokeSpecialHandler (signo : Z) (handler : SigchainAction)
    (info : siginfo_t) (uc : ucontext_t) : M (bool * siginfo_t * ucontext_t) :=
  let handler_noreturn := allows_noreturn handler in
  r <- linked_sigprocmask sigset_t SIG_SETMASK (Some (sc_mask handler)) true ;;
  let previous_mask :=
    match snd r with Some m => m | None => indeterminate_sigset code end in
  original_value_ <- ScopedHandlingSignal_ctor signo (negb handler_noreturn) ;;
  res <- call_special handler signo info uc ;;
  let '(handled, info', uc') := res in
  if handled : bool then
    ScopedHandlingSignal_dtor signo original_value_ ;;
    ret (true, info', uc')
  else
    linked_sigprocmask sigset_t SIG_SETMASK (Some previous_mask) false ;;
    ScopedHandlingSignal_dtor signo original_value_ ;;
    ret (false, info', uc').

(** Lines 436-455: the loop, [n] slots of the array left from slot [i] on. *)
Fixpoint SpecialHandlersLoop (n i : nat) (signo : Z)
    (info : siginfo_t) (uc : ucontext_t) : M (bool * siginfo_t * ucontext_t) :=
  match n with
  | O => ret (false, info, uc)
  | S n' =>
      c <- gets (fun p => chains p signo) ;;
      let handler := nth i (special_handlers_ c) zero_SigchainAction in
      if sc_sigaction handler =? nullptr then ret (false, info, uc)
      else
        r <- InvokeSpecialHandler signo handler info uc ;;
        let '(handled, info', uc') := r in
        if handled : bool then ret (true, info', uc')
        else SpecialHandlersLoop n' (S i) signo info' uc'
  end.

(** Lines 435-474.  The answer says whether a special handler took the
    signal, which makes [Handler] return. *)
Definition SpecialHandlerPhase (signo : Z) (info : siginfo_t) (uc : ucontext_t)
    : M (bool * siginfo_t * ucontext_t) :=
  handling <- gets (GetHandlingSignal signo) ;;
  if negb handling then SpecialHandlersLoop kSpecialHandlers 0 signo info uc
  else
    (if aarch64 plat then
       value <- gets (fun p => handling_keys p (key_idx_of signo)) ;;
       if negb (value =? bit_mask_of signo)
       then LogError "Already handling signal, value differs from expected"
       else ret tt
     else ret tt) ;;
    ret (false, info, uc).

(** Line 491. *)
Definition PlatformRecoveryPhase (signo : Z) (info : siginfo_t) (uc : ucontext_t)
    : M (bool * siginfo_t * ucontext_t) :=
  match android_handle_signal code with
  | Some f => call_android_handle_signal f signo info uc
  | None => ret (false, info, uc)
  end.

(** Lines 495-508: is the action taken from [orig_action_]? *)
Definition reverts_to_orig_action (signo : Z) (info : siginfo_t) (p : Proc) : bool :=
  bionic plat
  && (signo =? SIGSEGV)
  && ((si_code info =? SEGV_MTEAERR) || (si_code info =? SEGV_MTESERR))
  && (mallopt_should_intercept_mte_sigsegv libc (sys p) =? 1).

Definition selected_action (signo : Z) (info : siginfo_t) (p : Proc) : sigaction_s :=
  if reverts_to_orig_action signo info p
  then orig_action_ (chains p SIGSEGV)
  else action_ (chains p signo).

(** Lines 511-522: the mask the user's handler runs with. *)
Definition forward_mask (signo : Z) (action : sigaction_s) (uc : ucontext_t) : Z :=
  let w := sa_mask_bits action_type in
  let mask := sigorset plat w (uc_sigmask uc) (sa_mask action) in
  if Z.land (sa_flags action) SA_NODEFER =? 0
  then sigaddset plat w mask signo
  else mask.

(** Lines 533-541. *)
Definition strips_tag_bits (signo handler_flags : Z) (info : siginfo_t) : bool :=
  bionic plat
  && (Z.land handler_flags SA_EXPOSE_TAGBITS =? 0)
  && ((signo =? SIGILL) || (signo =? SIGFPE) || (signo =? SIGSEGV)
      || (signo =? SIGBUS) || (signo =? SIGTRAP))
  && (SI_USER <? si_code info) && (si_code info <? SI_KERNEL)
  && negb ((signo =? SIGTRAP) && (si_code info =? TRAP_HWBKPT)).

(** The [siginfo_t] the three-argument handler sees. *)
Definition forwarded_siginfo (signo : Z) (action : sigaction_s)
    (info : siginfo_t) : siginfo_t :=
  if strips_tag_bits signo (sa_flags action) info
  then {| si_code := si_code info; si_addr := untag_address libc (si_addr info) |}
  else info.

(** Lines 510-561: the mask, then the user's handler by its style. *)
Definition DispatchUserAction (signo : Z) (action : sigaction_s)
    (info : siginfo_t) (uc : ucontext_t) : M unit :=
  let handler_flags := sa_flags action in
  let mask := forward_mask signo action uc in
  linked_sigprocmask (mask_type action_type) SIG_SETMASK (Some mask) false ;;
  if negb (Z.land handler_flags SA_SIGINFO =? 0) then
    call_sa_sigaction (sa_sigaction action) signo
      (forwarded_siginfo signo action info) uc
  else
    let handler := sa_handler action in
    if handler =? SIG_IGN then ret tt
    else if handler =? SIG_DFL then
      LogError "reverting to SIG_DFL handler for signal" ;;
      LogStack ;;
      let dfl := {| sa_handler := SIG_DFL; sa_flags := 0; sa_mask := 0; sa_restorer := 0 |} in
      linked_sigaction struct_sigaction signo (Some dfl) false ;;
      ret tt
    else call_sa_handler handler signo.

(** Lines 495-561. *)
Definition ForwardToUser (signo : Z) (info : siginfo_t) (uc : ucontext_t) : M unit :=
  revert <- gets (reverts_to_orig_action signo info) ;;
  (if revert : bool then LogError "reverting to orig_action_ for MTE SEGV" else ret tt) ;;
  action <- gets (selected_action signo info) ;;
  DispatchUserAction signo action info uc.

(** Lines 491-561: what is left of [Handler] after the special handlers. *)
Definition RecoveryAndForward (signo : Z) (info : siginfo_t) (uc : ucontext_t)
    : M unit :=
  r <- PlatformRecoveryPhase signo info uc ;;
  let '(recovered, info', uc') := r in
  if recovered : bool then ret tt
  else ForwardToUser signo info' uc'.

Definition Handler (signo : Z) (info : siginfo_t) (uc : ucontext_t) : M unit :=
  r <- SpecialHandlerPhase signo info uc ;;
  let '(handled, info', uc') := r in
  if handled : bool then ret tt
  else RecoveryAndForward signo info' uc'.

(** *** sigchain.cc:564-747: the interposed and the runtime-facing API

    [InitializeSignalChain] resolves the real libc once; its result is the
    parameter [libc]. *)

(** A pointer to a real libc [sigaction], as [__sigaction] takes it. *)
Definition linked_sigaction_fn : Type :=
  Z -> option sigaction_s -> bool -> M (Z * option sigaction_s).

Definition linked_sigprocmask_fn : Type :=
  Z -> option Z -> bool -> M (Z * option Z).

(** [__sigaction<SigactionType>]: the return value and what is written to
    [*old_action]. *)
Definition __sigaction (t : SigactionType) (signal : Z)
    (new_action : option sigaction_s) (old_action : bool)
    (linked : linked_sigaction_fn) : M (Z * option sigaction_s) :=
  debuggable <- gets is_signal_hook_debuggable ;;
  if debuggable : bool then ret (0, None)
  else if (signal <=? 0) || (signal >=? NSIG plat) then
    modify (set_errno EINVAL) ;;
    ret (-1, None)
  else
    (match new_action with
     | Some na =>
         if (signal =? SIGSEGV) && (sa_handler na =? SIG_DFL)
         then LogError "Setting SIGSEGV to SIG_DFL" ;; LogStack
         else ret tt
     | None => ret tt
     end) ;;
    c <- gets (fun p => chains p signal) ;;
    if IsClaimed c then
      let saved_action := GetAction t c in
      (match new_action with
       | Some na =>
           modify (fun p => set_chain signal (SetAction t na (chains p signal)) p)
       | None => ret tt
       end) ;;
      ret (0, if old_action then Some saved_action else None)
    else linked signal new_action old_action.

Definition sigaction (signal : Z) (new_action : option sigaction_s)
    (old_action : bool) : M (Z * option sigaction_s) :=
  __sigaction struct_sigaction signal new_action old_action
    (linked_sigaction struct_sigaction).

(** Bionic only. *)
Definition sigaction64 (signal : Z) (new_action : option sigaction_s)
    (old_action : bool) : M (Z * option sigaction_s) :=
  __sigaction struct_sigaction64 signal new_action old_action
    (linked_sigaction struct_sigaction64).

(** [signal(int signo, sighandler_t handler)] *)
Definition signal (signo : Z) (handler : Z) : M Z :=
  if (signo <=? 0) || (signo >=? NSIG plat) then
    modify (set_errno EINVAL) ;;
    ret SIG_ERR
  else
    let sa := {| sa_handler := handler;
                 sa_flags := Z.lor SA_RESTART SA_ONSTACK;
                 sa_mask := sigemptyset;
                 sa_restorer := 0 |} in
    c <- gets (fun p => chains p signo) ;;
    if IsClaimed c then
      let oldhandler := sa_handler (GetAction struct_sigaction c) in
      modify (fun p =>
        set_chain signo (SetAction struct_sigaction sa (chains p signo)) p) ;;
      ret oldhandler
    else
      r <- linked_sigaction struct_sigaction signo (Some sa) true ;;
      if fst r =? -1 then ret SIG_ERR
      else ret (sa_handler (match snd r with Some old => old | None => sa end)).

(** 32-bit builds only. *)
Definition bsd_signal (signo : Z) (handler : Z) : M Z := signal signo handler.

(** Lines 673-677: the claimed signals leave the copy of the caller's set.
    [sigismember] is used as a condition, so its -1 counts as true. *)
Definition remove_claimed_step (w : Z) (chains_ : Z -> SignalChain)
    (tmpset : Z) (i : nat) : Z :=
  if IsClaimed (chains_ (Z.of_nat i))
     && negb (sigismember plat w tmpset (Z.of_nat i) =? 0)
  then sigdelset plat w tmpset (Z.of_nat i)
  else tmpset.

Definition remove_claimed (w : Z) (chains_ : Z -> SignalChain) (tmpset : Z) : Z :=
  fold_left (remove_claimed_step w chains_)
            (seq 1 (Z.to_nat (NSIG plat - 1))) tmpset.

(** [__sigprocmask<SigsetType>] *)
Definition __sigprocmask (t : SigsetType) (how : Z) (new_set : option Z)
    (old_set : bool) (linked : linked_sigprocmask_fn) : M (Z * option Z) :=
  handling <- gets GetHandlingSignalAny ;;
  if handling : bool then linked how new_set old_set
  else
    match new_set with
    | Some set =>
        chains_ <- gets chains ;;
        let tmpset :=
          if (how =? SIG_BLOCK) || (how =? SIG_SETMASK)
          then remove_claimed (bits_of plat t) chains_ set
          else set in
        linked how (Some tmpset) old_set
    | None => linked how None old_set
    end.

Definition sigprocmask (how : Z) (new_set : option Z) (old_set : bool)
    : M (Z * option Z) :=
  __sigprocmask sigset_t how new_set old_set (linked_sigprocmask sigset_t).

(** Bionic only. *)
Definition sigprocmask64 (how : Z) (new_set : option Z) (old_set : bool)
    : M (Z * option Z) :=
  __sigprocmask sigset64_t how new_set old_set (linked_sigprocmask sigset64_t).

Definition AddSpecialSignalHandlerFn (signal : Z) (sa : SigchainAction) : M unit :=
  if (signal <=? 0) || (signal >=? NSIG plat) then fatal "Invalid signal"
  else
    AddSpecialHandler signal sa ;;
    Claim signal signal.

Definition RemoveSpecialSignalHandlerFn (signal : Z) (fn : Z) : M unit :=
  if (signal <=? 0) || (signal >=? NSIG plat) then fatal "Invalid signal"
  else RemoveSpecialHandler signal fn.

Definition EnsureFrontOfChain (signal : Z) : M unit :=
  if (signal <=? 0) || (signal >=? NSIG plat) then fatal "Invalid signal"
  else
    r <- linked_sigaction action_type signal None true ;;
    let current_action :=
      match snd r with Some a => a | None => indeterminate_sigaction code end in
    if negb (sa_sigaction current_action =? Handler_addr code) then
      LogError "Warning: Unexpected sigaction action found" ;;
      Register signal signal
    else ret tt.

Definition SkipAddSignalHandler (value : bool) : M unit :=
  modify (set_debuggable value).

(** *** [signal] as the specification words it

    "Equivalent to [sigaction] with flags [SA_RESTART | SA_ONSTACK] and an
    empty mask; the previous one-argument handler is returned": the
    interposed [sigaction] on that action, with the result read back from
    the same structure, [SIG_ERR] when [sigaction] fails. *)
Definition signal_by_sigaction (signo : Z) (handler : Z) : M Z :=
  let sa := {| sa_handler := handler;
               sa_flags := Z.lor SA_RESTART SA_ONSTACK;
               sa_mask := sigemptyset;
               sa_restorer := 0 |} in
  r <- sigaction signo (Some sa) true ;;
  if fst r =? -1 then ret SIG_ERR
  else ret (sa_handler (match snd r with Some old => old | None => sa end)).

End Sigchain.

Arguments Sys : clear implicits.
Arguments Proc : clear implicits.
Arguments Libc : clear implicits.
Arguments Code : clear implicits.
Arguments Outcome : clear implicits.
Arguments M : clear implicits.
Arguments Ret {OS A} a p.
Arguments Fatal {OS A} msg.
Arguments NoReturn {OS A}.

(** The state a computation returns in, if it returns. *)
Definition final_state {OS A} (r : list Event * Outcome OS A) : option (Proc OS) :=
  match snd r with
  | Ret _ p => Some p
  | _ => None
  end.

(** The value a computation returns, if it returns. *)
Definition returned {OS A} (r : list Event * Outcome OS A) : option A :=
  match snd r with
  | Ret a _ => Some a
  | _ => None
  end.

(** ** Observations on traces *)

Definition is_special_call (e : Event) : bool :=
  match e with EvSpecialHandler _ _ _ _ => true | _ => false end.

Definition is_user_call (e : Event) : bool :=
  match e with EvSaSigaction _ _ _ | EvSaHandler _ _ => true | _ => false end.

Definition is_linked_sigaction (e : Event) : bool :=
  match e with EvLinkedSigaction _ _ _ _ => true | _ => false end.

Definition is_log (e : Event) : bool :=
  match e with EvLogError _ | EvLogStack => true | _ => false end.

(** The invocations of the user's handler in a trace. *)
Definition user_calls (t : list Event) : list Event := filter is_user_call t.

(** A trace without its diagnostics. *)
Definition without_logs (t : list Event) : list Event :=
  filter (fun e => negb (is_log e)) t.

(** The invocation of the user's handler that an action asks for, by its
    declared style: the three-argument handler under SA_SIGINFO, else the
    one-argument handler unless it is SIG_IGN or SIG_DFL. *)
Definition dispatch_by_style (signo : Z) (action : sigaction_s)
    (info : siginfo_t) : list Event :=
  if negb (Z.land (sa_flags action) SA_SIGINFO =? 0)
  then [EvSaSigaction (sa_sigaction action) signo info]
  else if (sa_handler action =? SIG_IGN) || (sa_handler action =? SIG_DFL)
  then []
  else [EvSaHandler (sa_handler action) signo].

(** The diagnostics of lines 582-585. *)
Definition sigsegv_dfl_log (plat : Platform) (signal : Z) (new_action : option sigaction_s)
    : list Event :=
  match new_action with
  | Some na =>
      if (signal =? SIGSEGV) && (sa_handler na =? SIG_DFL)
      then EvLogError "Setting SIGSEGV to SIG_DFL"
           :: (if bionic plat then [EvLogStack] else [])
      else []
  | None => []
  end.

(** The real [sigprocmask] treats signal [s] as POSIX says, where
    [blocked s k] tells whether [s] is blocked in the kernel state [k]. *)
Definition sigprocmask_posix_for {OS} (blocked : Z -> OS -> bool)
    (libc : Libc OS) (t : SigsetType) (s : Z) : Prop :=
  forall how set old_requested (y : Sys OS),
    blocked s (kernel (snd (libc_sigprocmask libc t how (Some set) old_requested y))) =
    if how =? SIG_BLOCK then blocked s (kernel y) || Z.testbit set (s - 1)
    else if how =? SIG_UNBLOCK then blocked s (kernel y) && negb (Z.testbit set (s - 1))
    else if how =? SIG_SETMASK then Z.testbit set (s - 1)
    else blocked s (kernel y).

(** ** A small system to run the library on

    A kernel that keeps one disposition per signal and the mask of the
    calling thread, and follows POSIX: [sigaction] hands out the previous
    disposition and stores the new one with the flags it does not know
    cleared; [sigprocmask] hands out the previous mask and blocks, unblocks
    or replaces. *)
Module Linux.

Record kernel_state := mkKernel {
  k_action : Z -> sigaction_s;
  k_mask : Z;
  k_known_flags : Z
}.

Definition real_sigaction (t : SigactionType) (signo : Z)
    (new_action : option sigaction_s) (old_requested : bool)
    (s : Sys kernel_state) : Z * option sigaction_s * Sys kernel_state :=
  if (signo <=? 0) || (signo >=? 65) then
    (-1, None, mkSys EINVAL (kernel s))
  else
    let k := kernel s in
    let k' :=
      match new_action with
      | Some a =>
          {| k_action := fun i =>
               if i =? signo
               then {| sa_handler := sa_handler a;
                       sa_flags := Z.land (sa_flags a) (k_known_flags k);
                       sa_mask := sa_mask a;
                       sa_restorer := sa_restorer a |}
               else k_action k i;
             k_mask := k_mask k;
             k_known_flags := k_known_flags k |}
      | None => k
      end in
    (0, Some (k_action k signo), mkSys (errno s) k').

Definition real_sigprocmask (t : SigsetType) (how : Z) (new_set : option Z)
    (old_requested : bool) (s : Sys kernel_state)
    : Z * option Z * Sys kernel_state :=
  let k := kernel s in
  let with_mask m :=
    (0, Some (k_mask k),
     mkSys (errno s)
       {| k_action := k_action k; k_mask := m; k_known_flags := k_known_flags k |}) in
  match new_set with
  | None => with_mask (k_mask k)
  | Some set =>
      if how =? SIG_BLOCK then with_mask (Z.lor (k_mask k) set)
      else if how =? SIG_UNBLOCK then with_mask (Z.land (k_mask k) (Z.lnot set))
      else if how =? SIG_SETMASK then with_mask set
      else (-1, None, mkSys EINVAL k)
  end.

Definition libc : Libc kernel_state :=
  {| libc_sigaction := real_sigaction;
     libc_sigprocmask := real_sigprocmask;
     mallopt_should_intercept_mte_sigsegv := fun _ => 1;
     untag_address := fun a => Z.land a (Z.ones 56) |}.

(** Is signal [s] blocked for the calling thread? *)
Definition blocked (s : Z) (k : kernel_state) : bool := Z.testbit (k_mask k) (s - 1).

(** Handlers: the special handler at address 100 declines, the one at 101
    takes the signal, the one at 102 does not come back; user handlers
    return and leave the process as it is. *)
Definition code : Code kernel_state :=
  {| special_code := fun fn signo info uc p =>
       if fn =? 100 then Some (false, info, uc, p)
       else if fn =? 101 then Some (true, info, uc, p)
       else None;
     android_handle_signal := None;
     sa_sigaction_code := fun _ _ _ _ p => Some p;
     sa_handler_code := fun _ _ p => Some p;
     Handler_addr := 4096;
     indeterminate_sigset := 0;
     indeterminate_sigaction := zero_sigaction |}.

(** A kernel that knows the base flags and SA_EXPOSE_TAGBITS. *)
Definition known_flags : Z := 0xDC000807.

Definition boot_kernel : kernel_state :=
  {| k_action := fun _ => zero_sigaction; k_mask := 0; k_known_flags := known_flags |}.

(** The process as the library is loaded. *)
Definition boot : Proc kernel_state :=
  {| chains := fun _ => zero_SignalChain;
     is_signal_hook_debuggable := false;
     handling_keys := fun _ => 0;
     sys := mkSys 0 boot_kernel |}.

(** The process after a computation, or as it was if that did not return. *)
Definition after {A} (m : M kernel_state A) (p : Proc kernel_state)
    : Proc kernel_state :=
  match final_state (m p) with
  | Some p' => p'
  | None => p
  end.

Definition declining : SigchainAction :=
  {| sc_sigaction := 100; sc_mask := 0; sc_flags := 0 |}.

Definition taking : SigchainAction :=
  {| sc_sigaction := 101; sc_mask := 0; sc_flags := 0 |}.

Definition leaving : SigchainAction :=
  {| sc_sigaction := 102; sc_mask := 0; sc_flags := SIGCHAIN_ALLOW_NORETURN |}.

(** Android on arm64 after the runtime has claimed SIGSEGV with a special
    handler that declines every signal. *)
Definition segv_claimed : Proc kernel_state :=
  after (AddSpecialSignalHandlerFn android_arm64 libc code SIGSEGV declining) boot.

(** The same with the application's three-argument handler 7777 stored by
    the interposed [sigaction]. *)
Definition segv_with_user_handler : Proc kernel_state :=
  after (sigaction android_arm64 libc code SIGSEGV
           (Some (mkSigaction 7777 SA_SIGINFO 0 0)) false) segv_claimed.



(** The application installs handler 8888 for SIGSEGV before the runtime
    claims the signal, and handler 7777 afterwards. *)
Definition segv_with_two_handlers : Proc kernel_state :=
  after (sigaction android_arm64 libc code SIGSEGV
           (Some (mkSigaction 7777 SA_SIGINFO 0 0)) false)
    (after (AddSpecialSignalHandlerFn android_arm64 libc code SIGSEGV declining)
       (after (sigaction android_arm64 libc code SIGSEGV
                 (Some (mkSigaction 8888 SA_SIGINFO 0 0)) false) boot)).

End Linux.

(** ** The rest of the library

    sigchain.cc:179-184 [IsPowerOfTwo], on the unsigned type of [size_t]. *)
Definition IsPowerOfTwo (plat : Platform) (x : Z) : bool :=
  Z.land x (size_t plat (x - 1)) =? 0.

(** The table of special handlers is filled from the front: the installed
    handlers are the slots before the first free one. *)
Definition is_free_slot (a : SigchainAction) : bool := sc_sigaction a =? nullptr.

Fixpoint installed_handlers (l : list SigchainAction) : list SigchainAction :=
  match l with
  | [] => []
  | a :: tl => if is_free_slot a then [] else a :: installed_handlers tl
  end.

Fixpoint null_terminated (l : list SigchainAction) : bool :=
  match l with
  | [] => true
  | a :: tl => if is_free_slot a then forallb is_free_slot tl else null_terminated tl
  end.

Fixpoint remove_first_handler (fn : Z) (l : list SigchainAction)
    : list SigchainAction :=
  match l with
  | [] => []
  | a :: tl => if sc_sigaction a =? fn then tl else a :: remove_first_handler fn tl
  end.

Definition has_handler (fn : Z) (l : list SigchainAction) : bool :=
  existsb (fun a => sc_sigaction a =? fn) l.

(** ** More observations on traces *)

(** The special handlers a trace shows as called, in the order of the calls. *)
Definition called_handlers (t : list Event) : list SigchainAction :=
  flat_map (fun e => match e with EvSpecialHandler h _ _ _ => [h] | _ => [] end) t.

(** What the special handlers of a trace answered ([None]: did not return). *)
Definition special_results (t : list Event) : list (option bool) :=
  flat_map (fun e => match e with EvSpecialHandler _ _ _ res => [res] | _ => [] end) t.

(** No special handler changes the table of special handlers of [signo]. *)
Definition keeps_special_handlers {OS} (code : Code OS) (signo : Z) : Prop :=
  forall fn s info uc (q : Proc OS) b info' uc' q',
    special_code code fn s info uc q = Some (b, info', uc', q') ->
    special_handlers_ (chains q' signo) = special_handlers_ (chains q signo).

Definition is_android_call (e : Event) : bool :=
  match e with EvAndroidHandleSignal _ _ => true | _ => false end.

(** A call of code that is not the library's: a special handler,
    [android_handle_signal] or a handler of the user. *)
Definition is_handler_call (e : Event) : bool :=
  is_special_call e || is_android_call e || is_user_call e.

(** ** sigchain.cc:200-212 [GetHandlingSignalKey], the first call

    Under [std::call_once] the first call in the process creates the keys,
    one [pthread_key_create] after the other, and a failure is fatal;
    [pthread_key_create i] is the answer for key [i].  Later calls find the
    keys. *)
Fixpoint create_handling_signal_keys {OS} (pthread_key_create : Z -> Z)
    (n i : nat) : M OS unit :=
  match n with
  | O => ret tt
  | S n' =>
      if pthread_key_create (Z.of_nat i) =? 0
      then create_handling_signal_keys pthread_key_create n' (S i)
      else fatal "failed to create sigchain pthread key"
  end.

Definition GetHandlingSignalKey_once {OS} (plat : Platform) (keys_created : bool)
    (pthread_key_create : Z -> Z) : M OS unit :=
  if keys_created then ret tt
  else create_handling_signal_keys pthread_key_create
         (Z.to_nat (kHandlingSignalKeyCount plat)) 0.

(** [Handler] as the kernel enters it, in a process that may not have the
    keys yet: [GetHandlingSignal(signo)] of line 435 is its first statement
    and reaches [GetHandlingSignalKey] before anything else is done. *)
Definition Handler_on_entry {OS} (plat : Platform) (libc : Libc OS) (code : Code OS)
    (keys_created : bool) (pthread_key_create : Z -> Z)
    (signo : Z) (info : siginfo_t) (uc : ucontext_t) : M OS unit :=
  bind (GetHandlingSignalKey_once plat keys_created pthread_key_create)
       (fun _ => Handler plat libc code signo info uc).

(** ** More states and code of the small system *)
Module Scenario.

(** The declining special handler first, the taking one second. *)
Definition segv_declined_then_taken : Proc Linux.kernel_state :=
  Linux.after (AddSpecialSignalHandlerFn android_arm64 Linux.libc Linux.code
                 SIGSEGV Linux.taking) Linux.segv_claimed.

(** The code of [Linux.code] with an [android_handle_signal] linked in that
    recovers from every signal. *)
Definition code_with_recovery : Code Linux.kernel_state :=
  {| special_code := special_code Linux.code;
     android_handle_signal := Some (fun _ info uc p => Some (true, info, uc, p));
     sa_sigaction_code := sa_sigaction_code Linux.code;
     sa_handler_code := sa_handler_code Linux.code;
     Handler_addr := Handler_addr Linux.code;
     indeterminate_sigset := indeterminate_sigset Linux.code;
     indeterminate_sigaction := indeterminate_sigaction Linux.code |}.

(** The application installs handler 8888 for SIGSEGV before anything is
    claimed. *)
Definition segv_of_application : Proc Linux.kernel_state :=
  Linux.after (sigaction android_arm64 Linux.libc Linux.code SIGSEGV
                 (Some (mkSigaction 8888 SA_SIGINFO 0 0)) false) Linux.boot.

End Scenario.

(** ** Bit-level facts about the signal-set operations *)

Lemma sigbit_testbit (s b : Z) :
  0 < s -> 0 <= b -> Z.testbit (sigbit s) b = (b =? s - 1).
Proof.
  intros Hs Hb. unfold sigbit.
  rewrite Z.shiftl_1_l.
  destruct (Z.eqb_spec b (s - 1)) as [->|Hne].
  - apply Z.pow2_bits_true; lia.
  - apply Z.pow2_bits_false; lia.
Qed.

Lemma sig_settable_range plat w s :
  sig_settable plat w s = true -> 0 < s.
Proof.
  unfold sig_settable, sig_in_set_range. intros H.
  apply andb_prop in H. destruct H as [H _].
  apply andb_prop in H. destruct H as [H _].
  apply andb_prop in H. destruct H as [H _].
  now apply Z.ltb_lt.
Qed.

Lemma sigaddset_testbit plat w set s b :
  0 <= b ->
  Z.testbit (sigaddset plat w set s) b =
  Z.testbit set b || (sig_settable plat w s && (b =? s - 1)).
Proof.
  intros Hb. unfold sigaddset.
  destruct (sig_settable plat w s) eqn:Hr; simpl.
  - rewrite Z.lor_spec, sigbit_testbit; auto.
    now apply sig_settable_range in Hr.
  - now rewrite orb_false_r.
Qed.

Lemma sigdelset_testbit plat w set s b :
  0 <= b ->
  Z.testbit (sigdelset plat w set s) b =
  Z.testbit set b && negb (sig_settable plat w s && (b =? s - 1)).
Proof.
  intros Hb. unfold sigdelset.
  destruct (sig_settable plat w s) eqn:Hr; simpl.
  - rewrite Z.land_spec, Z.lnot_spec, sigbit_testbit; auto.
    now apply sig_settable_range in Hr.
  - now rewrite andb_true_r.
Qed.

Lemma sigismember_is_1 plat w set s :
  (sigismember plat w set s =? 1) =
  sig_in_set_range plat w s && Z.testbit set (s - 1).
Proof.
  unfold sigismember.
  destruct (sig_in_set_range plat w s); simpl; auto.
  destruct (Z.testbit set (s - 1)); reflexivity.
Qed.

Lemma sigorset_step_testbit plat w left right dest (i : nat) b :
  0 <= b ->
  Z.testbit (sigorset_step plat w left right dest i) b =
  Z.testbit dest b
  || ((Z.testbit left b || Z.testbit right b)
        && sig_settable plat w (b + 1) && (b + 1 =? Z.of_nat i)).
Proof.
  intros Hb. unfold sigorset_step.
  rewrite !sigismember_is_1, <- andb_orb_distrib_r.
  destruct (Z.eqb_spec (b + 1) (Z.of_nat i)) as [Heq|Hne].
  - rewrite <- Heq. replace (b + 1 - 1) with b by lia.
    rewrite andb_true_r. unfold sig_settable at 1.
    destruct (sig_in_set_range plat w (b + 1)) eqn:Hr; cbn [andb].
    + destruct (Z.testbit left b || Z.testbit right b); cbn [andb].
      * rewrite sigaddset_testbit by auto. unfold sig_settable. rewrite Hr.
        replace (b =? b + 1 - 1) with true by (symmetry; apply Z.eqb_eq; lia).
        cbn [andb]. now rewrite andb_true_r.
      * now rewrite orb_false_r.
    + now rewrite andb_false_r, orb_false_r.
  - rewrite andb_false_r, orb_false_r.
    match goal with |- Z.testbit (if ?c then _ else _) _ = _ => destruct c end; auto.
    rewrite sigaddset_testbit by auto.
    replace (b =? Z.of_nat i - 1) with false by (symmetry; apply Z.eqb_neq; lia).
    now rewrite andb_false_r, orb_false_r.
Qed.

(** The loop of [sigorset] after its first [n] rounds. *)
Lemma sigorset_prefix plat w left right (n : nat) b :
  0 <= b ->
  Z.testbit (fold_left (sigorset_step plat w left right) (seq 0 n) sigemptyset) b =
  (Z.testbit left b || Z.testbit right b)
    && sig_settable plat w (b + 1) && (b + 1 <? Z.of_nat n).
Proof.
  intros Hb. induction n as [|n IH].
  - cbn [seq fold_left]. unfold sigemptyset. rewrite Z.bits_0.
    destruct (Z.ltb_spec (b + 1) (Z.of_nat 0)); [lia|].
    now rewrite andb_false_r.
  - rewrite seq_S, fold_left_app. cbn [fold_left Nat.add].
    rewrite sigorset_step_testbit, IH by auto.
    rewrite <- andb_orb_distrib_r. f_equal.
    destruct (Z.ltb_spec (b + 1) (Z.of_nat n)), (Z.eqb_spec (b + 1) (Z.of_nat n)),
      (Z.ltb_spec (b + 1) (Z.of_nat (S n))); simpl; auto; lia.
Qed.

(** What [sigorset] computes: the union of the two sets on the signals
    strictly below the width of the set type (and below [_NSIG]) that
    [sigaddset] does not refuse. *)
Lemma sigorset_testbit plat w left right b :
  0 <= b -> 0 <= w ->
  Z.testbit (sigorset plat w left right) b =
  (Z.testbit left b || Z.testbit right b)
    && ((b + 1 <? w) && (b + 1 <? NSIG plat))
    && negb (is_internal_signal plat (b + 1)).
Proof.
  intros Hb Hw. unfold sigorset.
  rewrite sigorset_prefix by auto.
  rewrite Z2Nat.id by auto.
  unfold sig_settable, sig_in_set_range.
  destruct (is_internal_signal plat (b + 1)); cbn [negb];
    rewrite ?andb_true_r, ?andb_false_r; [reflexivity|].
  destruct (Z.ltb_spec 0 (b + 1)); [|lia].
  destruct (Z.ltb_spec (b + 1) w), (Z.leb_spec (b + 1) w),
    (Z.ltb_spec (b + 1) (NSIG plat)); simpl;
    rewrite ?andb_true_r, ?andb_false_r; auto; lia.
Qed.

(** ** The interposed [sigaction] *)

Section SigactionProperties.

Context (plat : Platform) {OS : Type} (libc : Libc OS) (code : Code OS).

(** The part of [GetAction] that does not depend on the structure type. *)
Lemma GetAction_fields t c :
  sa_flags (GetAction plat code t c) = sa_flags (action_ c)
  /\ sa_handler (GetAction plat code t c) = sa_handler (action_ c)
  /\ (t = action_type plat -> GetAction plat code t c = action_ c)
  /\ (forall b, 0 <= b < Z.min (sa_mask_bits plat (action_type plat)) (sa_mask_bits plat t) ->
        Z.testbit (sa_mask (GetAction plat code t c)) b = Z.testbit (sa_mask (action_ c)) b).
Proof.
  unfold GetAction.
  destruct (SigactionType_eqb (action_type plat) t) eqn:E.
  - repeat split; auto.
  - cbn [sa_flags sa_handler sa_mask]. repeat split.
    + intros ->. destruct (action_type plat); discriminate.
    + intros b Hb. unfold memcpy_bits.
      rewrite Z.lor_spec, !Z.land_spec, Z.lnot_spec by lia.
      rewrite Z.ones_spec_low by lia.
      now rewrite andb_true_r, andb_false_r, orb_false_r.
Qed.

Lemma SetAction_flags t na c :
  sa_flags (action_ (SetAction plat t na c)) =
  Z.land (sa_flags na) (kernel_supported_flags_ c).
Proof.
  unfold SetAction. cbn [action_ with_action with_flags sa_flags].
  destruct (SigactionType_eqb (action_type plat) t); reflexivity.
Qed.

Lemma SetAction_frame t na c :
  claimed_ (SetAction plat t na c) = claimed_ c
  /\ kernel_supported_flags_ (SetAction plat t na c) = kernel_supported_flags_ c
  /\ sa_handler (action_ (SetAction plat t na c)) = sa_handler na.
Proof.
  unfold SetAction. cbn.
  destruct (SigactionType_eqb (action_type plat) t); auto.
Qed.

Lemma set_chain_same (p : Proc OS) s c : chains (set_chain s c p) s = c.
Proof. unfold set_chain. cbn. now rewrite Z.eqb_refl. Qed.

Lemma log_is_not_linked_sigaction e :
  is_log e = true -> is_linked_sigaction e = false.
Proof. destruct e; simpl; congruence. Qed.

Lemma sigsegv_dfl_log_is_log signal new_action e :
  In e (sigsegv_dfl_log plat signal new_action) -> is_log e = true.
Proof.
  unfold sigsegv_dfl_log. destruct new_action as [na|]; [|intros []].
  destruct ((signal =? SIGSEGV) && (sa_handler na =? SIG_DFL)); [|intros []].
  destruct (bionic plat); simpl; intuition (subst; reflexivity).
Qed.

(** What [__sigaction] does to a signal number out of range when the debug
    toggle is off. *)
Lemma __sigaction_out_of_range t signo new_action old_action linked (p : Proc OS) :
  is_signal_hook_debuggable p = false ->
  signo <= 0 \/ signo >= NSIG plat ->
  __sigaction plat code t signo new_action old_action linked p =
    ([], Ret (-1, None) (set_errno EINVAL p)).
Proof.
  intros Hd Hs.
  unfold __sigaction, bind, gets, ret, modify. rewrite Hd.
  destruct (Z.leb_spec signo 0), (Z.geb_spec signo (NSIG plat)); try lia; reflexivity.
Qed.

(** What [__sigaction] does to a claimed signal when the debug toggle is off. *)
Lemma __sigaction_claimed t signal new_action old_action linked (p : Proc OS) :
  is_signal_hook_debuggable p = false ->
  0 < signal < NSIG plat ->
  claimed_ (chains p signal) = true ->
  __sigaction plat code t signal new_action old_action linked p =
  (sigsegv_dfl_log plat signal new_action,
   Ret (0, if old_action then Some (GetAction plat code t (chains p signal)) else None)
       (match new_action with
        | Some na => set_chain signal (SetAction plat t na (chains p signal)) p
        | None => p
        end)).
Proof.
  intros Hd Hs Hc.
  unfold __sigaction, bind, gets, ret, modify. rewrite Hd.
  destruct (Z.leb_spec signal 0); [lia|].
  destruct (Z.geb_spec signal (NSIG plat)); [lia|]. cbn [orb].
  unfold sigsegv_dfl_log, LogStack, LogError, emit, IsClaimed.
  destruct new_action as [na|].
  - destruct ((signal =? SIGSEGV) && (sa_handler na =? SIG_DFL)).
    + unfold bind. destruct (bionic plat); cbn; rewrite Hc; reflexivity.
    + unfold ret. cbn. rewrite Hc. reflexivity.
  - cbn. rewrite Hc. reflexivity.
Qed.

(** C2 (as amended): with the debug toggle of [SkipAddSignalHandler] off,
    the interposed [sigaction] on a claimed signal [s] copies the chain
    record's previous action to [*old] (same flags and handler, the very
    same structure when the types agree, the same mask on the bits both
    types have), stores [*new] with its flags masked by
    [kernel_supported_flags_], returns 0, leaves the system alone and calls
    no real [sigaction]; a later [sigaction(s, null, &q)] reads back
    [new.flags & kernel_supported_flags_]. *)
Theorem sigaction_claimed_stores_masked t s new_action old_action linked (p : Proc OS) :
  is_signal_hook_debuggable p = false ->
  0 < s < NSIG plat ->
  claimed_ (chains p s) = true ->
  let c := chains p s in
  let saved := GetAction plat code t c in
  let r := __sigaction plat code t s new_action old_action linked p in
  exists p',
    outcome r = Ret (0, if old_action then Some saved else None) p'
    /\ (sa_flags saved = sa_flags (action_ c)
        /\ sa_handler saved = sa_handler (action_ c)
        /\ (t = action_type plat -> saved = action_ c)
        /\ (forall b, 0 <= b < Z.min (sa_mask_bits plat (action_type plat)) (sa_mask_bits plat t) ->
              Z.testbit (sa_mask saved) b = Z.testbit (sa_mask (action_ c)) b))
    /\ chains p' s =
       match new_action with Some na => SetAction plat t na c | None => c end
    /\ sys p' = sys p
    /\ (forall e, In e (events r) -> is_linked_sigaction e = false)
    /\ (forall na, new_action = Some na ->
          sa_flags (action_ (chains p' s)) =
            Z.land (sa_flags na) (kernel_supported_flags_ c)
          /\ forall t' linked',
               exists q p'',
                 outcome (__sigaction plat code t' s None true linked' p') =
                   Ret (0, Some q) p''
                 /\ sa_flags q = Z.land (sa_flags na) (kernel_supported_flags_ c)).
Proof.
  intros Hd Hs Hc c saved r.
  subst r saved c. rewrite __sigaction_claimed by assumption.
  eexists. split; [reflexivity|].
  split; [apply GetAction_fields|].
  split.
  { destruct new_action; [apply set_chain_same | reflexivity]. }
  split.
  { destruct new_action; reflexivity. }
  split.
  { intros e He. apply log_is_not_linked_sigaction.
    now apply sigsegv_dfl_log_is_log in He. }
  intros na ->. rewrite set_chain_same.
  split; [apply SetAction_flags|].
  intros t' linked'.
  rewrite __sigaction_claimed.
  - do 2 eexists. split; [reflexivity|].
    rewrite set_chain_same.
    destruct (GetAction_fields t' (SetAction plat t na (chains p s))) as [-> _].
    apply SetAction_flags.
  - exact Hd.
  - exact Hs.
  - rewrite set_chain_same.
    destruct (SetAction_frame t na (chains p s)) as [-> _]. exact Hc.
Qed.

(** C7 (as amended): with the debug toggle of [SkipAddSignalHandler] off,
    the interposed [sigaction] on a signal number outside (0, _NSIG) returns
    -1 with [errno] set to EINVAL; it writes nothing to [*old], changes
    nothing else and calls nothing. *)
Theorem sigaction_invalid_signo t signo new_action old_action linked (p : Proc OS) :
  is_signal_hook_debuggable p = false ->
  signo <= 0 \/ signo >= NSIG plat ->
  __sigaction plat code t signo new_action old_action linked p =
    ([], Ret (-1, None) (set_errno EINVAL p))
  /\ errno (sys (set_errno EINVAL p)) = EINVAL.
Proof.
  intros Hd Hs. split; [|reflexivity].
  now apply __sigaction_out_of_range.
Qed.

End SigactionProperties.

(** C2, witness: SIGSEGV claimed on Android, a new action with a flag the
    kernel does not know. *)
Lemma sigaction_claimed_stores_masked_witness :
  is_signal_hook_debuggable Linux.segv_claimed = false
  /\ 0 < SIGSEGV < NSIG android_arm64
  /\ claimed_ (chains Linux.segv_claimed SIGSEGV) = true
  /\ exists p',
       outcome (sigaction android_arm64 Linux.libc Linux.code SIGSEGV
                  (Some (mkSigaction 7777 (SA_SIGINFO + 0x100) 0 0)) true
                  Linux.segv_claimed) =
         Ret (0, Some zero_sigaction) p'
       /\ sa_flags (action_ (chains p' SIGSEGV)) = SA_SIGINFO.
Proof.
  split; [reflexivity|]. split; [vm_compute; split; reflexivity|].
  split; [reflexivity|].
  destruct (sigaction_claimed_stores_masked android_arm64 Linux.code
              struct_sigaction SIGSEGV
              (Some (mkSigaction 7777 (SA_SIGINFO + 0x100) 0 0)) true
              (linked_sigaction Linux.libc struct_sigaction)
              Linux.segv_claimed)
    as (p' & Hret & _ & _ & _ & _ & Hq).
  - reflexivity.
  - vm_compute; split; reflexivity.
  - reflexivity.
  - exists p'. split.
    + exact Hret.
    + destruct (Hq _ eq_refl) as [Hf _]. exact Hf.
Defined.

(** C2, counterexample: after [SkipAddSignalHandler(true)] the call on the
    claimed SIGSEGV returns 0 but writes nothing to [*old] and does not
    store [*new]. *)
Lemma sigaction_claimed_debuggable_counterexample :
  let p := set_debuggable true Linux.segv_claimed in
  let na := mkSigaction 7777 SA_SIGINFO 0 0 in
  let r := sigaction android_arm64 Linux.libc Linux.code SIGSEGV (Some na) true p in
  claimed_ (chains p SIGSEGV) = true
  /\ returned r = Some (0, None)
  /\ (forall p', final_state r = Some p' ->
        sa_handler (action_ (chains p' SIGSEGV)) <> sa_handler na).
Proof.
  cbv zeta. split; [reflexivity|]. split; [reflexivity|].
  intros p' H. injection H as <-. vm_compute. discriminate.
Qed.

(** C7, witness: signal 0 and signal _NSIG on Android. *)
Lemma sigaction_invalid_signo_witness :
  returned (sigaction android_arm64 Linux.libc Linux.code 0 None true Linux.boot)
    = Some (-1, None)
  /\ returned (sigaction android_arm64 Linux.libc Linux.code 65 None true Linux.boot)
    = Some (-1, None).
Proof.
  split.
  - unfold sigaction.
    rewrite (proj1 (sigaction_invalid_signo android_arm64 Linux.code
               struct_sigaction 0 None true
               (linked_sigaction Linux.libc struct_sigaction) Linux.boot
               eq_refl (or_introl (Z.le_refl 0)))).
    reflexivity.
  - unfold sigaction.
    rewrite (proj1 (sigaction_invalid_signo android_arm64 Linux.code
               struct_sigaction 65 None true
               (linked_sigaction Linux.libc struct_sigaction) Linux.boot
               eq_refl (or_intror (Z.le_ge _ _ (Z.le_refl 65))))).
    reflexivity.
Defined.

(** C7, counterexample: after [SkipAddSignalHandler(true)] the call on
    signal 0 returns 0 and leaves [errno] as it was. *)
Lemma sigaction_invalid_signo_debuggable_counterexample :
  let p := set_debuggable true Linux.boot in
  let r := sigaction android_arm64 Linux.libc Linux.code 0 None true p in
  returned r = Some (0, None)
  /\ (forall p', final_state r = Some p' -> errno (sys p') <> EINVAL).
Proof.
  cbv zeta. split; [reflexivity|].
  intros p' H. injection H as <-. vm_compute. discriminate.
Qed.


(** ** [signal] against [sigaction] *)

Section SignalProperties.

Context (plat : Platform) {OS : Type} (libc : Libc OS) (code : Code OS).

Lemma without_logs_app t1 t2 :
  without_logs (t1 ++ t2) = without_logs t1 ++ without_logs t2.
Proof. apply filter_app. Qed.

Lemma without_logs_of_logs t :
  (forall e, In e t -> is_log e = true) -> without_logs t = [].
Proof.
  induction t as [|e t IH]; intros H; [reflexivity|].
  unfold without_logs in *. cbn [filter].
  rewrite (H e (or_introl eq_refl)). cbn [negb].
  apply IH. intros e' He'. apply H. now right.
Qed.

Lemma sigsegv_dfl_log_nil signal na :
  ~ (signal = SIGSEGV /\ sa_handler na = SIG_DFL) ->
  sigsegv_dfl_log plat signal (Some na) = [].
Proof.
  intros H. unfold sigsegv_dfl_log.
  destruct (Z.eqb_spec signal SIGSEGV), (Z.eqb_spec (sa_handler na) SIG_DFL);
    cbn [andb]; try reflexivity.
  exfalso. now apply H.
Qed.

(** What [__sigaction] does to a signal that is not claimed when the debug
    toggle is off: the diagnostics, then the real [sigaction]. *)
Lemma __sigaction_unclaimed t signal new_action old_action linked (p : Proc OS) :
  is_signal_hook_debuggable p = false ->
  0 < signal < NSIG plat ->
  claimed_ (chains p signal) = false ->
  __sigaction plat code t signal new_action old_action linked p =
  (sigsegv_dfl_log plat signal new_action
     ++ events (linked signal new_action old_action p),
   outcome (linked signal new_action old_action p)).
Proof.
  intros Hd Hs Hc.
  unfold __sigaction, bind, gets, ret, modify. rewrite Hd.
  destruct (Z.leb_spec signal 0); [lia|].
  destruct (Z.geb_spec signal (NSIG plat)); [lia|]. cbn [orb].
  unfold sigsegv_dfl_log, LogStack, LogError, emit, IsClaimed, events, outcome.
  destruct new_action as [na|].
  - destruct ((signal =? SIGSEGV) && (sa_handler na =? SIG_DFL)).
    + unfold bind. destruct (bionic plat); cbn; rewrite Hc;
        destruct (linked signal (Some na) old_action p); reflexivity.
    + unfold ret. cbn. rewrite Hc.
      destruct (linked signal (Some na) old_action p); reflexivity.
  - cbn. rewrite Hc. destruct (linked signal None old_action p); reflexivity.
Qed.

(** The run of the specification's [signal]: the run of the code's, with
    the diagnostics of [sigaction] in front. *)
Lemma signal_by_sigaction_run signo handler (p : Proc OS) :
  is_signal_hook_debuggable p = false ->
  let sa := {| sa_handler := handler; sa_flags := Z.lor SA_RESTART SA_ONSTACK;
               sa_mask := sigemptyset; sa_restorer := 0 |} in
  let log := if (signo <=? 0) || (signo >=? NSIG plat) then []
             else sigsegv_dfl_log plat signo (Some sa) in
  signal_by_sigaction plat libc code signo handler p =
  (log ++ events (signal plat libc code signo handler p),
   outcome (signal plat libc code signo handler p)).
Proof.
  intros Hd sa log. subst log.
  unfold signal_by_sigaction, signal, sigaction. fold sa.
  destruct ((signo <=? 0) || (signo >=? NSIG plat)) eqn:Hr.
  - unfold bind at 1.
    rewrite (__sigaction_out_of_range plat code struct_sigaction signo
               (Some sa) true (linked_sigaction libc struct_sigaction) p Hd
               ltac:(destruct (Z.leb_spec signo 0), (Z.geb_spec signo (NSIG plat));
                     (discriminate || lia))).
    reflexivity.
  - assert (Hs : 0 < signo < NSIG plat).
    { destruct (Z.leb_spec signo 0), (Z.geb_spec signo (NSIG plat)); (discriminate || lia). }
    unfold bind at 1.
    destruct (claimed_ (chains p signo)) eqn:Hc.
    + rewrite (__sigaction_claimed plat code struct_sigaction signo (Some sa) true
                 (linked_sigaction libc struct_sigaction) p Hd Hs Hc).
      unfold bind, gets, modify, ret, IsClaimed, events, outcome.
      rewrite Hc. reflexivity.
    + rewrite (__sigaction_unclaimed struct_sigaction signo (Some sa) true
                 (linked_sigaction libc struct_sigaction) p Hd Hs Hc).
      unfold bind, gets, IsClaimed, events, outcome.
      rewrite Hc.
      destruct (linked_sigaction libc struct_sigaction signo (Some sa) true p)
        as [t0 [[r0 o0] p0| |]]; cbn [fst snd app]; try reflexivity.
      destruct (r0 =? -1); unfold ret; cbn [fst snd app];
        now rewrite app_assoc.
Qed.

(** C9 (as amended): with the debug toggle of [SkipAddSignalHandler] off,
    [signal(signo, h)] returns what the interposed [sigaction] on an action
    with handler [h], flags SA_RESTART | SA_ONSTACK and an empty mask leads
    to (the previous handler, SIG_ERR when [sigaction] fails), ends in the
    same state and makes the same calls; it only leaves out the diagnostics
    [sigaction] logs when SIGSEGV is set to SIG_DFL. *)
Theorem signal_as_sigaction signo handler (p : Proc OS) :
  is_signal_hook_debuggable p = false ->
  let r := signal plat libc code signo handler p in
  let r' := signal_by_sigaction plat libc code signo handler p in
  outcome r = outcome r'
  /\ without_logs (events r) = without_logs (events r')
  /\ (~ (signo = SIGSEGV /\ handler = SIG_DFL) -> events r = events r').
Proof.
  intros Hd r r'. subst r r'.
  rewrite (signal_by_sigaction_run signo handler p Hd).
  unfold events at 3 5, outcome at 2. cbn [fst snd].
  set (sa := {| sa_handler := handler; sa_flags := Z.lor SA_RESTART SA_ONSTACK;
                sa_mask := sigemptyset; sa_restorer := 0 |}).
  split; [reflexivity|].
  destruct ((signo <=? 0) || (signo >=? NSIG plat)); [now auto|].
  split.
  - rewrite without_logs_app,
      (without_logs_of_logs (sigsegv_dfl_log plat signo (Some sa))); [reflexivity|].
    apply (sigsegv_dfl_log_is_log plat signo (Some sa)).
  - intros Hn. now rewrite (sigsegv_dfl_log_nil signo sa).
Qed.

End SignalProperties.

(** C9, witness: [signal] on the claimed SIGSEGV and on a signal nobody
    claimed. *)
Lemma signal_as_sigaction_witness :
  outcome (signal android_arm64 Linux.libc Linux.code SIGSEGV 7777 Linux.segv_claimed)
    = outcome (signal_by_sigaction android_arm64 Linux.libc Linux.code SIGSEGV 7777
                 Linux.segv_claimed)
  /\ outcome (signal android_arm64 Linux.libc Linux.code 10 7777 Linux.segv_claimed)
    = outcome (signal_by_sigaction android_arm64 Linux.libc Linux.code 10 7777
                 Linux.segv_claimed).
Proof.
  split.
  - exact (proj1 (signal_as_sigaction android_arm64 Linux.libc Linux.code
                    SIGSEGV 7777 Linux.segv_claimed eq_refl)).
  - exact (proj1 (signal_as_sigaction android_arm64 Linux.libc Linux.code
                    10 7777 Linux.segv_claimed eq_refl)).
Defined.

(** C9, counterexample: after [SkipAddSignalHandler(true)], [signal] still
    stores the handler in the chain record of the claimed SIGSEGV while the
    interposed [sigaction] does nothing. *)
Lemma signal_debuggable_counterexample :
  let p := set_debuggable true Linux.segv_claimed in
  exists p1 p2,
    final_state (signal android_arm64 Linux.libc Linux.code SIGSEGV 7777 p) = Some p1
    /\ final_state (signal_by_sigaction android_arm64 Linux.libc Linux.code
                      SIGSEGV 7777 p) = Some p2
    /\ sa_handler (action_ (chains p1 SIGSEGV)) = 7777
    /\ sa_handler (action_ (chains p2 SIGSEGV)) = 0.
Proof.
  cbv zeta. do 2 eexists.
  split; [reflexivity|]. split; [reflexivity|].
  split; reflexivity.
Qed.

(** ** The interposed [sigprocmask] *)

Section SigprocmaskProperties.

Context (plat : Platform) {OS : Type} (libc : Libc OS).

Lemma remove_claimed_step_testbit w (ch : Z -> SignalChain) set (i : nat) b :
  0 <= b ->
  Z.testbit (remove_claimed_step plat w ch set i) b =
  Z.testbit set b
  && negb (claimed_ (ch (Z.of_nat i)) && sig_settable plat w (Z.of_nat i)
           && (b =? Z.of_nat i - 1)).
Proof.
  intros Hb. unfold remove_claimed_step, IsClaimed.
  destruct (claimed_ (ch (Z.of_nat i))); cbn [andb negb].
  2: now rewrite andb_true_r.
  unfold sigismember.
  destruct (sig_in_set_range plat w (Z.of_nat i)) eqn:Hr; cbn [andb negb].
  - destruct (Z.testbit set (Z.of_nat i - 1)) eqn:Hm; cbn [Z.eqb negb].
    + now rewrite sigdelset_testbit by auto.
    + destruct (Z.eqb_spec b (Z.of_nat i - 1)) as [->|_].
      * rewrite Hm. reflexivity.
      * now rewrite andb_false_r, andb_true_r.
  - cbn [Z.eqb negb]. unfold sigdelset, sig_settable. rewrite Hr.
    cbn [andb negb]. now rewrite andb_true_r.
Qed.

Lemma remove_claimed_prefix w (ch : Z -> SignalChain) set (n : nat) b :
  0 <= b ->
  Z.testbit (fold_left (remove_claimed_step plat w ch) (seq 1 n) set) b =
  Z.testbit set b
  && negb (claimed_ (ch (b + 1)) && sig_settable plat w (b + 1)
           && (b + 1 <=? Z.of_nat n)).
Proof.
  intros Hb. induction n as [|n IH].
  - cbn [seq fold_left].
    destruct (Z.leb_spec (b + 1) (Z.of_nat 0)); [lia|].
    now rewrite andb_false_r, andb_true_r.
  - rewrite seq_S, fold_left_app. cbn [fold_left].
    rewrite remove_claimed_step_testbit, IH by auto.
    rewrite <- andb_assoc. f_equal.
    destruct (Z.eqb_spec b (Z.of_nat (1 + n) - 1)) as [Heq|Hne].
    + replace (Z.of_nat (1 + n)) with (b + 1) by lia.
      destruct (Z.leb_spec (b + 1) (Z.of_nat n)); [lia|].
      destruct (Z.leb_spec (b + 1) (Z.of_nat (S n))); [|lia].
      now rewrite andb_false_r, !andb_true_r.
    + rewrite andb_false_r, andb_true_r.
      destruct (Z.leb_spec (b + 1) (Z.of_nat n)),
        (Z.leb_spec (b + 1) (Z.of_nat (S n))); try reflexivity; lia.
Qed.

(** The set [__sigprocmask] forwards: the caller's without the claimed
    signals that [sigdelset] does not refuse. *)
Lemma remove_claimed_testbit w (ch : Z -> SignalChain) set s :
  0 < s < NSIG plat -> s <= w ->
  Z.testbit (remove_claimed plat w ch set) (s - 1) =
  Z.testbit set (s - 1)
  && negb (claimed_ (ch s) && negb (is_internal_signal plat s)).
Proof.
  intros Hs Hw. unfold remove_claimed.
  rewrite remove_claimed_prefix by lia.
  replace (s - 1 + 1) with s by lia.
  unfold sig_settable, sig_in_set_range.
  destruct (Z.ltb_spec 0 s); [|lia].
  destruct (Z.leb_spec s w); [|lia].
  destruct (Z.ltb_spec s (NSIG plat)); [|lia].
  destruct (Z.leb_spec s (Z.of_nat (Z.to_nat (NSIG plat - 1)))); [|lia].
  cbn [andb]. now rewrite !andb_true_r.
Qed.

(** C3 (as amended): with a handling bit of the calling thread set, the
    interposed [sigprocmask] forwards its arguments unmodified to the real
    one.  Otherwise, for SIG_BLOCK and SIG_SETMASK with a non-null new set,
    it forwards the set without the claimed signals, those apart that the
    libc's [sigdelset] refuses (the signals 32 and 33 under glibc, none on
    Bionic), which stay as the caller gave them.  So the call never adds a
    claimed signal that [sigdelset] accepts to the blocked ones: under a
    POSIX [sigprocmask] such a signal is unblocked after SIG_SETMASK, and
    after SIG_BLOCK it is blocked only if it was blocked before the call. *)
Theorem sigprocmask_filters_claimed (blocked : Z -> OS -> bool)
    t how new_set old_set (p : Proc OS) :
  let linked := linked_sigprocmask libc t in
  let r := __sigprocmask plat t how new_set old_set linked p in
  (GetHandlingSignalAny plat p = true -> r = linked how new_set old_set p)
  /\ (GetHandlingSignalAny plat p = false ->
      forall set, new_set = Some set ->
      how = SIG_BLOCK \/ how = SIG_SETMASK ->
      exists set',
        r = linked how (Some set') old_set p
        /\ (forall s, 0 < s < NSIG plat -> s <= bits_of plat t ->
              Z.testbit set' (s - 1) =
              Z.testbit set (s - 1)
              && negb (claimed_ (chains p s) && negb (is_internal_signal plat s)))
        /\ (bionic plat = true ->
            forall s, 0 < s < NSIG plat -> s <= bits_of plat t ->
              Z.testbit set' (s - 1) =
              Z.testbit set (s - 1) && negb (claimed_ (chains p s)))
        /\ (forall s, 0 < s < NSIG plat -> s <= bits_of plat t ->
              claimed_ (chains p s) = true ->
              is_internal_signal plat s = false ->
              sigprocmask_posix_for blocked libc t s ->
              exists p',
                final_state r = Some p'
                /\ blocked s (kernel (sys p')) =
                   (how =? SIG_BLOCK) && blocked s (kernel (sys p)))).
Proof.
  intros linked r. subst r linked. split.
  - intros Hh. unfold __sigprocmask, bind, gets. rewrite Hh.
    destruct (linked_sigprocmask libc t how new_set old_set p) as [t0 o].
    reflexivity.
  - intros Hh set -> Hhow.
    exists (remove_claimed plat (bits_of plat t) (chains p) set).
    assert (Hrun :
      __sigprocmask plat t how (Some set) old_set (linked_sigprocmask libc t) p =
      linked_sigprocmask libc t how
        (Some (remove_claimed plat (bits_of plat t) (chains p) set)) old_set p).
    { unfold __sigprocmask, bind, gets. rewrite Hh.
      replace ((how =? SIG_BLOCK) || (how =? SIG_SETMASK)) with true
        by (destruct Hhow as [-> | ->]; reflexivity).
      cbn [app].
      destruct (linked_sigprocmask libc t how _ old_set p) as [t0 o].
      reflexivity. }
    split; [exact Hrun|]. split; [|split].
    + intros s Hs Hw. now apply remove_claimed_testbit.
    + intros Hb s Hs Hw. rewrite remove_claimed_testbit by assumption.
      unfold is_internal_signal. rewrite Hb. cbn [negb andb].
      now rewrite andb_true_r.
    + intros s Hs Hw Hc Hint Hposix. rewrite Hrun.
      unfold linked_sigprocmask, final_state.
      specialize (Hposix how (remove_claimed plat (bits_of plat t) (chains p) set)
                         old_set (sys p)).
      destruct (libc_sigprocmask libc t how _ old_set (sys p)) as [[r0 o0] s0].
      cbn [snd fst] in *. eexists. split; [reflexivity|].
      cbn [sys set_sys]. rewrite Hposix.
      rewrite remove_claimed_testbit, Hc, Hint by assumption.
      cbn [negb andb]. rewrite andb_false_r.
      destruct Hhow as [-> | ->]; cbn; now rewrite ?orb_false_r.
Qed.

End SigprocmaskProperties.

(** The kernel of the small system follows POSIX on every signal. *)
Lemma Linux_sigprocmask_posix t s :
  0 < s -> sigprocmask_posix_for Linux.blocked Linux.libc t s.
Proof.
  intros Hs how set old y. unfold Linux.blocked.
  cbn [libc_sigprocmask Linux.libc]. unfold Linux.real_sigprocmask.
  destruct (how =? SIG_BLOCK); [cbn; apply Z.lor_spec|].
  destruct (how =? SIG_UNBLOCK).
  { cbn. rewrite Z.land_spec, Z.lnot_spec by lia. reflexivity. }
  destruct (how =? SIG_SETMASK); reflexivity.
Qed.

(** C3, witness: with SIGSEGV claimed and unblocked, blocking SIGSEGV and
    SIGUSR1 leaves SIGSEGV unblocked. *)
Lemma sigprocmask_filters_claimed_witness :
  GetHandlingSignalAny android_arm64 Linux.segv_claimed = false
  /\ claimed_ (chains Linux.segv_claimed SIGSEGV) = true
  /\ exists p',
       final_state (sigprocmask android_arm64 Linux.libc SIG_BLOCK
                      (Some (Z.lor (sigbit SIGSEGV) (sigbit 10))) false
                      Linux.segv_claimed) = Some p'
       /\ Linux.blocked SIGSEGV (kernel (sys p')) = false.
Proof.
  split; [reflexivity|]. split; [reflexivity|].
  destruct (proj2 (sigprocmask_filters_claimed android_arm64 Linux.libc
                     Linux.blocked sigset_t SIG_BLOCK
                     (Some (Z.lor (sigbit SIGSEGV) (sigbit 10))) false
                     Linux.segv_claimed)
              eq_refl _ eq_refl (or_introl eq_refl))
    as (set' & _ & _ & _ & H).
  destruct (H SIGSEGV) as (p' & Hp' & Hb).
  - vm_compute; split; reflexivity.
  - vm_compute; discriminate.
  - reflexivity.
  - reflexivity.
  - apply Linux_sigprocmask_posix. reflexivity.
  - exists p'. split; [exact Hp'|]. rewrite Hb. reflexivity.
Defined.

(** C3, counterexample: SIGSEGV is blocked before the runtime claims it;
    a later [sigprocmask(SIG_BLOCK, {SIGSEGV})], with no handling bit set,
    ends with the claimed SIGSEGV blocked. *)
Lemma sigprocmask_block_keeps_blocked_counterexample :
  let p0 := Linux.after (sigprocmask android_arm64 Linux.libc SIG_BLOCK
                           (Some (sigbit SIGSEGV)) false) Linux.boot in
  let p1 := Linux.after (AddSpecialSignalHandlerFn android_arm64 Linux.libc
                           Linux.code SIGSEGV Linux.declining) p0 in
  let r := sigprocmask android_arm64 Linux.libc SIG_BLOCK
             (Some (sigbit SIGSEGV)) false p1 in
  claimed_ (chains p1 SIGSEGV) = true
  /\ GetHandlingSignalAny android_arm64 p1 = false
  /\ exists p', final_state r = Some p'
       /\ Linux.blocked SIGSEGV (kernel (sys p')) = true.
Proof.
  cbv zeta. split; [reflexivity|]. split; [reflexivity|].
  eexists. split; reflexivity.
Qed.

(** Under glibc the claimed signal 32 stays in the set that is forwarded,
    next to the unclaimed signal 10; the claimed SIGSEGV leaves it. *)
Lemma sigprocmask_glibc_keeps_internal_signal :
  let p := Linux.after (AddSpecialSignalHandlerFn linux_glibc_x86_64 Linux.libc
                          Linux.code 32 Linux.declining)
             (Linux.after (AddSpecialSignalHandlerFn linux_glibc_x86_64 Linux.libc
                             Linux.code SIGSEGV Linux.declining) Linux.boot) in
  claimed_ (chains p 32) = true
  /\ claimed_ (chains p SIGSEGV) = true
  /\ events (sigprocmask linux_glibc_x86_64 Linux.libc SIG_SETMASK
               (Some (Z.lor (sigbit 10) (Z.lor (sigbit SIGSEGV) (sigbit 32)))) false p)
     = [EvLinkedSigprocmask sigset_t SIG_SETMASK
          (Some (Z.lor (sigbit 10) (sigbit 32))) false].
Proof.
  cbv zeta. repeat split; vm_compute; reflexivity.
Qed.

(** ** The handling-signal bitmap *)

Section HandlingBit.

Context (plat : Platform) {OS : Type}.

Lemma kNumSignalsPerKey_pos : 0 < kNumSignalsPerKey plat.
Proof. unfold kNumSignalsPerKey. destruct (lp64 plat); lia. Qed.

(** The mask of a signal is one bit of the word. *)
Lemma bit_mask_of_pow2 signo :
  exists k, 0 <= k < kNumSignalsPerKey plat /\ bit_mask_of plat signo = 2 ^ k.
Proof.
  pose proof kNumSignalsPerKey_pos as HW.
  exists (bit_idx_of plat signo mod kNumSignalsPerKey plat).
  assert (Hk : 0 <= bit_idx_of plat signo mod kNumSignalsPerKey plat
               < kNumSignalsPerKey plat) by (apply Z.mod_pos_bound; lia).
  split; [exact Hk|].
  unfold bit_mask_of, size_t. rewrite Z.shiftl_1_l.
  apply Z.mod_small. split; [apply Z.pow_nonneg; lia|].
  apply Z.pow_lt_mono_r; lia.
Qed.

Lemma GetHandlingSignal_store signo value (p : Proc OS) :
  GetHandlingSignal plat signo (store_handling_bit plat signo value p) = value.
Proof.
  pose proof kNumSignalsPerKey_pos as HW.
  destruct (bit_mask_of_pow2 signo) as (k & Hk & Hm).
  unfold GetHandlingSignal, store_handling_bit, set_handling_key.
  cbn [handling_keys]. rewrite Z.eqb_refl, Hm.
  set (b := handling_keys p (key_idx_of plat signo)).
  destruct value.
  - replace (Z.land (Z.lor b (2 ^ k)) (2 ^ k)) with (2 ^ k).
    + destruct (Z.eqb_spec (2 ^ k) 0) as [E|_]; [|reflexivity].
      pose proof (Z.pow_pos_nonneg 2 k). lia.
    + apply Z.bits_inj'. intros n Hn.
      rewrite Z.land_spec, Z.lor_spec.
      destruct (Z.testbit b n), (Z.testbit (2 ^ k) n); reflexivity.
  - replace (Z.land (Z.land b (size_t plat (Z.lnot (2 ^ k)))) (2 ^ k)) with 0.
    + reflexivity.
    + symmetry. apply Z.bits_inj'. intros n Hn.
      rewrite !Z.land_spec, Z.bits_0. unfold size_t.
      rewrite Z.testbit_mod_pow2 by lia.
      rewrite Z.lnot_spec by lia.
      destruct (Z.testbit b n), (n <? kNumSignalsPerKey plat),
        (Z.testbit (2 ^ k) n); reflexivity.
Qed.

Lemma SetHandlingSignal_run signo value (p : Proc OS) :
  SetHandlingSignal plat signo value p =
  ([], Ret (GetHandlingSignal plat signo p) (store_handling_bit plat signo value p)).
Proof. reflexivity. Qed.

Lemma GetHandlingSignal_set_sys signo y (p : Proc OS) :
  GetHandlingSignal plat signo (set_sys y p) = GetHandlingSignal plat signo p.
Proof. reflexivity. Qed.

End HandlingBit.

(** ** The dispatcher *)

Section HandlerProperties.

Context (plat : Platform) {OS : Type} (libc : Libc OS) (code : Code OS).

Lemma InvokeSpecialHandler_run signo h info uc (p : Proc OS) :
  let prior := GetHandlingSignal plat signo p in
  let bit := if allows_noreturn h then prior else true in
  exists res t2 o,
    InvokeSpecialHandler plat libc code signo h info uc p =
      (EvLinkedSigprocmask sigset_t SIG_SETMASK (Some (sc_mask h)) true
         :: EvSpecialHandler h signo bit res :: t2, o)
    /\ (forall e, In e t2 -> is_special_call e = false /\ is_user_call e = false)
    /\ match o with
       | Ret (handled, _, _) p' =>
           res = Some handled /\ GetHandlingSignal plat signo p' = prior
       | NoReturn => res = None
       | Fatal _ => False
       end.
Proof.
  intros prior bit. subst prior bit.
  unfold InvokeSpecialHandler, bind, linked_sigprocmask.
  destruct (libc_sigprocmask libc sigset_t SIG_SETMASK (Some (sc_mask h)) true (sys p))
    as [[r0 old0] s0].
  unfold ScopedHandlingSignal_ctor.
  destruct (allows_noreturn h); cbn [negb].
  - unfold gets at 1. cbn [app]. unfold call_special.
    destruct (special_code code (sc_sigaction h) signo info uc (set_sys s0 p))
      as [[[[b info'] uc'] p'']|]; cbn [option_map fst].
    + destruct b; unfold ScopedHandlingSignal_dtor, bind;
        rewrite ?SetHandlingSignal_run; unfold ret; cbn [app].
      * do 3 eexists. split; [reflexivity|]. split; [intros e []|].
        split; [reflexivity|]. apply GetHandlingSignal_store.
      * destruct (libc_sigprocmask libc sigset_t SIG_SETMASK _ false (sys p''))
          as [[r1 old1] s1].
        rewrite SetHandlingSignal_run. cbn [app].
        do 3 eexists. split; [reflexivity|]. split.
        { intros e [<-|[]]. split; reflexivity. }
        split; [reflexivity|]. apply GetHandlingSignal_store.
    + do 3 eexists. split; [reflexivity|]. split; [intros e []|]. reflexivity.
  - rewrite SetHandlingSignal_run. cbn [app]. unfold call_special.
    rewrite GetHandlingSignal_store.
    destruct (special_code code (sc_sigaction h) signo info uc _)
      as [[[[b info'] uc'] p'']|]; cbn [option_map fst].
    + destruct b; unfold ScopedHandlingSignal_dtor, bind;
        rewrite ?SetHandlingSignal_run; unfold ret; cbn [app].
      * do 3 eexists. split; [reflexivity|]. split; [intros e []|].
        split; [reflexivity|]. apply GetHandlingSignal_store.
      * destruct (libc_sigprocmask libc sigset_t SIG_SETMASK _ false (sys p''))
          as [[r1 old1] s1].
        rewrite SetHandlingSignal_run. cbn [app].
        do 3 eexists. split; [reflexivity|]. split.
        { intros e [<-|[]]. split; reflexivity. }
        split; [reflexivity|]. apply GetHandlingSignal_store.
    + do 3 eexists. split; [reflexivity|]. split; [intros e []|]. reflexivity.
Qed.

Lemma SpecialHandlersLoop_run n : forall i signo info uc (p : Proc OS),
  GetHandlingSignal plat signo p = false ->
  let r := SpecialHandlersLoop plat libc code n i signo info uc p in
  (forall e, In e (events r) -> is_user_call e = false)
  /\ (forall h s b res, In (EvSpecialHandler h s b res) (events r) ->
        s = signo /\ b = negb (allows_noreturn h))
  /\ match outcome r with
     | Ret (handled, _, _) p' =>
         GetHandlingSignal plat signo p' = false
         /\ (handled = true ->
             exists h b, In (EvSpecialHandler h signo b (Some true)) (events r))
     | NoReturn => exists h b, In (EvSpecialHandler h signo b None) (events r)
     | Fatal _ => False
     end.
Proof.
  induction n as [|n IH]; intros i signo info uc p Hbit r;
    assert (Hr : r = SpecialHandlersLoop plat libc code _ i signo info uc p)
      by reflexivity; clearbody r.
  - cbn in Hr. subst r. cbn.
    split; [intros e []|]. split; [intros h s b res []|].
    split; [exact Hbit|discriminate].
  - cbn [SpecialHandlersLoop] in Hr. unfold bind at 1 in Hr.
    unfold gets at 1 in Hr. cbn [app] in Hr.
    set (h := nth i (special_handlers_ (chains p signo)) zero_SigchainAction) in Hr.
    destruct (sc_sigaction h =? nullptr).
    { cbn in Hr. subst r. cbn.
      split; [intros e []|]. split; [intros h0 s b res []|].
      split; [exact Hbit|discriminate]. }
    unfold bind in Hr.
    destruct (InvokeSpecialHandler_run signo h info uc p)
      as (res & t2 & o & Heq & Ht2 & Ho).
    rewrite Heq, Hbit in *. clear Heq.
    assert (Hb : (if allows_noreturn h then false else true) = negb (allows_noreturn h))
      by (destruct (allows_noreturn h); reflexivity).
    rewrite Hb in Hr.
    destruct o as [[[handled info'] uc'] p'| |]; [|contradiction|].
    + destruct Ho as [-> Hbit'].
      destruct handled.
      * unfold ret in Hr. cbn [app] in Hr. rewrite app_nil_r in Hr. subst r.
        unfold events, outcome. cbn [fst snd].
        split.
        { intros e [<-|[<-|He]]; try reflexivity. now apply Ht2. }
        split.
        { intros h0 s b res [E|[E|He]]; try discriminate.
          - injection E as <- <- <- <-. auto.
          - apply Ht2 in He. cbn in He. destruct He; discriminate. }
        split; [exact Hbit'|]. intros _. exists h, (negb (allows_noreturn h)).
        right. now left.
      * specialize (IH (S i) signo info' uc' p' Hbit').
        cbv zeta in IH.
        destruct (SpecialHandlersLoop plat libc code n (S i) signo info' uc' p')
          as [t3 o3].
        subst r.
        unfold events, outcome in *. cbn [fst snd] in *.
        destruct IH as (IH1 & IH2 & IH3).
        split.
        { intros e [<-|[<-|He]]; try reflexivity.
          apply in_app_or in He. destruct He as [He|He]; [now apply Ht2|now apply IH1]. }
        split.
        { intros h0 s b res [E|[E|He]]; try discriminate.
          - injection E as <- <- <- <-. auto.
          - apply in_app_or in He. destruct He as [He|He].
            + apply Ht2 in He. cbn in He. destruct He; discriminate.
            + exact (IH2 _ _ _ _ He). }
        destruct o3 as [[[handled3 info3] uc3] p3| |]; [|contradiction|].
        -- destruct IH3 as [Hb3 Hh3]. split; [exact Hb3|].
           intros Ht. destruct (Hh3 Ht) as (h3 & b3 & Hin).
           exists h3, b3. right. right. apply in_or_app. now right.
        -- destruct IH3 as (h3 & b3 & Hin).
           exists h3, b3. right. right. apply in_or_app. now right.
    + subst res r. unfold events, outcome. cbn [fst snd].
      split.
      { intros e [<-|[<-|He]]; try reflexivity. now apply Ht2. }
      split.
      { intros h0 s b res [E|[E|He]]; try discriminate.
        - injection E as <- <- <- <-. auto.
        - apply Ht2 in He. cbn in He. destruct He; discriminate. }
      exists h, (negb (allows_noreturn h)). right. now left.
Qed.

Lemma SpecialHandlerPhase_run signo info uc (p : Proc OS) :
  let r := SpecialHandlerPhase plat libc code signo info uc p in
  (forall e, In e (events r) -> is_user_call e = false)
  /\ (forall h s b res, In (EvSpecialHandler h s b res) (events r) ->
        s = signo /\ b = negb (allows_noreturn h))
  /\ match outcome r with
     | Ret (handled, _, _) p' =>
         GetHandlingSignal plat signo p' = GetHandlingSignal plat signo p
         /\ (handled = true ->
             exists h b, In (EvSpecialHandler h signo b (Some true)) (events r))
     | NoReturn => exists h b, In (EvSpecialHandler h signo b None) (events r)
     | Fatal _ => False
     end
  /\ (GetHandlingSignal plat signo p = true ->
      exists log, r = (log, Ret (false, info, uc) p)
                  /\ forall e, In e log -> is_log e = true).
Proof.
  intros r.
  assert (Hr : r = SpecialHandlerPhase plat libc code signo info uc p) by reflexivity.
  clearbody r.
  unfold SpecialHandlerPhase in Hr. unfold bind at 1 in Hr. unfold gets at 1 in Hr.
  destruct (GetHandlingSignal plat signo p) eqn:Hbit; cbn [negb app] in Hr.
  - assert (Hlog : exists log, r = (log, Ret (false, info, uc) p)
                     /\ forall e, In e log -> is_log e = true).
    { destruct (aarch64 plat).
      - unfold bind, gets in Hr. cbn [app] in Hr.
        destruct (negb (handling_keys p (key_idx_of plat signo) =? bit_mask_of plat signo)).
        + cbn in Hr. eexists. split; [exact Hr|].
          intros e [<-|[]]. reflexivity.
        + cbn in Hr. eexists. split; [exact Hr|]. intros e [].
      - cbn in Hr. eexists. split; [exact Hr|]. intros e []. }
    destruct Hlog as (log & -> & Hlog).
    unfold events, outcome. cbn [fst snd].
    split.
    { intros e He. apply Hlog in He. destruct e; (discriminate || reflexivity). }
    split.
    { intros h s b res He. apply Hlog in He. discriminate. }
    split; [split; [exact Hbit|discriminate]|].
    intros _. exists log. auto.
  - destruct (SpecialHandlersLoop_run kSpecialHandlers 0 signo info uc p Hbit)
      as (H1 & H2 & H3).
    destruct (SpecialHandlersLoop plat libc code kSpecialHandlers 0 signo info uc p)
      as [t o].
    cbn [app] in Hr. subst r.
    split; [exact H1|]. split; [exact H2|]. split; [|discriminate].
    unfold outcome in *. cbn [snd] in *.
    destruct o as [[[handled info'] uc'] p'| |]; auto.
Qed.

Lemma PlatformRecoveryPhase_run signo info uc (p : Proc OS) :
  let r := PlatformRecoveryPhase code signo info uc p in
  (forall e, In e (events r) -> is_special_call e = false /\ is_user_call e = false)
  /\ match outcome r with
     | Ret (recovered, _, _) _ =>
         recovered = true -> In (EvAndroidHandleSignal signo (Some true)) (events r)
     | NoReturn => In (EvAndroidHandleSignal signo None) (events r)
     | Fatal _ => False
     end.
Proof.
  intros r. subst r. unfold PlatformRecoveryPhase.
  destruct (android_handle_signal code) as [f|].
  - unfold call_android_handle_signal.
    destruct (f signo info uc p) as [[[[b info'] uc'] p']|];
      unfold events, outcome; cbn [fst snd option_map].
    + split; [intros e [<-|[]]; split; reflexivity|].
      intros ->. now left.
    + split; [intros e [<-|[]]; split; reflexivity|]. now left.
  - unfold ret, events, outcome. cbn [fst snd].
    split; [intros e []|discriminate].
Qed.

Lemma DispatchUserAction_run signo action info uc (p : Proc OS) :
  let r := DispatchUserAction plat libc code signo action info uc p in
  exists rest,
    events r = EvLinkedSigprocmask (mask_type (action_type plat)) SIG_SETMASK
                 (Some (forward_mask plat signo action uc)) false :: rest
    /\ user_calls rest =
       dispatch_by_style signo action (forwarded_siginfo plat libc signo action info)
    /\ (forall e, In e rest -> is_special_call e = false)
    /\ (forall s res, ~ In (EvAndroidHandleSignal s res) rest)
    /\ (forall t how set old, ~ In (EvLinkedSigprocmask t how set old) rest).
Proof.
  intros r.
  assert (Hr : r = DispatchUserAction plat libc code signo action info uc p) by reflexivity.
  clearbody r.
  unfold DispatchUserAction, bind, LogError, emit, ret, linked_sigprocmask in Hr.
  destruct (libc_sigprocmask libc (mask_type (action_type plat)) SIG_SETMASK
              (Some (forward_mask plat signo action uc)) false (sys p))
    as [[r0 o0] s0].
  unfold dispatch_by_style.
  destruct (negb (Z.land (sa_flags action) SA_SIGINFO =? 0)).
  { unfold call_sa_sigaction in Hr.
    destruct (sa_sigaction_code code (sa_sigaction action) signo
                (forwarded_siginfo plat libc signo action info) uc (set_sys s0 p));
      cbn [app] in Hr; subst r; unfold events; cbn [fst];
      eexists; (split; [reflexivity|]); (split; [reflexivity|]);
      (split; [intros e He; cbn in He; intuition (subst; reflexivity)|]);
      (split; [intros s res He; cbn in He; intuition discriminate|]);
      intros t how set old He; cbn in He; intuition discriminate. }
  destruct (sa_handler action =? SIG_IGN); cbn [orb].
  { cbn [app] in Hr; subst r; unfold events; cbn [fst];
      eexists; (split; [reflexivity|]); (split; [reflexivity|]);
      (split; [intros e He; cbn in He; intuition (subst; reflexivity)|]);
      (split; [intros s res He; cbn in He; intuition discriminate|]);
      intros t how set old He; cbn in He; intuition discriminate. }
  destruct (sa_handler action =? SIG_DFL).
  { unfold LogStack, linked_sigaction, emit, ret in Hr.
    destruct (bionic plat);
      destruct (libc_sigaction libc struct_sigaction signo _ false (sys (set_sys s0 p)))
        as [[r1 o1] s1];
      cbn [app] in Hr; subst r; unfold events; cbn [fst];
      eexists; (split; [reflexivity|]); (split; [reflexivity|]);
      (split; [intros e He; cbn in He; intuition (subst; reflexivity)|]);
      (split; [intros s res He; cbn in He; intuition discriminate|]);
      intros t how set old He; cbn in He; intuition discriminate. }
  unfold call_sa_handler in Hr.
  destruct (sa_handler_code code (sa_handler action) signo (set_sys s0 p));
    cbn [app] in Hr; subst r; unfold events; cbn [fst];
    eexists; (split; [reflexivity|]); (split; [reflexivity|]);
    (split; [intros e He; cbn in He; intuition (subst; reflexivity)|]);
    (split; [intros s res He; cbn in He; intuition discriminate|]);
    intros t how set old He; cbn in He; intuition discriminate.
Qed.

Lemma ForwardToUser_run signo info uc (p : Proc OS) :
  let action := selected_action plat libc signo info p in
  exists log,
    (forall e, In e log -> is_log e = true)
    /\ ForwardToUser plat libc code signo info uc p =
       (log ++ events (DispatchUserAction plat libc code signo action info uc p),
        outcome (DispatchUserAction plat libc code signo action info uc p)).
Proof.
  intros action. unfold ForwardToUser, bind, gets, LogError, emit, ret.
  fold action. cbn [app].
  destruct (reverts_to_orig_action plat libc signo info p).
  - exists [EvLogError "reverting to orig_action_ for MTE SEGV"].
    split; [intros e [<-|[]]; reflexivity|].
    cbn [app]. fold action.
    destruct (DispatchUserAction plat libc code signo action info uc p); reflexivity.
  - exists []. split; [intros e []|].
    cbn [app]. fold action.
    destruct (DispatchUserAction plat libc code signo action info uc p); reflexivity.
Qed.

Lemma user_calls_none t :
  (forall e, In e t -> is_user_call e = false) -> user_calls t = [].
Proof.
  induction t as [|e t IH]; intros H; [reflexivity|].
  unfold user_calls in *. cbn [filter].
  rewrite (H e (or_introl eq_refl)). apply IH.
  intros e' He'. apply H. now right.
Qed.

Lemma log_is_not_user_call e : is_log e = true -> is_user_call e = false.
Proof. destruct e; simpl; congruence. Qed.

Lemma log_is_not_special_call e : is_log e = true -> is_special_call e = false.
Proof. destruct e; simpl; congruence. Qed.

Lemma RecoveryAndForward_no_special signo info uc (p : Proc OS) e :
  In e (events (RecoveryAndForward plat libc code signo info uc p)) ->
  is_special_call e = false.
Proof.
  unfold RecoveryAndForward, bind.
  pose proof (PlatformRecoveryPhase_run signo info uc p) as [H1 _].
  destruct (PlatformRecoveryPhase code signo info uc p) as [t o].
  unfold events in *. cbn [fst] in *.
  destruct o as [[[recovered info'] uc'] p'| |]; cbn [fst].
  2, 3: intros He; now apply H1.
  destruct recovered.
  - unfold ret. cbn [fst]. rewrite app_nil_r. intros He. now apply H1.
  - destruct (ForwardToUser_run signo info' uc' p') as (log & Hlog & ->).
    destruct (DispatchUserAction_run signo
                (selected_action plat libc signo info' p') info' uc' p')
      as (rest & -> & _ & Hsp & _).
    cbn [fst]. intros He.
    apply in_app_or in He. destruct He as [He|He]; [now apply H1|].
    apply in_app_or in He. destruct He as [He|He].
    + apply log_is_not_special_call. now apply Hlog.
    + destruct He as [<-|He]; [reflexivity|now apply Hsp].
Qed.

(** C4: when the handling bit of [signo] is set as [Handler] is entered,
    it invokes no special handler: after at most a diagnostic it runs the
    platform-recovery and chained-user-action phases on the arguments and the
    state it was entered with. *)
Theorem Handler_reentry_skips_special_handlers signo info uc (p : Proc OS) :
  GetHandlingSignal plat signo p = true ->
  let r := Handler plat libc code signo info uc p in
  (forall e, In e (events r) -> is_special_call e = false)
  /\ exists log,
       (forall e, In e log -> is_log e = true)
       /\ r = (log ++ events (RecoveryAndForward plat libc code signo info uc p),
               outcome (RecoveryAndForward plat libc code signo info uc p)).
Proof.
  intros Hbit r.
  destruct (SpecialHandlerPhase_run signo info uc p) as (_ & _ & _ & Hskip).
  destruct (Hskip Hbit) as (log & Hphase & Hlog).
  assert (Hr : r = (log ++ events (RecoveryAndForward plat libc code signo info uc p),
                    outcome (RecoveryAndForward plat libc code signo info uc p))).
  { subst r. unfold Handler, bind. cbv zeta in Hphase. rewrite Hphase.
    destruct (RecoveryAndForward plat libc code signo info uc p). reflexivity. }
  split.
  - rewrite Hr. unfold events at 1. cbn [fst]. intros e He.
    apply in_app_or in He. destruct He as [He|He].
    + apply log_is_not_special_call. now apply Hlog.
    + now apply RecoveryAndForward_no_special in He.
  - exists log. split; assumption.
Qed.

(** C6: around one special handler the handling bit of [signo] is set
    exactly when the handler did not declare SIGCHAIN_ALLOW_NORETURN (it
    then keeps the value it had), and once the call has completed, whether
    the handler took the signal or not, the bit has the value it had before.
    In the dispatcher itself every special handler runs with the bit set if
    and only if it did not declare SIGCHAIN_ALLOW_NORETURN, and the bit is
    back to its value at entry when the special-handler phase is over. *)
Theorem handling_bit_scoped_to_special_handler signo info uc (p : Proc OS) :
  (forall handler,
     exists res rest o,
       InvokeSpecialHandler plat libc code signo handler info uc p =
         (EvLinkedSigprocmask sigset_t SIG_SETMASK (Some (sc_mask handler)) true
            :: EvSpecialHandler handler signo
                 (if allows_noreturn handler
                  then GetHandlingSignal plat signo p else true) res
            :: rest, o)
       /\ (forall e, In e rest -> is_special_call e = false)
       /\ (forall a p', o = Ret a p' ->
             GetHandlingSignal plat signo p' = GetHandlingSignal plat signo p))
  /\ (forall handler s bit res,
        In (EvSpecialHandler handler s bit res)
           (events (Handler plat libc code signo info uc p)) ->
        s = signo /\ bit = negb (allows_noreturn handler))
  /\ (forall a p',
        outcome (SpecialHandlerPhase plat libc code signo info uc p) = Ret a p' ->
        GetHandlingSignal plat signo p' = GetHandlingSignal plat signo p).
Proof.
  split; [|split].
  - intros handler.
    destruct (InvokeSpecialHandler_run signo handler info uc p)
      as (res & rest & o & Heq & Hrest & Ho).
    exists res, rest, o. split; [exact Heq|]. split.
    + intros e He. now apply Hrest.
    + intros a p' ->. destruct a as [[handled info'] uc']. now destruct Ho.
  - intros handler s bit res.
    pose proof (SpecialHandlerPhase_run signo info uc p) as (_ & Hsp & _ & _).
    unfold Handler, bind.
    destruct (SpecialHandlerPhase plat libc code signo info uc p) as [t1 o1].
    unfold events in *. cbn [fst] in *.
    destruct o1 as [[[handled info'] uc'] p'| |]; cbn [fst].
    2, 3: exact (Hsp _ _ _ _).
    destruct handled.
    + unfold ret. cbn [fst]. rewrite app_nil_r. exact (Hsp _ _ _ _).
    + pose proof (RecoveryAndForward_no_special signo info' uc' p') as Hno.
      destruct (RecoveryAndForward plat libc code signo info' uc' p') as [t2 o2].
      unfold events in Hno. cbn [fst] in *. intros He.
      apply in_app_or in He. destruct He as [He|He]; [exact (Hsp _ _ _ _ He)|].
      apply Hno in He. discriminate.
  - intros a p' Ho.
    pose proof (SpecialHandlerPhase_run signo info uc p) as (_ & _ & H & _).
    rewrite Ho in H. destruct a as [[handled info'] uc']. now destruct H.
Qed.

(** C1 (as amended): in a delivery where every special handler that is
    invoked returns false and [android_handle_signal] is absent or returns
    false, the dispatcher reaches the chained-user-action phase and invokes
    the handler of the selected action exactly once, by its declared style:
    the three-argument handler under SA_SIGINFO, else the one-argument
    handler unless it is SIG_IGN or SIG_DFL (then none).  The selected
    action is the chain record's stored user action, except that on Bionic
    a SIGSEGV with an MTE [si_code] for which the allocator asks so selects
    [orig_action_]. *)
Theorem Handler_falls_through_once signo info uc (p : Proc OS) :
  let r := Handler plat libc code signo info uc p in
  (forall h s b res, In (EvSpecialHandler h s b res) (events r) -> res = Some false) ->
  (forall s res, In (EvAndroidHandleSignal s res) (events r) -> res = Some false) ->
  exists t1 info1 uc1 p1 t2 info2 uc2 p2,
    SpecialHandlerPhase plat libc code signo info uc p =
      (t1, Ret (false, info1, uc1) p1)
    /\ PlatformRecoveryPhase code signo info1 uc1 p1 =
      (t2, Ret (false, info2, uc2) p2)
    /\ let action := selected_action plat libc signo info2 p2 in
       user_calls (events r) =
         dispatch_by_style signo action
           (forwarded_siginfo plat libc signo action info2)
       /\ (reverts_to_orig_action plat libc signo info2 p2 = false ->
           action = action_ (chains p2 signo)).
Proof.
  intros r Hsp Han.
  assert (Hr : r = Handler plat libc code signo info uc p) by reflexivity.
  clearbody r. unfold Handler, bind in Hr.
  pose proof (SpecialHandlerPhase_run signo info uc p) as (Hu1 & _ & Ho1 & _).
  destruct (SpecialHandlerPhase plat libc code signo info uc p) as [t1 o1].
  unfold events, outcome in Hu1, Ho1. cbn [fst snd] in Hu1, Ho1.
  destruct o1 as [[[handled info1] uc1] p1| |].
  3: { exfalso. destruct Ho1 as (h & b & Hin). subst r.
       specialize (Hsp h signo b None Hin). discriminate. }
  2: contradiction.
  destruct handled.
  { exfalso. destruct Ho1 as [_ Ho1]. destruct (Ho1 eq_refl) as (h & b & Hin).
    unfold ret in Hr. cbn [app] in Hr. rewrite app_nil_r in Hr. subst r.
    specialize (Hsp h signo b (Some true) Hin). discriminate. }
  clear Ho1. unfold RecoveryAndForward, bind in Hr.
  pose proof (PlatformRecoveryPhase_run signo info1 uc1 p1) as (Hu2 & Ho2).
  destruct (PlatformRecoveryPhase code signo info1 uc1 p1) as [t2 o2] eqn:E2.
  unfold events, outcome in Hu2, Ho2. cbn [fst snd] in Hu2, Ho2.
  destruct o2 as [[[recovered info2] uc2] p2| |].
  3: { exfalso. subst r.
       assert (Hin : In (EvAndroidHandleSignal signo None) (events (t1 ++ t2, @NoReturn OS unit)))
         by (unfold events; cbn [fst]; apply in_or_app; now right).
       specialize (Han signo None Hin). discriminate. }
  2: contradiction.
  destruct recovered.
  { exfalso. unfold ret in Hr. cbn [app] in Hr. rewrite app_nil_r in Hr. subst r.
    assert (Hin : In (EvAndroidHandleSignal signo (Some true))
                     (events (t1 ++ t2, Ret tt p2)))
      by (unfold events; cbn [fst]; apply in_or_app; right; now apply Ho2).
    specialize (Han signo (Some true) Hin). discriminate. }
  exists t1, info1, uc1, p1, t2, info2, uc2, p2.
  split; [reflexivity|]. split; [exact E2|].
  cbv zeta. split.
  - destruct (ForwardToUser_run signo info2 uc2 p2) as (log & Hlog & Hf).
    cbv zeta in Hf. rewrite Hf in Hr. clear Hf.
    destruct (DispatchUserAction_run signo
                (selected_action plat libc signo info2 p2) info2 uc2 p2)
      as (rest & Hev & Hcalls & _).
    cbv zeta in Hev. rewrite Hev in Hr. subst r.
    unfold events. cbn [fst]. unfold user_calls.
    rewrite !filter_app. cbn [filter is_user_call].
    fold (user_calls t1) (user_calls t2) (user_calls log) (user_calls rest).
    rewrite (user_calls_none t1), (user_calls_none t2), (user_calls_none log).
    + exact Hcalls.
    + intros e He. apply log_is_not_user_call. now apply Hlog.
    + intros e He. now apply Hu2.
    + exact Hu1.
  - unfold selected_action. now intros ->.
Qed.

End HandlerProperties.

(** C4, witness: SIGSEGV is delivered on Android while the thread's
    handling bit for SIGSEGV is set. *)
Lemma Handler_reentry_skips_special_handlers_witness :
  GetHandlingSignal android_arm64 SIGSEGV
    (store_handling_bit android_arm64 SIGSEGV true Linux.segv_claimed) = true
  /\ forall e,
       In e (events (Handler android_arm64 Linux.libc Linux.code SIGSEGV
                       (mkSiginfo 1 0) (mkUcontext 0 0)
                       (store_handling_bit android_arm64 SIGSEGV true
                          Linux.segv_claimed))) ->
       is_special_call e = false.
Proof.
  split; [reflexivity|].
  exact (proj1 (Handler_reentry_skips_special_handlers android_arm64 Linux.libc
                  Linux.code SIGSEGV (mkSiginfo 1 0) (mkUcontext 0 0)
                  (store_handling_bit android_arm64 SIGSEGV true Linux.segv_claimed)
                  eq_refl)).
Defined.

(** C6, witness: the declining special handler of SIGSEGV runs with the
    handling bit set. *)
Lemma handling_bit_scoped_to_special_handler_witness :
  In (EvSpecialHandler Linux.declining SIGSEGV true (Some false))
     (events (Handler android_arm64 Linux.libc Linux.code SIGSEGV
                (mkSiginfo 1 0) (mkUcontext 0 0) Linux.segv_claimed))
  /\ true = negb (allows_noreturn Linux.declining).
Proof.
  assert (H : In (EvSpecialHandler Linux.declining SIGSEGV true (Some false))
                 (events (Handler android_arm64 Linux.libc Linux.code SIGSEGV
                            (mkSiginfo 1 0) (mkUcontext 0 0) Linux.segv_claimed))).
  { vm_compute. right. left. reflexivity. }
  split; [exact H|].
  exact (proj2 (proj1 (proj2 (handling_bit_scoped_to_special_handler android_arm64
                  Linux.libc Linux.code SIGSEGV (mkSiginfo 1 0) (mkUcontext 0 0)
                  Linux.segv_claimed)) _ _ _ _ H)).
Defined.

(** C1, witness: SIGSEGV on Android with a declining special handler and
    the user's three-argument handler 7777. *)
Lemma Handler_falls_through_once_witness :
  user_calls (events (Handler android_arm64 Linux.libc Linux.code SIGSEGV
                        (mkSiginfo 1 0) (mkUcontext 0 0)
                        Linux.segv_with_user_handler))
  = [EvSaSigaction 7777 SIGSEGV (mkSiginfo 1 0)].
Proof.
  destruct (Handler_falls_through_once android_arm64 Linux.libc Linux.code
              SIGSEGV (mkSiginfo 1 0) (mkUcontext 0 0)
              Linux.segv_with_user_handler)
    as (t1 & info1 & uc1 & p1 & t2 & info2 & uc2 & p2 & _ & _ & H & _).
  - intros h s b res H. vm_compute in H.
    destruct H as [H|[H|[H|[H|[H|[]]]]]]; try discriminate.
    injection H as _ _ _ <-. reflexivity.
  - intros s res H. vm_compute in H.
    destruct H as [H|[H|[H|[H|[H|[]]]]]]; discriminate.
  - reflexivity.
Defined.

(** C1, counterexample: on Bionic a SIGSEGV with an MTE [si_code] is
    forwarded to [orig_action_] (handler 8888, the disposition found when the
    signal was claimed) when the allocator asks so: every special handler
    returned false, [android_handle_signal] is absent, and the stored user
    action (handler 7777) is not invoked at all. *)
Lemma Handler_mte_forwards_orig_action_counterexample :
  let p := Linux.segv_with_two_handlers in
  let info := mkSiginfo SEGV_MTESERR 0 in
  let r := Handler android_arm64 Linux.libc Linux.code SIGSEGV info (mkUcontext 0 0) p in
  claimed_ (chains p SIGSEGV) = true
  /\ action_ (chains p SIGSEGV) = mkSigaction 7777 SA_SIGINFO 0 0
  /\ filter is_special_call (events r) =
       [EvSpecialHandler Linux.declining SIGSEGV true (Some false)]
  /\ android_handle_signal Linux.code = None
  /\ user_calls (events r) = [EvSaSigaction 8888 SIGSEGV info].
Proof.
  cbv zeta. repeat split; reflexivity.
Qed.

(** ** The mask of the user's handler *)

Section ForwardMask.

Context (plat : Platform).

(** What [forward_mask] holds: the union of the saved mask and of the
    action's mask on the signals strictly below the width of the set type
    that [sigaddset] does not refuse, and [signo] unless SA_NODEFER is set
    or [sigaddset] refuses it. *)
Lemma forward_mask_testbit signo action uc s :
  0 < s -> 0 <= sa_mask_bits plat (action_type plat) ->
  Z.testbit (forward_mask plat signo action uc) (s - 1) =
  ((Z.testbit (uc_sigmask uc) (s - 1) || Z.testbit (sa_mask action) (s - 1))
     && ((s <? sa_mask_bits plat (action_type plat)) && (s <? NSIG plat))
     && negb (is_internal_signal plat s))
  || ((Z.land (sa_flags action) SA_NODEFER =? 0)
        && sig_settable plat (sa_mask_bits plat (action_type plat)) signo
        && (s =? signo)).
Proof.
  intros Hs Hw. unfold forward_mask.
  assert (Heq : (s - 1 =? signo - 1) = (s =? signo)).
  { destruct (Z.eqb_spec (s - 1) (signo - 1)), (Z.eqb_spec s signo); auto; lia. }
  destruct (Z.land (sa_flags action) SA_NODEFER =? 0); cbn [andb].
  - rewrite sigaddset_testbit, sigorset_testbit by lia.
    replace (s - 1 + 1) with s by lia. now rewrite Heq.
  - rewrite sigorset_testbit by lia.
    replace (s - 1 + 1) with s by lia. now rewrite orb_false_r.
Qed.

(** Where the set type has exactly one bit per signal, the highest signal
    of the saved mask and of the action's mask never reaches the mask of the
    user's handler. *)
Lemma forward_mask_loses_highest_signal signo action uc :
  let w := sa_mask_bits plat (action_type plat) in
  0 < w -> signo <> w ->
  Z.testbit (forward_mask plat signo action uc) (w - 1) = false.
Proof.
  intros w Hw Hne. subst w.
  rewrite forward_mask_testbit by lia.
  rewrite Z.ltb_irrefl. cbn [andb]. rewrite andb_false_r. cbn [andb orb].
  destruct (Z.eqb_spec (sa_mask_bits plat (action_type plat)) signo); [congruence|].
  now rewrite andb_false_r.
Qed.

(** Where the set type is wider than the signal range, as [sigset_t] of
    glibc is, the mask is the full union on every valid signal that
    [sigaddset] does not refuse, with [signo] added unless SA_NODEFER is
    set. *)
Lemma forward_mask_union_when_wide signo action uc s :
  NSIG plat <= sa_mask_bits plat (action_type plat) ->
  0 < s < NSIG plat -> 0 < signo < NSIG plat ->
  is_internal_signal plat s = false ->
  Z.testbit (forward_mask plat signo action uc) (s - 1) =
  Z.testbit (uc_sigmask uc) (s - 1) || Z.testbit (sa_mask action) (s - 1)
  || ((Z.land (sa_flags action) SA_NODEFER =? 0) && (s =? signo)).
Proof.
  intros Hw Hs Hsig Hint.
  rewrite forward_mask_testbit by lia.
  rewrite Hint. cbn [negb]. rewrite !andb_true_r.
  destruct (Z.ltb_spec s (sa_mask_bits plat (action_type plat))); [|lia].
  destruct (Z.ltb_spec s (NSIG plat)); [|lia].
  cbn [andb]. rewrite andb_true_r. f_equal.
  destruct (Z.eqb_spec s signo) as [<-|]; [|now rewrite !andb_false_r].
  unfold sig_settable, sig_in_set_range. rewrite Hint.
  destruct (Z.ltb_spec 0 s); [|lia].
  destruct (Z.leb_spec s (sa_mask_bits plat (action_type plat))); [|lia].
  destruct (Z.ltb_spec s (NSIG plat)); [|lia].
  cbn [andb negb]. now rewrite !andb_true_r.
Qed.

(** The signals glibc keeps to itself never come from the saved mask or
    from the action's mask into the mask of the user's handler. *)
Lemma forward_mask_drops_internal_signals signo action uc s :
  0 < s -> 0 <= sa_mask_bits plat (action_type plat) ->
  is_internal_signal plat s = true ->
  Z.testbit (forward_mask plat signo action uc) (s - 1) = false.
Proof.
  intros Hs Hw Hint.
  rewrite forward_mask_testbit by lia.
  rewrite Hint. cbn [negb]. rewrite andb_false_r. cbn [orb].
  destruct (Z.eqb_spec s signo) as [<-|]; [|now rewrite andb_false_r].
  unfold sig_settable. rewrite Hint. cbn [negb]. now rewrite !andb_false_r.
Qed.

End ForwardMask.

(** C5: the code breaks the claim on Bionic.  SIGSEGV arrives on Android
    while signal 64 is blocked in the interrupted context; the user's action
    has an empty mask and no SA_NODEFER.  The mask installed before the
    user's handler holds SIGSEGV alone: signal 64 of the saved mask is lost,
    because the loop of [sigorset] stops one signal short. *)
Theorem Handler_mask_loses_signal_64 :
  let uc := mkUcontext (sigbit 64) 0 in
  let action := action_ (chains Linux.segv_with_user_handler SIGSEGV) in
  let r := Handler android_arm64 Linux.libc Linux.code SIGSEGV (mkSiginfo 1 0) uc
             Linux.segv_with_user_handler in
  events r =
    [EvLinkedSigprocmask sigset_t SIG_SETMASK (Some 0) true;
     EvSpecialHandler Linux.declining SIGSEGV true (Some false);
     EvLinkedSigprocmask sigset_t SIG_SETMASK (Some 0) false;
     EvLinkedSigprocmask sigset64_t SIG_SETMASK (Some (sigbit SIGSEGV)) false;
     EvSaSigaction 7777 SIGSEGV (mkSiginfo 1 0)]
  /\ Z.land (sa_flags action) SA_NODEFER = 0
  /\ Z.lor (Z.lor (uc_sigmask uc) (sa_mask action)) (sigbit SIGSEGV)
     = Z.lor (sigbit 64) (sigbit SIGSEGV)
  /\ forward_mask android_arm64 SIGSEGV action uc = sigbit SIGSEGV
  /\ Z.testbit (forward_mask android_arm64 SIGSEGV action uc) (64 - 1) = false
  /\ Z.testbit (uc_sigmask uc) (64 - 1) = true.
Proof.
  cbv zeta. repeat split; reflexivity.
Qed.

(** ** [Register], [Claim] and [EnsureFrontOfChain] *)

Section RegisterProperties.

Context (plat : Platform) {OS : Type} (libc : Libc OS) (code : Code OS).

(** The run of [Register]: two calls of the real [sigaction], the previous
    disposition into [action_] (and [orig_action_] on Bionic), the flags
    from what the second call reads back. *)
Lemma Register_run this signo (p : Proc OS) r1 old1 y1 r2 rb y2 :
  libc_sigaction libc (action_type plat) signo
    (Some (handler_action plat code)) true (sys p) = (r1, old1, y1) ->
  libc_sigaction libc (action_type plat) signo None true y1 = (r2, rb, y2) ->
  let c := chains p this in
  let a := match old1 with Some old => old | None => action_ c end in
  let readback := match rb with Some x => x | None => handler_action plat code end in
  exists p',
    Register plat libc code this signo p =
      ([EvLinkedSigaction (action_type plat) signo (Some (handler_action plat code)) true;
        EvLinkedSigaction (action_type plat) signo None true],
       Ret tt p')
    /\ chains p' this =
         {| claimed_ := claimed_ c;
            kernel_supported_flags_ := supported_flags_from plat (sa_flags readback);
            action_ := a;
            orig_action_ := if bionic plat then a else orig_action_ c;
            special_handlers_ := special_handlers_ c |}
    /\ (forall i, i <> this -> chains p' i = chains p i)
    /\ sys p' = y2
    /\ handling_keys p' = handling_keys p
    /\ is_signal_hook_debuggable p' = is_signal_hook_debuggable p.
Proof.
  intros H1 H2 c a readback. subst c a readback.
  unfold Register, bind, linked_sigaction, modify.
  rewrite H1. cbn [sys set_sys set_chain app]. rewrite H2.
  cbn [app snd fst chains set_chain set_sys sys].
  eexists. split; [reflexivity|].
  cbn [chains set_chain set_sys sys handling_keys is_signal_hook_debuggable].
  rewrite !Z.eqb_refl.
  split; [destruct old1; reflexivity|].
  split; [|auto].
  intros i Hi. destruct (Z.eqb_spec i this); [contradiction|reflexivity].
Qed.

Lemma supported_flags_from_spec readback_flags :
  let ksf := supported_flags_from plat readback_flags in
  let probed :=
    (Z.land readback_flags SA_UNSUPPORTED =? 0)
    && negb (Z.land readback_flags SA_EXPOSE_TAGBITS =? 0) in
  ksf =
    Z.lor (Z.lor (Z.lor (Z.lor (Z.lor (Z.lor (Z.lor (Z.lor
      SA_NOCLDSTOP SA_NOCLDWAIT) SA_SIGINFO) SA_ONSTACK) SA_RESTART)
      SA_NODEFER) SA_RESETHAND)
      (if SA_RESTORER_defined plat then SA_RESTORER else 0))
      (if probed then SA_EXPOSE_TAGBITS else 0)
  /\ (Z.land ksf SA_EXPOSE_TAGBITS <> 0 <->
      Z.land readback_flags SA_UNSUPPORTED = 0
      /\ Z.land readback_flags SA_EXPOSE_TAGBITS <> 0).
Proof.
  cbv zeta. unfold supported_flags_from, base_supported_flags.
  destruct (Z.eqb_spec (Z.land readback_flags SA_UNSUPPORTED) 0) as [Hu|Hu];
    destruct (Z.eqb_spec (Z.land readback_flags SA_EXPOSE_TAGBITS) 0) as [He|He];
    destruct (SA_RESTORER_defined plat); cbn [andb negb];
    (split; [reflexivity|]);
    (split; [intros H; try (exfalso; apply H; reflexivity); auto
            | intros [H1 H2]; try contradiction; vm_compute; discriminate]).
Qed.

(** C8: at claim time [kernel_supported_flags_] becomes the union of
    SA_NOCLDSTOP, SA_NOCLDWAIT, SA_SIGINFO, SA_ONSTACK, SA_RESTART,
    SA_NODEFER and SA_RESETHAND, of SA_RESTORER where it is defined, and of
    SA_EXPOSE_TAGBITS if and only if the action read back from the kernel
    has SA_UNSUPPORTED cleared and SA_EXPOSE_TAGBITS present. *)
Theorem Claim_kernel_supported_flags this signo (p : Proc OS) :
  claimed_ (chains p this) = false ->
  let y1 := snd (libc_sigaction libc (action_type plat) signo
                   (Some (handler_action plat code)) true (sys p)) in
  let readback :=
    match snd (fst (libc_sigaction libc (action_type plat) signo None true y1)) with
    | Some a => a
    | None => handler_action plat code
    end in
  let probed :=
    (Z.land (sa_flags readback) SA_UNSUPPORTED =? 0)
    && negb (Z.land (sa_flags readback) SA_EXPOSE_TAGBITS =? 0) in
  exists t p',
    Claim plat libc code this signo p = (t, Ret tt p')
    /\ claimed_ (chains p' this) = true
    /\ kernel_supported_flags_ (chains p' this) =
       Z.lor (Z.lor (Z.lor (Z.lor (Z.lor (Z.lor (Z.lor (Z.lor
         SA_NOCLDSTOP SA_NOCLDWAIT) SA_SIGINFO) SA_ONSTACK) SA_RESTART)
         SA_NODEFER) SA_RESETHAND)
         (if SA_RESTORER_defined plat then SA_RESTORER else 0))
         (if probed then SA_EXPOSE_TAGBITS else 0)
    /\ (Z.land (kernel_supported_flags_ (chains p' this)) SA_EXPOSE_TAGBITS <> 0 <->
        Z.land (sa_flags readback) SA_UNSUPPORTED = 0
        /\ Z.land (sa_flags readback) SA_EXPOSE_TAGBITS <> 0).
Proof.
  intros Hc y1 readback probed. subst probed readback y1.
  destruct (libc_sigaction libc (action_type plat) signo
              (Some (handler_action plat code)) true (sys p))
    as [[r1 old1] y1] eqn:E1.
  cbn [snd].
  destruct (libc_sigaction libc (action_type plat) signo None true y1)
    as [[r2 rb] y2] eqn:E2.
  cbn [snd fst].
  unfold Claim, bind, gets, modify. rewrite Hc. cbn [negb app].
  destruct (Register_run this signo p _ _ _ _ _ _ E1 E2)
    as (p1 & -> & Hchain & _).
  do 2 eexists. split; [reflexivity|].
  rewrite !set_chain_same, Hchain. cbn [claimed_ kernel_supported_flags_].
  split; [reflexivity|].
  apply supported_flags_from_spec.
Qed.


End RegisterProperties.

(** C8, witness: the first special handler for SIGSEGV on Android, over a
    kernel that clears SA_UNSUPPORTED and keeps SA_EXPOSE_TAGBITS. *)
Lemma Claim_kernel_supported_flags_witness :
  claimed_ (chains Linux.boot SIGSEGV) = false
  /\ exists t p',
       Claim android_arm64 Linux.libc Linux.code SIGSEGV SIGSEGV Linux.boot
         = (t, Ret tt p')
       /\ kernel_supported_flags_ (chains p' SIGSEGV) = 0xDC000807.
Proof.
  split; [reflexivity|].
  destruct (Claim_kernel_supported_flags android_arm64 Linux.libc Linux.code
              SIGSEGV SIGSEGV Linux.boot eq_refl)
    as (t & p' & Hrun & _ & Hksf & _).
  exists t, p'. split; [exact Hrun|]. rewrite Hksf. reflexivity.
Defined.


(** ** The handling-signal bitmap, sigchain.cc:179-251 *)

Section BitmapLayout.

Context (plat : Platform).

Lemma kNumSignalsPerKey_pow2 : exists k, 0 <= k /\ (kNumSignalsPerKey plat) = 2 ^ k /\ k < (kNumSignalsPerKey plat).
Proof.
  unfold kNumSignalsPerKey. destruct (lp64 plat).
  - exists 6. repeat split; lia.
  - exists 5. repeat split; lia.
Qed.

Lemma size_t_small x : 0 <= x < 2 ^ (kNumSignalsPerKey plat) -> size_t plat x = x.
Proof. intros H. unfold size_t. now apply Z.mod_small. Qed.

(** X1: on the values of its unsigned type, [IsPowerOfTwo] answers true
    exactly for the powers of two and for 0. *)
Theorem IsPowerOfTwo_spec x :
  0 <= x < 2 ^ (kNumSignalsPerKey plat) ->
  (IsPowerOfTwo plat x = true <-> x = 0 \/ exists k, 0 <= k /\ x = 2 ^ k).
Proof.
  intros Hx. unfold IsPowerOfTwo.
  destruct (Z.eq_dec x 0) as [->|Hne].
  { rewrite Z.land_0_l. split; auto. }
  rewrite size_t_small by lia.
  rewrite Z.eqb_eq. split.
  - intros Hland. right.
    exists (Z.log2 x). split; [apply Z.log2_nonneg|].
    destruct (Z.log2_spec x ltac:(lia)) as [Hlo Hhi].
    destruct (Z.eq_dec x (2 ^ Z.log2 x)) as [|Hn]; [assumption|exfalso].
    assert (Hlog : Z.log2 (x - 1) = Z.log2 x).
    { apply Z.log2_unique; [apply Z.log2_nonneg|]. rewrite <- Z.add_1_r in Hhi. lia. }
    assert (Hb : Z.testbit (Z.land x (x - 1)) (Z.log2 x) = true).
    { rewrite Z.land_spec, Z.bit_log2 by lia.
      rewrite <- Hlog. rewrite Z.bit_log2; [reflexivity|].
      pose proof (Z.pow_pos_nonneg 2 (Z.log2 x) ltac:(lia) (Z.log2_nonneg x)). lia. }
    rewrite Hland, Z.bits_0 in Hb. discriminate.
  - intros [H0|(k & Hk & ->)]; [contradiction|].
    replace (2 ^ k - 1) with (Z.ones k) by (rewrite Z.ones_equiv; lia).
    rewrite Z.land_ones by assumption. apply Z.mod_same.
    pose proof (Z.pow_pos_nonneg 2 k ltac:(lia) Hk). lia.
Qed.

Lemma land_neg_pow2 y k :
  0 <= k -> 0 <= y < 2 ^ (kNumSignalsPerKey plat) ->
  Z.land y (size_t plat (- 2 ^ k)) = 2 ^ k * (y / 2 ^ k).
Proof.
  intros Hk Hy.
  assert (HW : 0 < (kNumSignalsPerKey plat)) by apply kNumSignalsPerKey_pos.
  transitivity (Z.shiftl (Z.shiftr y k) k).
  2: { rewrite Z.shiftl_mul_pow2, Z.shiftr_div_pow2 by assumption. apply Z.mul_comm. }
  apply Z.bits_inj'. intros i Hi.
  rewrite Z.land_spec. unfold size_t.
  rewrite Z.testbit_mod_pow2 by lia.
  replace (- 2 ^ k) with (Z.lnot (Z.ones k))
    by (rewrite Z.ones_equiv; unfold Z.lnot; lia).
  rewrite Z.lnot_spec, Z.testbit_ones_nonneg by lia.
  rewrite Z.shiftl_spec by lia.
  destruct (Z.ltb_spec i k).
  - rewrite (Z.testbit_neg_r _ (i - k)) by lia. cbn. now rewrite !andb_false_r.
  - rewrite Z.shiftr_spec by lia. replace (i - k + k) with i by lia.
    cbn [negb]. rewrite andb_true_r.
    destruct (Z.ltb_spec i (kNumSignalsPerKey plat)); [now rewrite andb_true_r|].
    rewrite andb_false_r.
    symmetry. rewrite <- (Z.mod_small y (2 ^ (kNumSignalsPerKey plat))) by assumption.
    apply Z.mod_pow2_bits_high. lia.
Qed.

Lemma RoundUp_pow2 x k :
  0 <= k -> 0 <= x -> x + 2 ^ k - 1 < 2 ^ (kNumSignalsPerKey plat) ->
  RoundUp plat x (2 ^ k) = 2 ^ k * ((x + 2 ^ k - 1) / 2 ^ k).
Proof.
  intros Hk Hx Hb.
  pose proof (Z.pow_pos_nonneg 2 k ltac:(lia) Hk) as Hn.
  unfold RoundUp. rewrite (size_t_small (x + 2 ^ k - 1)) by lia.
  apply land_neg_pow2; lia.
Qed.

(** X2: for a power of two [n], and as long as [x + n - 1] does not
    overflow, [RoundUp x n] is the least multiple of [n] that is not below
    [x]. *)
Theorem RoundUp_spec x n :
  (exists k, 0 <= k /\ n = 2 ^ k) ->
  0 <= x -> x + n - 1 < 2 ^ (kNumSignalsPerKey plat) ->
  RoundUp plat x n = n * ((x + n - 1) / n)
  /\ x <= RoundUp plat x n < x + n
  /\ RoundUp plat x n mod n = 0
  /\ (forall m, m mod n = 0 -> x <= m -> RoundUp plat x n <= m).
Proof.
  intros (k & Hk & ->) Hx Hb.
  pose proof (Z.pow_pos_nonneg 2 k ltac:(lia) Hk) as Hn.
  rewrite (RoundUp_pow2 x k Hk Hx Hb).
  pose proof (Z.div_mod (x + 2 ^ k - 1) (2 ^ k) ltac:(lia)) as Hdm.
  pose proof (Z.mod_pos_bound (x + 2 ^ k - 1) (2 ^ k) Hn) as Hm.
  split; [reflexivity|]. split; [lia|]. split.
  - rewrite Z.mul_comm. apply Z.mod_mul. lia.
  - intros m Hm0 Hxm.
    apply Z.mod_divide in Hm0; [|lia]. destruct Hm0 as [q ->].
    assert (Hq : (x + 2 ^ k - 1) / 2 ^ k <= q).
    { apply Z.lt_succ_r. apply Z.div_lt_upper_bound; [lia|]. nia. }
    nia.
Qed.

Lemma key_count_value :
  0 < NSIG plat -> NSIG plat + (kNumSignalsPerKey plat) - 2 < 2 ^ (kNumSignalsPerKey plat) ->
  kHandlingSignalKeyCount plat = (NSIG plat + (kNumSignalsPerKey plat) - 2) / (kNumSignalsPerKey plat).
Proof.
  intros Hn Hb. pose proof (kNumSignalsPerKey_pos plat) as HW.
  destruct kNumSignalsPerKey_pow2 as (k & Hk & Hpow & _).
  unfold kHandlingSignalKeyCount, kSignalSetLength.
  rewrite Hpow at 1 3. rewrite RoundUp_pow2 by (rewrite <- ?Hpow; lia).
  rewrite <- Hpow.
  replace (NSIG plat - 1 + (kNumSignalsPerKey plat) - 1) with (NSIG plat + (kNumSignalsPerKey plat) - 2) by lia.
  rewrite Z.mul_comm. apply Z.div_mul. lia.
Qed.

Lemma signal_position signo :
  0 < signo <= 2 ^ (kNumSignalsPerKey plat) ->
  signo - 1 = (kNumSignalsPerKey plat) * key_idx_of plat signo + bit_idx_of plat signo mod (kNumSignalsPerKey plat)
  /\ 0 <= bit_idx_of plat signo mod (kNumSignalsPerKey plat) < (kNumSignalsPerKey plat)
  /\ bit_mask_of plat signo = 2 ^ (bit_idx_of plat signo mod (kNumSignalsPerKey plat)).
Proof.
  intros Hs. pose proof (kNumSignalsPerKey_pos plat) as HW.
  unfold key_idx_of, bit_mask_of, bit_idx_of.
  rewrite size_t_small by lia.
  pose proof (Z.mod_pos_bound (signo - 1) (kNumSignalsPerKey plat) HW) as Hm.
  split; [apply Z.div_mod; lia|]. split; [exact Hm|].
  rewrite Z.shiftl_1_l. apply size_t_small.
  split; [apply Z.pow_nonneg; lia|]. apply Z.pow_lt_mono_r; lia.
Qed.

(** X3: every valid signal number has its handling bit in one of the
    [kHandlingSignalKeyCount] words of the bitmap, and two signals never share
    a bit. *)
Theorem handling_bit_layout signo signo' :
  NSIG plat + (kNumSignalsPerKey plat) - 2 < 2 ^ (kNumSignalsPerKey plat) ->
  0 < signo < NSIG plat -> 0 < signo' < NSIG plat ->
  0 <= key_idx_of plat signo < kHandlingSignalKeyCount plat
  /\ (key_idx_of plat signo = key_idx_of plat signo' ->
      bit_mask_of plat signo = bit_mask_of plat signo' -> signo = signo').
Proof.
  intros Hb Hs Hs'. pose proof (kNumSignalsPerKey_pos plat) as HW.
  assert (Hle : NSIG plat <= 2 ^ (kNumSignalsPerKey plat)) by lia.
  destruct (signal_position signo ltac:(lia)) as (Hp & Hr & Hm).
  destruct (signal_position signo' ltac:(lia)) as (Hp' & Hr' & Hm').
  split.
  - rewrite key_count_value by lia.
    unfold key_idx_of, bit_idx_of. rewrite size_t_small by lia.
    split; [apply Z.div_pos; lia|].
    replace (NSIG plat + (kNumSignalsPerKey plat) - 2) with (NSIG plat - 2 + 1 * (kNumSignalsPerKey plat)) by lia.
    rewrite Z.div_add by lia.
    pose proof (Z.div_le_mono (signo - 1) (NSIG plat - 2) (kNumSignalsPerKey plat) HW ltac:(lia)). lia.
  - intros Hk Hmask. rewrite Hm, Hm' in Hmask.
    apply Z.pow_inj_r in Hmask; lia.
Qed.

End BitmapLayout.

Section BitmapOps.

Context (plat : Platform) {OS : Type}.

(** X4: [SetHandlingSignal] returns the previous value of the bit of
    [signo], leaves that bit at [value], and changes neither the bit of any
    other signal nor the chain records nor the system. *)
Theorem SetHandlingSignal_frame signo value (p : Proc OS) :
  0 < signo <= 2 ^ (kNumSignalsPerKey plat) ->
  exists p',
    SetHandlingSignal plat signo value p = ([], Ret (GetHandlingSignal plat signo p) p')
    /\ GetHandlingSignal plat signo p' = value
    /\ (forall signo', 0 < signo' <= 2 ^ (kNumSignalsPerKey plat) -> signo' <> signo ->
          GetHandlingSignal plat signo' p' = GetHandlingSignal plat signo' p)
    /\ chains p' = chains p /\ sys p' = sys p
    /\ is_signal_hook_debuggable p' = is_signal_hook_debuggable p.
Proof.
  intros Hs. pose proof (kNumSignalsPerKey_pos plat) as HW.
  exists (store_handling_bit plat signo value p).
  split; [reflexivity|]. split; [apply GetHandlingSignal_store|].
  split; [|repeat split].
  intros signo' Hs' Hne.
  destruct (signal_position plat signo Hs) as (Hp & Hr & Hm).
  destruct (signal_position plat signo' Hs') as (Hp' & Hr' & Hm').
  unfold GetHandlingSignal, store_handling_bit, set_handling_key. cbn [handling_keys].
  destruct (Z.eqb_spec (key_idx_of plat signo') (key_idx_of plat signo)) as [Hk|Hk];
    [|reflexivity].
  rewrite Hk, Hm, Hm'.
  set (k := bit_idx_of plat signo mod (kNumSignalsPerKey plat)) in *.
  set (k' := bit_idx_of plat signo' mod (kNumSignalsPerKey plat)) in *.
  assert (Hkk : k <> k') by lia.
  set (b := handling_keys p (key_idx_of plat signo)).
  f_equal. f_equal.
  apply Z.bits_inj'. intros i Hi.
  destruct value.
  - rewrite !Z.land_spec, Z.lor_spec.
    destruct (Z.eq_dec i k') as [->|Hik].
    + rewrite (Z.pow2_bits_false k k') by lia. now rewrite orb_false_r.
    + rewrite (Z.pow2_bits_false k' i) by lia. now rewrite !andb_false_r.
  - rewrite !Z.land_spec. unfold size_t.
    rewrite Z.testbit_mod_pow2, Z.lnot_spec by lia.
    destruct (Z.eq_dec i k') as [->|Hik].
    + rewrite (Z.pow2_bits_false k k') by lia.
      destruct (Z.ltb_spec k' (kNumSignalsPerKey plat)); [|lia]. cbn. now rewrite andb_true_r.
    + rewrite (Z.pow2_bits_false k' i) by lia. now rewrite !andb_false_r.
Qed.

(** X5: [GetHandlingSignal()] is true exactly when the handling bit of
    some signal the bitmap has room for is set, as [GetHandlingSignal(signo)]
    reads it. *)
Theorem GetHandlingSignalAny_spec (p : Proc OS) :
  NSIG plat + (kNumSignalsPerKey plat) - 2 < 2 ^ (kNumSignalsPerKey plat) -> 0 < NSIG plat ->
  (forall idx, 0 <= handling_keys p idx < 2 ^ (kNumSignalsPerKey plat)) ->
  (GetHandlingSignalAny plat p = true <->
   exists signo, 0 < signo <= (kNumSignalsPerKey plat) * kHandlingSignalKeyCount plat
                 /\ GetHandlingSignal plat signo p = true).
Proof.
  intros Hb Hn Hwords. pose proof (kNumSignalsPerKey_pos plat) as HW.
  assert (Hcount : 0 <= kHandlingSignalKeyCount plat
                   /\ (kNumSignalsPerKey plat) * kHandlingSignalKeyCount plat <= NSIG plat + (kNumSignalsPerKey plat) - 2).
  { rewrite (key_count_value plat) by lia.
    split; [apply Z.div_pos; lia|]. apply Z.mul_div_le. lia. }
  destruct Hcount as [Hc0 Hc1].
  unfold GetHandlingSignalAny. rewrite existsb_exists. split.
  - intros (i & Hin & Hnz). apply in_seq in Hin.
    rewrite negb_true_iff, Z.eqb_neq in Hnz.
    set (word := handling_keys p (Z.of_nat i)) in *.
    pose proof (Hwords (Z.of_nat i)) as Hw. fold word in Hw.
    assert (Hpos : 0 < word) by lia.
    destruct (Z.log2_spec word Hpos) as [Hlo Hhi].
    assert (Hk : 0 <= Z.log2 word < (kNumSignalsPerKey plat)).
    { split; [apply Z.log2_nonneg|]. apply Z.log2_lt_pow2; lia. }
    exists ((kNumSignalsPerKey plat) * Z.of_nat i + Z.log2 word + 1).
    assert (Hi : Z.of_nat i < kHandlingSignalKeyCount plat) by lia.
    assert (Hrange : 0 < (kNumSignalsPerKey plat) * Z.of_nat i + Z.log2 word + 1 <= 2 ^ (kNumSignalsPerKey plat)) by nia.
    split; [nia|].
    destruct (signal_position plat _ Hrange) as (Hp & Hr & Hm).
    assert (Hkey : key_idx_of plat ((kNumSignalsPerKey plat) * Z.of_nat i + Z.log2 word + 1) = Z.of_nat i) by nia.
    assert (Hbit : bit_idx_of plat ((kNumSignalsPerKey plat) * Z.of_nat i + Z.log2 word + 1) mod (kNumSignalsPerKey plat) = Z.log2 word) by nia.
    unfold GetHandlingSignal. rewrite Hm, Hkey, Hbit. fold word.
    rewrite negb_true_iff, Z.eqb_neq. intros Hz.
    assert (Ht : Z.testbit (Z.land word (2 ^ Z.log2 word)) (Z.log2 word) = true).
    { rewrite Z.land_spec, Z.bit_log2, Z.pow2_bits_true by lia. reflexivity. }
    rewrite Hz, Z.bits_0 in Ht. discriminate.
  - intros (signo & Hs & Hget).
    assert (Hrange : 0 < signo <= 2 ^ (kNumSignalsPerKey plat)) by lia.
    destruct (signal_position plat signo Hrange) as (Hp & Hr & Hm).
    assert (Hkey : 0 <= key_idx_of plat signo < kHandlingSignalKeyCount plat).
    { unfold key_idx_of, bit_idx_of. rewrite size_t_small by lia.
      split; [apply Z.div_pos; lia|]. apply Z.div_lt_upper_bound; lia. }
    exists (Z.to_nat (key_idx_of plat signo)). split.
    + apply in_seq. lia.
    + rewrite Z2Nat.id by lia. unfold GetHandlingSignal in Hget.
      rewrite negb_true_iff, Z.eqb_neq in *. intros Hz. apply Hget.
      rewrite Hz. apply Z.land_0_l.
Qed.

End BitmapOps.

(** ** The table of special handlers, sigchain.cc:378-403 *)

Lemma installed_all_free l : forallb is_free_slot l = true -> installed_handlers l = [].
Proof. destruct l as [|a tl]; [reflexivity|]. cbn. now intros [-> _]%andb_prop. Qed.

Lemma installed_length l : (List.length (installed_handlers l) <= List.length l)%nat.
Proof.
  induction l as [|a tl IH]; cbn; [lia|]. destruct (is_free_slot a); cbn; lia.
Qed.

Lemma add_special_slot_spec l sa :
  sc_sigaction sa <> nullptr ->
  null_terminated l = true ->
  match add_special_slot l sa with
  | Some l' =>
      (List.length (installed_handlers l) < List.length l)%nat
      /\ installed_handlers l' = installed_handlers l ++ [sa]
      /\ List.length l' = List.length l
      /\ null_terminated l' = true
  | None => List.length (installed_handlers l) = List.length l
  end.
Proof.
  intros Hsa. induction l as [|a tl IH]; intros Hnt; cbn in *; [reflexivity|].
  unfold is_free_slot in *.
  destruct (sc_sigaction a =? nullptr) eqn:Ea.
  - cbn. unfold is_free_slot.
    destruct (Z.eqb_spec (sc_sigaction sa) nullptr); [contradiction|].
    rewrite (installed_all_free tl Hnt).
    repeat split; try lia.
    clear - Hnt. destruct tl as [|b tl]; [reflexivity|].
    cbn in *. apply andb_prop in Hnt. destruct Hnt as [Hb Htl].
    unfold is_free_slot in *. now rewrite Hb.
  - specialize (IH Hnt). destruct (add_special_slot tl sa) as [l'|]; cbn.
    + unfold is_free_slot. rewrite Ea. cbn.
      destruct IH as (H1 & H2 & H3 & H4). repeat split; try lia; congruence.
    + lia.
Qed.

Lemma shift_slots_spec a tl :
  List.length (shift_slots (a :: tl)) = S (List.length tl)
  /\ (null_terminated (a :: tl) = true -> is_free_slot a = false ->
      installed_handlers (shift_slots (a :: tl)) = installed_handlers tl
      /\ null_terminated (shift_slots (a :: tl)) = true).
Proof.
  revert a. induction tl as [|b tl IH]; intros a.
  - cbn. split; [reflexivity|]. intros _ _. unfold is_free_slot. cbn. auto.
  - change (shift_slots (a :: b :: tl)) with (b :: shift_slots (b :: tl)).
    destruct (IH b) as [Hlen Hrest].
    split; [cbn [List.length] in *; now rewrite Hlen|].
    intros Hnt Ha.
    assert (Hnt' : null_terminated (b :: tl) = true).
    { change (null_terminated (a :: b :: tl))
        with (if is_free_slot a then forallb is_free_slot (b :: tl)
              else null_terminated (b :: tl)) in Hnt.
      now rewrite Ha in Hnt. }
    clear Hnt. rename Hnt' into Hnt.
    cbn [installed_handlers null_terminated].
    destruct (is_free_slot b) eqn:Eb.
    + split; [reflexivity|].
      cbn [null_terminated] in Hnt. rewrite Eb in Hnt.
      clear - Hnt Eb. revert b Eb. induction tl as [|c tl IH]; intros b Eb.
      * cbn. unfold is_free_slot. reflexivity.
      * change (shift_slots (b :: c :: tl)) with (c :: shift_slots (c :: tl)).
        cbn [forallb] in *. apply andb_prop in Hnt.
        destruct Hnt as [Hc Htl]. rewrite Hc. cbn [andb]. now apply IH.
    + destruct (Hrest Hnt eq_refl) as [H1 H2]. now rewrite H1, H2.
Qed.

Lemma remove_special_slot_spec l fn :
  fn <> nullptr ->
  null_terminated l = true ->
  match remove_special_slot l fn with
  | Some l' =>
      has_handler fn (installed_handlers l) = true
      /\ installed_handlers l' = remove_first_handler fn (installed_handlers l)
      /\ List.length l' = List.length l
      /\ null_terminated l' = true
  | None => has_handler fn (installed_handlers l) = false
  end.
Proof.
  intros Hfn. induction l as [|a tl IH]; intros Hnt; [reflexivity|].
  cbn [remove_special_slot].
  destruct (Z.eqb_spec (sc_sigaction a) fn) as [Ha|Ha].
  - assert (Hfree : is_free_slot a = false).
    { unfold is_free_slot. apply Z.eqb_neq. congruence. }
    destruct (shift_slots_spec a tl) as [Hlen Hrest].
    destruct (Hrest Hnt Hfree) as [H1 H2].
    cbn [installed_handlers]. rewrite Hfree. cbn [has_handler existsb remove_first_handler].
    destruct (Z.eqb_spec (sc_sigaction a) fn); [|contradiction].
    cbn [orb List.length]. repeat split; auto.
  - cbn [installed_handlers null_terminated] in *.
    destruct (is_free_slot a) eqn:Efree.
    + (* a free slot: the rest is free too *)
      assert (Hnone : remove_special_slot tl fn = None).
      { clear - Hnt Hfn. induction tl as [|b tl IH]; [reflexivity|].
        cbn in *. apply andb_prop in Hnt. destruct Hnt as [Hb Htl].
        unfold is_free_slot in Hb. apply Z.eqb_eq in Hb. rewrite Hb.
        destruct (Z.eqb_spec nullptr fn); [congruence|]. now rewrite IH. }
      rewrite Hnone. reflexivity.
    + specialize (IH Hnt).
      destruct (remove_special_slot tl fn) as [l'|]; cbn [option_map].
      * destruct IH as (H1 & H2 & H3 & H4).
        cbn [installed_handlers null_terminated has_handler existsb
             remove_first_handler List.length].
        rewrite Efree.
        destruct (Z.eqb_spec (sc_sigaction a) fn); [contradiction|].
        cbn [orb has_handler existsb remove_first_handler].
        destruct (Z.eqb_spec (sc_sigaction a) fn); [contradiction|].
        cbn [orb]. repeat split; auto; congruence.
      * cbn [has_handler existsb].
        destruct (Z.eqb_spec (sc_sigaction a) fn); [contradiction|]. exact IH.
Qed.

Section SpecialHandlerTable.

Context {OS : Type}.

Lemma AddSpecialHandler_run this sa (p : Proc OS) :
  AddSpecialHandler this sa p =
  match add_special_slot (special_handlers_ (chains p this)) sa with
  | Some l' =>
      ([], Ret tt (set_chain this (with_special_handlers l' (chains p this)) p))
  | None => ([], Fatal "too many special signal handlers")
  end.
Proof.
  unfold AddSpecialHandler, bind, gets, modify, fatal. cbn [app].
  destruct (add_special_slot (special_handlers_ (chains p this)) sa); reflexivity.
Qed.

Lemma RemoveSpecialHandler_run this fn (p : Proc OS) :
  RemoveSpecialHandler this fn p =
  match remove_special_slot (special_handlers_ (chains p this)) fn with
  | Some l' =>
      ([], Ret tt (set_chain this (with_special_handlers l' (chains p this)) p))
  | None => ([], Fatal "failed to find special handler to remove")
  end.
Proof.
  unfold RemoveSpecialHandler, bind, gets, modify, fatal. cbn [app].
  destruct (remove_special_slot (special_handlers_ (chains p this)) fn); reflexivity.
Qed.

Lemma set_chain_other (p : Proc OS) this c i :
  i <> this -> chains (set_chain this c p) i = chains p i.
Proof.
  intros Hi. unfold set_chain. cbn.
  destruct (Z.eqb_spec i this); [contradiction|reflexivity].
Qed.

(** X6: [AddSpecialHandler] puts the handler behind the installed ones
    and leaves the rest of the chain record, the other chains and the system
    alone; when every slot is taken it is fatal. *)
Theorem AddSpecialHandler_appends this sa (p : Proc OS) :
  sc_sigaction sa <> nullptr ->
  null_terminated (special_handlers_ (chains p this)) = true ->
  let l := special_handlers_ (chains p this) in
  ((List.length (installed_handlers l) < List.length l)%nat ->
   exists p',
     AddSpecialHandler this sa p = ([], Ret tt p')
     /\ installed_handlers (special_handlers_ (chains p' this)) =
        installed_handlers l ++ [sa]
     /\ List.length (special_handlers_ (chains p' this)) = List.length l
     /\ null_terminated (special_handlers_ (chains p' this)) = true
     /\ claimed_ (chains p' this) = claimed_ (chains p this)
     /\ action_ (chains p' this) = action_ (chains p this)
     /\ kernel_supported_flags_ (chains p' this) = kernel_supported_flags_ (chains p this)
     /\ (forall i, i <> this -> chains p' i = chains p i)
     /\ sys p' = sys p)
  /\ (List.length (installed_handlers l) = List.length l ->
      AddSpecialHandler this sa p = ([], Fatal "too many special signal handlers")).
Proof.
  intros Hsa Hnt l. subst l.
  pose proof (add_special_slot_spec _ sa Hsa Hnt) as Hspec.
  rewrite AddSpecialHandler_run.
  destruct (add_special_slot (special_handlers_ (chains p this)) sa) as [l'|].
  - destruct Hspec as (H1 & H2 & H3 & H4). split; [|lia].
    intros _. eexists. split; [reflexivity|].
    rewrite !set_chain_same. cbn.
    repeat split; auto.
    intros i Hi. destruct (Z.eqb_spec i this); [contradiction|reflexivity].
  - split; [lia|]. reflexivity.
Qed.

(** X7: [RemoveSpecialHandler] takes out the first installed handler with
    the given function, keeps the others in their order and leaves the rest
    of the chain record alone; when no installed handler has that function
    it is fatal. *)
Theorem RemoveSpecialHandler_removes_first this fn (p : Proc OS) :
  fn <> nullptr ->
  null_terminated (special_handlers_ (chains p this)) = true ->
  let l := special_handlers_ (chains p this) in
  (has_handler fn (installed_handlers l) = true ->
   exists p',
     RemoveSpecialHandler this fn p = ([], Ret tt p')
     /\ installed_handlers (special_handlers_ (chains p' this)) =
        remove_first_handler fn (installed_handlers l)
     /\ List.length (special_handlers_ (chains p' this)) = List.length l
     /\ null_terminated (special_handlers_ (chains p' this)) = true
     /\ claimed_ (chains p' this) = claimed_ (chains p this)
     /\ action_ (chains p' this) = action_ (chains p this)
     /\ kernel_supported_flags_ (chains p' this) = kernel_supported_flags_ (chains p this)
     /\ (forall i, i <> this -> chains p' i = chains p i)
     /\ sys p' = sys p)
  /\ (has_handler fn (installed_handlers l) = false ->
      RemoveSpecialHandler this fn p =
        ([], Fatal "failed to find special handler to remove")).
Proof.
  intros Hfn Hnt l. subst l.
  pose proof (remove_special_slot_spec _ fn Hfn Hnt) as Hspec.
  rewrite RemoveSpecialHandler_run.
  destruct (remove_special_slot (special_handlers_ (chains p this)) fn) as [l'|].
  - destruct Hspec as (H1 & H2 & H3 & H4). split; [|congruence].
    intros _. eexists. split; [reflexivity|].
    rewrite !set_chain_same. cbn.
    repeat split; auto.
    intros i Hi. destruct (Z.eqb_spec i this); [contradiction|reflexivity].
  - split; [congruence|]. reflexivity.
Qed.

Lemma remove_first_handler_last fn l sa :
  has_handler fn l = false -> sc_sigaction sa = fn ->
  remove_first_handler fn (l ++ [sa]) = l.
Proof.
  intros Hno Hsa. induction l as [|a tl IH]; cbn in *.
  - rewrite Hsa, Z.eqb_refl. reflexivity.
  - apply orb_false_elim in Hno. destruct Hno as [Ha Htl].
    rewrite Ha. f_equal. now apply IH.
Qed.

Lemma has_handler_app fn l l' :
  has_handler fn (l ++ l') = has_handler fn l || has_handler fn l'.
Proof. apply existsb_app. Qed.

(** X8: adding a handler whose function is not installed yet and removing
    it again gives back the installed handlers as they were. *)
Theorem add_then_remove_special_handler this sa (p : Proc OS) :
  sc_sigaction sa <> nullptr ->
  null_terminated (special_handlers_ (chains p this)) = true ->
  let l := special_handlers_ (chains p this) in
  (List.length (installed_handlers l) < List.length l)%nat ->
  has_handler (sc_sigaction sa) (installed_handlers l) = false ->
  exists p1 p2,
    AddSpecialHandler this sa p = ([], Ret tt p1)
    /\ RemoveSpecialHandler this (sc_sigaction sa) p1 = ([], Ret tt p2)
    /\ installed_handlers (special_handlers_ (chains p2 this)) = installed_handlers l
    /\ List.length (special_handlers_ (chains p2 this)) = List.length l.
Proof.
  intros Hsa Hnt l Hroom Hnew. subst l.
  pose proof (add_special_slot_spec _ sa Hsa Hnt) as Hadd.
  rewrite AddSpecialHandler_run.
  destruct (add_special_slot (special_handlers_ (chains p this)) sa) as [l1|]; [|lia].
  destruct Hadd as (_ & Hinst & Hlen & Hnt1).
  exists (set_chain this (with_special_handlers l1 (chains p this)) p).
  pose proof (remove_special_slot_spec l1 (sc_sigaction sa) Hsa Hnt1) as Hrem.
  rewrite RemoveSpecialHandler_run, set_chain_same.
  change (special_handlers_ (with_special_handlers l1 (chains p this))) with l1.
  destruct (remove_special_slot l1 (sc_sigaction sa)) as [l2|].
  - destruct Hrem as (_ & Hinst2 & Hlen2 & _).
    eexists. split; [reflexivity|]. split; [reflexivity|].
    rewrite set_chain_same. cbn [special_handlers_ with_special_handlers].
    split; [|congruence].
    rewrite Hinst2, Hinst. now apply remove_first_handler_last.
  - exfalso. rewrite Hinst, has_handler_app in Hrem. cbn in Hrem.
    rewrite Z.eqb_refl, orb_true_r in Hrem. discriminate.
Qed.

(** X9: [RemoveSpecialHandler(nullptr)] is not refused while a slot is
    free: it finds the first free slot, returns and leaves the installed
    handlers as they are; it is fatal only when every slot is taken. *)
Theorem RemoveSpecialHandler_nullptr this (p : Proc OS) :
  null_terminated (special_handlers_ (chains p this)) = true ->
  let l := special_handlers_ (chains p this) in
  ((List.length (installed_handlers l) < List.length l)%nat ->
   exists p',
     RemoveSpecialHandler this nullptr p = ([], Ret tt p')
     /\ installed_handlers (special_handlers_ (chains p' this)) = installed_handlers l)
  /\ (List.length (installed_handlers l) = List.length l ->
      RemoveSpecialHandler this nullptr p =
        ([], Fatal "failed to find special handler to remove")).
Proof.
  intros Hnt l. subst l. rewrite RemoveSpecialHandler_run.
  set (l := special_handlers_ (chains p this)) in *.
  assert (H : match remove_special_slot l nullptr with
              | Some l' => (List.length (installed_handlers l) < List.length l)%nat
                           /\ installed_handlers l' = installed_handlers l
              | None => List.length (installed_handlers l) = List.length l
              end).
  { clearbody l. induction l as [|a tl IH]; [reflexivity|].
    cbn [remove_special_slot installed_handlers null_terminated] in *.
    unfold is_free_slot in *.
    destruct (sc_sigaction a =? nullptr) eqn:Ea.
    - cbn [List.length]. split; [lia|].
      destruct tl as [|b tl]; cbn.
      + unfold is_free_slot. reflexivity.
      + cbn in Hnt. apply andb_prop in Hnt. destruct Hnt as [Hb _].
        unfold is_free_slot in *. now rewrite Hb.
    - specialize (IH Hnt).
      destruct (remove_special_slot tl nullptr) as [l'|]; cbn.
      + unfold is_free_slot. rewrite Ea. destruct IH as [H1 H2].
        split; [lia|congruence].
      + lia. }
  destruct (remove_special_slot l nullptr) as [l'|].
  - destruct H as [H1 H2]. split; [|lia]. intros _.
    eexists. split; [reflexivity|]. rewrite set_chain_same. exact H2.
  - split; [lia|reflexivity].
Qed.

End SpecialHandlerTable.

(** ** The API on claimed and on unclaimed signals, sigchain.cc:564-747 *)

Section ApiProperties.

Context (plat : Platform) {OS : Type} (libc : Libc OS) (code : Code OS).

(** The run of [Claim]. *)
Lemma Claim_run this signo (p : Proc OS) :
  exists t p',
    Claim plat libc code this signo p = (t, Ret tt p')
    /\ claimed_ (chains p' this) = true
    /\ (forall i, i <> this -> chains p' i = chains p i)
    /\ special_handlers_ (chains p' this) = special_handlers_ (chains p this)
    /\ is_signal_hook_debuggable p' = is_signal_hook_debuggable p
    /\ (claimed_ (chains p this) = true -> t = [] /\ p' = p)
    /\ (claimed_ (chains p this) = false ->
        t = [EvLinkedSigaction (action_type plat) signo
               (Some (handler_action plat code)) true;
             EvLinkedSigaction (action_type plat) signo None true]).
Proof.
  unfold Claim, bind, gets, modify.
  destruct (claimed_ (chains p this)) eqn:Hc; cbn [negb app].
  - unfold ret. exists [], p. repeat split; auto; discriminate.
  - destruct (libc_sigaction libc (action_type plat) signo
                (Some (handler_action plat code)) true (sys p))
      as [[r1 old1] y1] eqn:E1.
    destruct (libc_sigaction libc (action_type plat) signo None true y1)
      as [[r2 rb] y2] eqn:E2.
    destruct (Register_run plat libc code this signo p _ _ _ _ _ _ E1 E2)
      as (p1 & -> & Hchain & Hothers & _ & _ & Hdbg).
    do 2 eexists. split; [reflexivity|].
    rewrite !set_chain_same, Hchain. cbn.
    split; [reflexivity|]. split.
    { intros i Hi. destruct (Z.eqb_spec i this); [contradiction|]. now apply Hothers. }
    repeat split; auto; discriminate.
Qed.


Lemma remove_claimed_nothing_claimed w (ch : Z -> SignalChain) set :
  (forall i, 0 < i < NSIG plat -> claimed_ (ch i) = false) ->
  remove_claimed plat w ch set = set.
Proof.
  intros Hnone. unfold remove_claimed.
  assert (H : forall l, (forall i, In i l -> 0 < Z.of_nat i < NSIG plat) ->
                        fold_left (remove_claimed_step plat w ch) l set = set).
  { induction l as [|i l IH]; intros Hl; [reflexivity|].
    cbn [fold_left]. unfold remove_claimed_step at 2. unfold IsClaimed.
    rewrite (Hnone (Z.of_nat i)) by (apply Hl; now left).
    cbn [andb]. apply IH. intros j Hj. apply Hl. now right. }
  apply H. intros i Hi. apply in_seq in Hi. lia.
Qed.

(** X11: while no signal is claimed the library is transparent:
    [sigprocmask] is the real one on every argument, and with the debug
    toggle off [sigaction] on a valid signal returns what the real one
    returns, in the same state, after the same call and nothing else but
    diagnostics. *)
Theorem unclaimed_shim_is_transparent (p : Proc OS) :
  (forall i, 0 < i < NSIG plat -> claimed_ (chains p i) = false) ->
  (forall t how new_set old_set,
     __sigprocmask plat t how new_set old_set (linked_sigprocmask libc t) p =
     linked_sigprocmask libc t how new_set old_set p)
  /\ (is_signal_hook_debuggable p = false ->
      forall t signal new_action old_action,
        0 < signal < NSIG plat ->
        outcome (__sigaction plat code t signal new_action old_action
                   (linked_sigaction libc t) p) =
          outcome (linked_sigaction libc t signal new_action old_action p)
        /\ without_logs (events (__sigaction plat code t signal new_action old_action
                                   (linked_sigaction libc t) p)) =
           events (linked_sigaction libc t signal new_action old_action p)).
Proof.
  intros Hnone. split.
  - intros t how new_set old_set. unfold __sigprocmask, bind, gets.
    destruct (GetHandlingSignalAny plat p).
    + destruct (linked_sigprocmask libc t how new_set old_set p). reflexivity.
    + destruct new_set as [set|].
      * rewrite (remove_claimed_nothing_claimed _ _ _ Hnone).
        destruct ((how =? SIG_BLOCK) || (how =? SIG_SETMASK)); cbn [app];
          destruct (linked_sigprocmask libc t how (Some set) old_set p); reflexivity.
      * destruct (linked_sigprocmask libc t how None old_set p). reflexivity.
  - intros Hd t signal new_action old_action Hs.
    rewrite (__sigaction_unclaimed plat code t signal new_action old_action
               (linked_sigaction libc t) p Hd Hs (Hnone signal Hs)).
    split; [reflexivity|].
    unfold events at 1. cbn [fst].
    rewrite without_logs_app,
      (without_logs_of_logs (sigsegv_dfl_log plat signal new_action))
      by apply sigsegv_dfl_log_is_log.
    unfold linked_sigaction, events.
    destruct (libc_sigaction libc t signal new_action old_action (sys p)) as [[r0 o0] s0].
    reflexivity.
Qed.


Lemma memcpy_bits_idem g a n :
  memcpy_bits sigemptyset (memcpy_bits g (memcpy_bits sigemptyset a n) n) n =
  memcpy_bits sigemptyset a n.
Proof.
  unfold memcpy_bits, sigemptyset. apply Z.bits_inj'. intros i Hi.
  repeat rewrite ?Z.lor_spec, ?Z.land_spec, ?Z.lnot_spec, ?Z.bits_0 by assumption.
  destruct (Z.testbit a i), (Z.testbit (Z.ones n) i), (Z.testbit g i); reflexivity.
Qed.

(** What a chain record holds once [SetAction] has run on it is stored
    again unchanged when it is read with [GetAction] and written back. *)
Lemma SetAction_GetAction t a c :
  let c1 := SetAction plat t a c in
  SetAction plat t (GetAction plat code t c1) c1 = c1.
Proof.
  cbv zeta. unfold SetAction, GetAction.
  destruct (SigactionType_eqb (action_type plat) t) eqn:Et;
    unfold with_action, with_flags; cbn;
    rewrite <- !Z.land_assoc, Z.land_diag; f_equal; f_equal;
    first [ apply memcpy_bits_idem
          | destruct (SA_RESTORER_defined plat); reflexivity ].
Qed.

(** X12: on a claimed signal, an action read with the interposed
    [sigaction] and written back leaves the chain record as it is: the flags
    a first write masked are not masked further, the mask is not cut
    further. *)
Theorem sigaction_read_write_round_trip t s a linked (p : Proc OS) :
  is_signal_hook_debuggable p = false ->
  0 < s < NSIG plat ->
  claimed_ (chains p s) = true ->
  exists t1 p1 t2 q t3 p3,
    __sigaction plat code t s (Some a) false linked p = (t1, Ret (0, None) p1)
    /\ __sigaction plat code t s None true linked p1 = (t2, Ret (0, Some q) p1)
    /\ __sigaction plat code t s (Some q) false linked p1 = (t3, Ret (0, None) p3)
    /\ chains p3 s = chains p1 s
    /\ sa_flags q = Z.land (sa_flags a) (kernel_supported_flags_ (chains p s))
    /\ sa_handler q = sa_handler a.
Proof.
  intros Hd Hs Hc.
  set (p1 := set_chain s (SetAction plat t a (chains p s)) p).
  assert (Hc1 : claimed_ (chains p1 s) = true).
  { unfold p1. rewrite set_chain_same.
    destruct (SetAction_frame plat t a (chains p s)) as [-> _]. exact Hc. }
  set (q := GetAction plat code t (chains p1 s)).
  exists (sigsegv_dfl_log plat s (Some a)), p1, [], q,
    (sigsegv_dfl_log plat s (Some q)),
    (set_chain s (SetAction plat t q (chains p1 s)) p1).
  split.
  { exact (__sigaction_claimed plat code t s (Some a) false linked p Hd Hs Hc). }
  split.
  { exact (__sigaction_claimed plat code t s None true linked p1 Hd Hs Hc1). }
  split.
  { exact (__sigaction_claimed plat code t s (Some q) false linked p1 Hd Hs Hc1). }
  rewrite set_chain_same. unfold q, p1. rewrite set_chain_same.
  split; [apply SetAction_GetAction|].
  destruct (GetAction_fields plat code t (SetAction plat t a (chains p s)))
    as (-> & -> & _).
  split; [apply SetAction_flags|].
  now destruct (SetAction_frame plat t a (chains p s)) as (_ & _ & ->).
Qed.

(** X13: [signal] on a claimed signal returns the handler stored before
    and stores the new one with the flags SA_RESTART | SA_ONSTACK (as far as
    the kernel supports them) and an empty mask, whatever the debug toggle
    says; the system is not called. *)
Theorem signal_returns_previous_handler s h1 h2 (p : Proc OS) :
  0 < s < NSIG plat ->
  claimed_ (chains p s) = true ->
  exists p1 p2,
    signal plat libc code s h1 p =
      ([], Ret (sa_handler (action_ (chains p s))) p1)
    /\ signal plat libc code s h2 p1 = ([], Ret h1 p2)
    /\ sa_handler (action_ (chains p2 s)) = h2
    /\ sa_flags (action_ (chains p2 s)) =
       Z.land (Z.lor SA_RESTART SA_ONSTACK) (kernel_supported_flags_ (chains p s))
    /\ sa_mask (action_ (chains p2 s)) = 0
    /\ sys p2 = sys p.
Proof.
  intros Hs Hc.
  assert (Hrun : forall h (q : Proc OS),
    claimed_ (chains q s) = true ->
    signal plat libc code s h q =
      ([], Ret (sa_handler (action_ (chains q s)))
             (set_chain s
                (SetAction plat struct_sigaction
                   {| sa_handler := h; sa_flags := Z.lor SA_RESTART SA_ONSTACK;
                      sa_mask := sigemptyset; sa_restorer := 0 |} (chains q s)) q))).
  { intros h q Hq. unfold signal.
    destruct (Z.leb_spec s 0); [lia|].
    destruct (Z.geb_spec s (NSIG plat)); [lia|]. cbn [orb].
    unfold bind, gets, modify, ret, IsClaimed. rewrite Hq. cbn [app].
    destruct (GetAction_fields plat code struct_sigaction (chains q s)) as (_ & -> & _).
    reflexivity. }
  set (sa1 := {| sa_handler := h1; sa_flags := Z.lor SA_RESTART SA_ONSTACK;
                 sa_mask := sigemptyset; sa_restorer := 0 |}).
  set (p1 := set_chain s (SetAction plat struct_sigaction sa1 (chains p s)) p).
  assert (Hc1 : claimed_ (chains p1 s) = true).
  { unfold p1. rewrite set_chain_same.
    destruct (SetAction_frame plat struct_sigaction sa1 (chains p s)) as [-> _]. exact Hc. }
  exists p1. eexists. split; [exact (Hrun h1 p Hc)|]. split.
  { rewrite (Hrun h2 p1 Hc1). unfold p1 at 1. rewrite set_chain_same.
    destruct (SetAction_frame plat struct_sigaction sa1 (chains p s)) as (_ & _ & ->).
    reflexivity. }
  rewrite set_chain_same.
  set (sa2 := {| sa_handler := h2; sa_flags := Z.lor SA_RESTART SA_ONSTACK;
                 sa_mask := sigemptyset; sa_restorer := 0 |}).
  destruct (SetAction_frame plat struct_sigaction sa2 (chains p1 s)) as (_ & Hk & ->).
  split; [reflexivity|].
  rewrite SetAction_flags. unfold p1 at 1. rewrite set_chain_same.
  destruct (SetAction_frame plat struct_sigaction sa1 (chains p s)) as (_ & -> & _).
  split; [reflexivity|]. split; [|reflexivity].
  unfold SetAction. cbn.
  destruct (SigactionType_eqb (action_type plat) struct_sigaction); reflexivity.
Qed.


Lemma claimed_set_chain (p : Proc OS) this c s :
  claimed_ c = claimed_ (chains p this) ->
  claimed_ (chains (set_chain this c p) s) = claimed_ (chains p s).
Proof.
  intros Hc. unfold set_chain. cbn.
  destruct (Z.eqb_spec s this) as [->|]; [exact Hc|reflexivity].
Qed.

Lemma linked_sigaction_final t signo new_action old_action (p p' : Proc OS) :
  final_state (linked_sigaction libc t signo new_action old_action p) = Some p' ->
  chains p' = chains p.
Proof.
  unfold linked_sigaction, final_state.
  destruct (libc_sigaction libc t signo new_action old_action (sys p)) as [[r o] y].
  cbn. intros H. injection H as <-. reflexivity.
Qed.

Lemma linked_sigprocmask_final t how new_set old_set (p p' : Proc OS) :
  final_state (linked_sigprocmask libc t how new_set old_set p) = Some p' ->
  chains p' = chains p.
Proof.
  unfold linked_sigprocmask, final_state.
  destruct (libc_sigprocmask libc t how new_set old_set (sys p)) as [[r o] y].
  cbn. intros H. injection H as <-. reflexivity.
Qed.

(** X14: no function of the interposed or runtime-facing API takes a
    claim back: [sigaction], [signal], [sigprocmask],
    [RemoveSpecialSignalHandlerFn], [EnsureFrontOfChain] and
    [SkipAddSignalHandler] leave [claimed_] of every signal as it is, and
    [AddSpecialSignalHandlerFn] only sets the one of its signal. *)
Theorem claimed_is_one_way s (p p' : Proc OS) :
  (forall t signal new_action old_action,
     final_state (__sigaction plat code t signal new_action old_action
                    (linked_sigaction libc t) p) = Some p' ->
     claimed_ (chains p' s) = claimed_ (chains p s))
  /\ (forall signo handler,
        final_state (signal plat libc code signo handler p) = Some p' ->
        claimed_ (chains p' s) = claimed_ (chains p s))
  /\ (forall t how new_set old_set,
        final_state (__sigprocmask plat t how new_set old_set
                       (linked_sigprocmask libc t) p) = Some p' ->
        claimed_ (chains p' s) = claimed_ (chains p s))
  /\ (forall signal fn,
        final_state (RemoveSpecialSignalHandlerFn plat signal fn p) = Some p' ->
        claimed_ (chains p' s) = claimed_ (chains p s))
  /\ (forall signal,
        final_state (EnsureFrontOfChain plat libc code signal p) = Some p' ->
        claimed_ (chains p' s) = claimed_ (chains p s))
  /\ (forall value,
        final_state (SkipAddSignalHandler value p) = Some p' ->
        claimed_ (chains p' s) = claimed_ (chains p s))
  /\ (forall signal sa,
        final_state (AddSpecialSignalHandlerFn plat libc code signal sa p) = Some p' ->
        claimed_ (chains p' signal) = true
        /\ (s <> signal -> claimed_ (chains p' s) = claimed_ (chains p s))).
Proof.
  split; [|split; [|split; [|split; [|split; [|split]]]]].
  - intros t signal new_action old_action.
    destruct (is_signal_hook_debuggable p) eqn:Hd.
    { unfold __sigaction, bind, gets. rewrite Hd. cbn. intros H. now injection H as <-. }
    destruct (Z_le_gt_dec signal 0) as [Hlo|Hlo].
    { rewrite (__sigaction_out_of_range plat code t signal _ _ _ p Hd (or_introl Hlo)).
      cbn. intros H. now injection H as <-. }
    destruct (Z_ge_lt_dec signal (NSIG plat)) as [Hhi|Hhi].
    { rewrite (__sigaction_out_of_range plat code t signal _ _ _ p Hd (or_intror Hhi)).
      cbn. intros H. now injection H as <-. }
    destruct (claimed_ (chains p signal)) eqn:Hc.
    + rewrite (__sigaction_claimed plat code t signal _ _ _ p Hd ltac:(lia) Hc).
      cbn. intros H. injection H as <-.
      destruct new_action as [na|]; [|reflexivity].
      apply claimed_set_chain.
      now destruct (SetAction_frame plat t na (chains p signal)) as [-> _].
    + rewrite (__sigaction_unclaimed plat code t signal _ _ _ p Hd ltac:(lia) Hc).
      unfold final_state, outcome. cbn [snd].
      intros H. apply linked_sigaction_final in H. now rewrite H.
  - intros signo handler. unfold signal.
    destruct ((signo <=? 0) || (signo >=? NSIG plat)).
    { cbn. intros H. now injection H as <-. }
    unfold bind, gets, modify, ret, IsClaimed. cbn [app].
    destruct (claimed_ (chains p signo)) eqn:Hc.
    + cbn. intros H. injection H as <-. apply claimed_set_chain.
      match goal with |- claimed_ (SetAction _ _ ?a _) = _ =>
        now destruct (SetAction_frame plat struct_sigaction a (chains p signo)) as [-> _]
      end.
    + unfold linked_sigaction.
      destruct (libc_sigaction libc struct_sigaction signo _ true (sys p)) as [[r o] y].
      cbn [fst]. destruct (r =? -1); cbn; intros H; now injection H as <-.
  - intros t how new_set old_set. unfold __sigprocmask, bind, gets. cbn [app].
    destruct (GetHandlingSignalAny plat p).
    + destruct (linked_sigprocmask libc t how new_set old_set p) as [t0 o0] eqn:E.
      intros H. assert (H' : final_state (linked_sigprocmask libc t how new_set old_set p) = Some p')
        by (rewrite E; exact H).
      apply linked_sigprocmask_final in H'. now rewrite H'.
    + destruct new_set as [set|].
      * match goal with |- context [linked_sigprocmask libc t how (Some ?x) old_set p] =>
          destruct (linked_sigprocmask libc t how (Some x) old_set p) as [t0 o0] eqn:E;
          intros H;
          assert (H' : final_state (linked_sigprocmask libc t how (Some x) old_set p) = Some p')
            by (rewrite E; exact H)
        end.
        apply linked_sigprocmask_final in H'. now rewrite H'.
      * destruct (linked_sigprocmask libc t how None old_set p) as [t0 o0] eqn:E.
        intros H. assert (H' : final_state (linked_sigprocmask libc t how None old_set p) = Some p')
          by (rewrite E; exact H).
        apply linked_sigprocmask_final in H'. now rewrite H'.
  - intros signal fn. unfold RemoveSpecialSignalHandlerFn.
    destruct ((signal <=? 0) || (signal >=? NSIG plat)); [discriminate|].
    rewrite RemoveSpecialHandler_run.
    destruct (remove_special_slot (special_handlers_ (chains p signal)) fn); [|discriminate].
    cbn. intros H. injection H as <-. now apply claimed_set_chain.
  - intros signal. unfold EnsureFrontOfChain.
    destruct ((signal <=? 0) || (signal >=? NSIG plat)); [discriminate|].
    unfold bind, linked_sigaction, LogError, emit.
    destruct (libc_sigaction libc (action_type plat) signal None true (sys p))
      as [[r0 cur] y0].
    cbn [snd].
    destruct (negb (sa_sigaction match cur with Some a => a | None => indeterminate_sigaction code end
                    =? Handler_addr code)).
    + destruct (libc_sigaction libc (action_type plat) signal
                  (Some (handler_action plat code)) true (sys (set_sys y0 p)))
        as [[r1 old1] y1] eqn:E1.
      destruct (libc_sigaction libc (action_type plat) signal None true y1)
        as [[r2 rb] y2] eqn:E2.
      destruct (Register_run plat libc code signal signal (set_sys y0 p) _ _ _ _ _ _ E1 E2)
        as (p1 & -> & Hchain & Hothers & _).
      cbn. intros H. injection H as <-.
      destruct (Z.eq_dec s signal) as [->|Hne].
      * rewrite Hchain. reflexivity.
      * now rewrite (Hothers s Hne).
    + cbn. intros H. now injection H as <-.
  - intros value H. cbn in H. now injection H as <-.
  - intros signal sa. unfold AddSpecialSignalHandlerFn.
    destruct ((signal <=? 0) || (signal >=? NSIG plat)); [discriminate|].
    unfold bind. rewrite AddSpecialHandler_run.
    destruct (add_special_slot (special_handlers_ (chains p signal)) sa) as [l1|];
      [|discriminate].
    set (p1 := set_chain signal (with_special_handlers l1 (chains p signal)) p).
    destruct (Claim_run signal signal p1) as (t & p2 & -> & Hc & Hothers & _).
    cbn. intros H. injection H as <-.
    split; [exact Hc|]. intros Hne.
    rewrite (Hothers s Hne). unfold p1. now rewrite set_chain_other.
Qed.

End ApiProperties.

(** ** The stages of the dispatcher, sigchain.cc:432-562 *)

Lemma called_handlers_app t1 t2 :
  called_handlers (t1 ++ t2) = called_handlers t1 ++ called_handlers t2.
Proof. apply flat_map_app. Qed.

Lemma special_results_app t1 t2 :
  special_results (t1 ++ t2) = special_results t1 ++ special_results t2.
Proof. apply flat_map_app. Qed.

Lemma special_results_In h s b res t :
  In (EvSpecialHandler h s b res) t -> In res (special_results t).
Proof.
  intros H. unfold special_results. apply in_flat_map.
  eexists. split; [exact H|]. now left.
Qed.

Lemma no_special_call_results t :
  (forall e, In e t -> is_special_call e = false) ->
  special_results t = [] /\ called_handlers t = [].
Proof.
  induction t as [|e t IH]; intros H; [split; reflexivity|].
  destruct IH as [IH1 IH2]; [intros e' He'; apply H; now right|].
  pose proof (H e (or_introl eq_refl)) as He.
  destruct e; try discriminate; cbn; auto.
Qed.

Section DispatcherStages.

Context (plat : Platform) {OS : Type} (libc : Libc OS) (code : Code OS).

Lemma InvokeSpecialHandler_shape signo h info uc (p : Proc OS) :
  exists bit res t2 o,
    InvokeSpecialHandler plat libc code signo h info uc p =
      (EvLinkedSigprocmask sigset_t SIG_SETMASK (Some (sc_mask h)) true
         :: EvSpecialHandler h signo bit res :: t2, o)
    /\ (forall e, In e t2 ->
          exists m, e = EvLinkedSigprocmask sigset_t SIG_SETMASK (Some m) false)
    /\ match o with
       | Ret (handled, _, _) p' =>
           res = Some handled
           /\ (handled = true -> t2 = [])
           /\ (keeps_special_handlers code signo ->
               special_handlers_ (chains p' signo) = special_handlers_ (chains p signo))
       | NoReturn => res = None /\ t2 = []
       | Fatal _ => False
       end.
Proof.
  unfold InvokeSpecialHandler, bind, linked_sigprocmask.
  destruct (libc_sigprocmask libc sigset_t SIG_SETMASK (Some (sc_mask h)) true (sys p))
    as [[r0 old0] s0].
  unfold ScopedHandlingSignal_ctor.
  destruct (allows_noreturn h); cbn [negb].
  - unfold gets at 1. cbn [app]. unfold call_special.
    destruct (special_code code (sc_sigaction h) signo info uc (set_sys s0 p))
      as [[[[b info'] uc'] p'']|] eqn:Esp; cbn [option_map fst].
    + destruct b; unfold ScopedHandlingSignal_dtor, bind;
        rewrite ?SetHandlingSignal_run; unfold ret; cbn [app].
      * do 4 eexists. split; [reflexivity|]. split; [intros e []|].
        split; [reflexivity|]. split; [reflexivity|].
        intros Hk. cbn. now rewrite (Hk _ _ _ _ _ _ _ _ _ Esp).
      * destruct (libc_sigprocmask libc sigset_t SIG_SETMASK _ false (sys p''))
          as [[r1 old1] s1].
        rewrite SetHandlingSignal_run. cbn [app].
        do 4 eexists. split; [reflexivity|]. split.
        { intros e [<-|[]]. eexists. reflexivity. }
        split; [reflexivity|]. split; [discriminate|].
        intros Hk. cbn. now rewrite (Hk _ _ _ _ _ _ _ _ _ Esp).
    + do 4 eexists. split; [reflexivity|]. split; [intros e []|]. split; reflexivity.
  - rewrite SetHandlingSignal_run. cbn [app]. unfold call_special.
    destruct (special_code code (sc_sigaction h) signo info uc _)
      as [[[[b info'] uc'] p'']|] eqn:Esp; cbn [option_map fst].
    + destruct b; unfold ScopedHandlingSignal_dtor, bind;
        rewrite ?SetHandlingSignal_run; unfold ret; cbn [app].
      * do 4 eexists. split; [reflexivity|]. split; [intros e []|].
        split; [reflexivity|]. split; [reflexivity|].
        intros Hk. cbn. now rewrite (Hk _ _ _ _ _ _ _ _ _ Esp).
      * destruct (libc_sigprocmask libc sigset_t SIG_SETMASK _ false (sys p''))
          as [[r1 old1] s1].
        rewrite SetHandlingSignal_run. cbn [app].
        do 4 eexists. split; [reflexivity|]. split.
        { intros e [<-|[]]. eexists. reflexivity. }
        split; [reflexivity|]. split; [discriminate|].
        intros Hk. cbn. now rewrite (Hk _ _ _ _ _ _ _ _ _ Esp).
    + do 4 eexists. split; [reflexivity|]. split; [intros e []|]. split; reflexivity.
Qed.


Lemma installed_skipn (l : list SigchainAction) : forall i,
  installed_handlers (skipn i l) =
  if sc_sigaction (nth i l zero_SigchainAction) =? nullptr then []
  else nth i l zero_SigchainAction :: installed_handlers (skipn (S i) l).
Proof.
  induction l as [|a tl IH]; intros [|i]; try reflexivity.
  - cbn [skipn nth]. apply IH.
Qed.

Lemma SpecialHandlersLoop_shape n : forall i signo info uc (p : Proc OS),
  let r := SpecialHandlersLoop plat libc code n i signo info uc p in
  (forall e, In e (events r) ->
     is_user_call e = false /\ is_linked_sigaction e = false
     /\ forall s res, e <> EvAndroidHandleSignal s res)
  /\ match outcome r with
     | Ret (handled, _, _) _ =>
         if handled : bool
         then exists t h b,
                events r = t ++ [EvSpecialHandler h signo b (Some true)]
                /\ Forall (eq (Some false)) (special_results t)
         else Forall (eq (Some false)) (special_results (events r))
     | NoReturn =>
         exists t h b,
           events r = t ++ [EvSpecialHandler h signo b None]
           /\ Forall (eq (Some false)) (special_results t)
     | Fatal _ => False
     end.
Proof.
  induction n as [|n IH]; intros i signo info uc p r;
    assert (Hr : r = SpecialHandlersLoop plat libc code _ i signo info uc p)
      by reflexivity; clearbody r.
  - cbn in Hr. subst r. cbn. split; [intros e []|constructor].
  - cbn [SpecialHandlersLoop] in Hr. unfold bind at 1 in Hr.
    unfold gets at 1 in Hr. cbn [app] in Hr.
    set (h := nth i (special_handlers_ (chains p signo)) zero_SigchainAction) in Hr.
    destruct (sc_sigaction h =? nullptr).
    { cbn in Hr. subst r. cbn. split; [intros e []|constructor]. }
    unfold bind in Hr.
    destruct (InvokeSpecialHandler_shape signo h info uc p)
      as (bit & res & t2 & o & Heq & Ht2 & Ho).
    rewrite Heq in Hr. clear Heq.
    assert (Hpre : forall e,
              In e (EvLinkedSigprocmask sigset_t SIG_SETMASK (Some (sc_mask h)) true
                      :: EvSpecialHandler h signo bit res :: t2) ->
              is_user_call e = false /\ is_linked_sigaction e = false
              /\ forall s res0, e <> EvAndroidHandleSignal s res0).
    { intros e [<-|[<-|He]]; try (repeat split; discriminate).
      destruct (Ht2 e He) as (m & ->). repeat split; discriminate. }
    assert (Hres2 : special_results t2 = []).
    { apply no_special_call_results. intros e He. destruct (Ht2 e He) as (m & ->).
      reflexivity. }
    destruct o as [[[handled info'] uc'] p'| |]; [|contradiction|].
    + destruct Ho as (-> & Hnil & _).
      destruct handled.
      * rewrite (Hnil eq_refl) in *.
        unfold ret in Hr. cbn [app] in Hr. subst r.
        unfold events, outcome. cbn [fst snd].
        split; [exact Hpre|].
        exists [EvLinkedSigprocmask sigset_t SIG_SETMASK (Some (sc_mask h)) true], h, bit.
        split; [reflexivity|]. constructor.
      * specialize (IH (S i) signo info' uc' p'). cbv zeta in IH.
        destruct (SpecialHandlersLoop plat libc code n (S i) signo info' uc' p')
          as [t3 o3].
        subst r. unfold events, outcome in *. cbn [fst snd] in *.
        destruct IH as (IH1 & IH2).
        split.
        { intros e He.
          change (In e ((EvLinkedSigprocmask sigset_t SIG_SETMASK (Some (sc_mask h)) true
                           :: EvSpecialHandler h signo bit (Some false) :: t2) ++ t3)) in He.
          apply in_app_or in He. destruct He as [He|He]; [now apply Hpre|now apply IH1]. }
        set (pre := EvLinkedSigprocmask sigset_t SIG_SETMASK (Some (sc_mask h)) true
                      :: EvSpecialHandler h signo bit (Some false) :: t2).
        assert (Hrp : special_results pre = [Some false]).
        { pose proof Hres2 as H2. unfold pre. unfold special_results in H2 |- *.
          cbn [flat_map app]. now rewrite H2. }
        change (EvLinkedSigprocmask sigset_t SIG_SETMASK (Some (sc_mask h)) true
                  :: EvSpecialHandler h signo bit (Some false) :: t2 ++ t3)
          with (pre ++ t3).
        destruct o3 as [[[handled3 info3] uc3] p3| |]; [|contradiction|].
        -- destruct handled3.
           ++ destruct IH2 as (t & h3 & b3 & -> & Hall).
              exists (pre ++ t), h3, b3. split; [now rewrite app_assoc|].
              rewrite special_results_app, Hrp. now constructor.
           ++ rewrite special_results_app, Hrp. now constructor.
        -- destruct IH2 as (t & h3 & b3 & -> & Hall).
           exists (pre ++ t), h3, b3. split; [now rewrite app_assoc|].
           rewrite special_results_app, Hrp. now constructor.
    + destruct Ho as [-> ->]. subst r. unfold events, outcome. cbn [fst snd].
      split; [exact Hpre|].
      exists [EvLinkedSigprocmask sigset_t SIG_SETMASK (Some (sc_mask h)) true], h, bit.
      split; [reflexivity|]. constructor.
Qed.

Lemma SpecialHandlersLoop_order n : forall i signo info uc (p : Proc OS),
  keeps_special_handlers code signo ->
  let r := SpecialHandlersLoop plat libc code n i signo info uc p in
  let l := special_handlers_ (chains p signo) in
  exists rest,
    firstn n (installed_handlers (skipn i l)) = called_handlers (events r) ++ rest
    /\ match outcome r with
       | Ret (handled, _, _) p' =>
           (handled = false -> rest = [])
           /\ special_handlers_ (chains p' signo) = l
       | _ => True
       end.
Proof.
  induction n as [|n IH]; intros i signo info uc p Hk r l;
    assert (Hr : r = SpecialHandlersLoop plat libc code _ i signo info uc p)
      by reflexivity; clearbody r.
  - cbn in Hr. subst r. cbn. exists []. auto.
  - cbn [SpecialHandlersLoop] in Hr. unfold bind at 1 in Hr.
    unfold gets at 1 in Hr. cbn [app] in Hr. fold l in Hr.
    rewrite installed_skipn.
    set (h := nth i l zero_SigchainAction) in *.
    destruct (sc_sigaction h =? nullptr).
    { cbn in Hr. subst r. cbn. exists []. auto. }
    unfold bind in Hr.
    destruct (InvokeSpecialHandler_shape signo h info uc p)
      as (bit & res & t2 & o & Heq & Ht2 & Ho).
    rewrite Heq in Hr. clear Heq.
    assert (Hc2 : called_handlers t2 = []).
    { apply no_special_call_results. intros e He. destruct (Ht2 e He) as (m & ->).
      reflexivity. }
    destruct o as [[[handled info'] uc'] p'| |]; [|contradiction|].
    + destruct Ho as (-> & _ & Hsame). specialize (Hsame Hk). fold l in Hsame.
      destruct handled.
      * unfold ret in Hr. cbn [app] in Hr. subst r.
        unfold events, outcome. cbn [fst snd firstn].
        exists (firstn n (installed_handlers (skipn (S i) l))).
        rewrite app_nil_r.
        change (called_handlers (?a :: EvSpecialHandler h signo bit (Some true) :: t2))
          with (h :: called_handlers t2).
        rewrite Hc2. split; [reflexivity|].
        split; [discriminate|exact Hsame].
      * specialize (IH (S i) signo info' uc' p' Hk). cbv zeta in IH.
        rewrite Hsame in IH.
        destruct (SpecialHandlersLoop plat libc code n (S i) signo info' uc' p')
          as [t3 o3].
        subst r. unfold events, outcome in *. cbn [fst snd] in *.
        destruct IH as (rest & Hfirst & Hout).
        exists rest. cbn [firstn]. rewrite Hfirst.
        split.
        { rewrite called_handlers_app.
          change (called_handlers (?a :: EvSpecialHandler h signo bit (Some false) :: t2))
            with (h :: called_handlers t2).
          rewrite Hc2. reflexivity. }
        exact Hout.
    + subst r. unfold events, outcome. cbn [fst snd firstn].
      exists (firstn n (installed_handlers (skipn (S i) l))).
      destruct Ho as [_ ->]. cbn. auto.
Qed.


Lemma SpecialHandlerPhase_shape signo info uc (p : Proc OS) :
  let r := SpecialHandlerPhase plat libc code signo info uc p in
  (forall e, In e (events r) ->
     is_user_call e = false /\ is_linked_sigaction e = false
     /\ forall s res, e <> EvAndroidHandleSignal s res)
  /\ match outcome r with
     | Ret (handled, _, _) _ =>
         if handled : bool
         then exists t h b,
                events r = t ++ [EvSpecialHandler h signo b (Some true)]
                /\ Forall (eq (Some false)) (special_results t)
         else Forall (eq (Some false)) (special_results (events r))
     | NoReturn =>
         exists t h b,
           events r = t ++ [EvSpecialHandler h signo b None]
           /\ Forall (eq (Some false)) (special_results t)
     | Fatal _ => False
     end.
Proof.
  intros r.
  destruct (GetHandlingSignal plat signo p) eqn:Hbit.
  - destruct (SpecialHandlerPhase_run plat libc code signo info uc p)
      as (_ & _ & _ & Hskip).
    destruct (Hskip Hbit) as (log & Hphase & Hlog). subst r. rewrite Hphase.
    unfold events, outcome. cbn [fst snd]. split.
    + intros e He. apply Hlog in He. destruct e; try discriminate;
        repeat split; discriminate.
    + replace (special_results log) with (@nil (option bool)); [constructor|].
      symmetry. apply no_special_call_results.
      intros e He. apply log_is_not_special_call. now apply Hlog.
  - assert (Hr : r = SpecialHandlersLoop plat libc code kSpecialHandlers 0 signo info uc p).
    { subst r. unfold SpecialHandlerPhase. unfold bind at 1. unfold gets at 1.
      rewrite Hbit. cbn [negb app].
      now destruct (SpecialHandlersLoop plat libc code kSpecialHandlers 0 signo info uc p). }
    clearbody r. subst r.
    exact (SpecialHandlersLoop_shape kSpecialHandlers 0 signo info uc p).
Qed.

Lemma In_last_or {A} (x y : A) t : In x (t ++ [y]) -> In x t \/ x = y.
Proof.
  intros H. apply in_app_or in H. destruct H as [H|[H|[]]]; auto.
Qed.

Lemma all_false_In t h s b res :
  Forall (eq (Some false)) (special_results t) ->
  In (EvSpecialHandler h s b res) t -> res = Some false.
Proof.
  intros Hall Hin. apply special_results_In in Hin.
  rewrite Forall_forall in Hall. symmetry. now apply Hall.
Qed.

(** X15: when a special handler takes the signal, or does not come back,
    the delivery ends with that call: the special handlers called before it
    all returned false, and the dispatcher calls neither
    [android_handle_signal] nor the user's handler nor the real
    [sigaction]. *)
Theorem Handler_stops_at_special_handler signo info uc (p : Proc OS) h s b res :
  let r := Handler plat libc code signo info uc p in
  In (EvSpecialHandler h s b res) (events r) ->
  res <> Some false ->
  exists t,
    events r = t ++ [EvSpecialHandler h s b res]
    /\ Forall (eq (Some false)) (special_results t)
    /\ (forall e, In e (events r) ->
          is_user_call e = false /\ is_linked_sigaction e = false
          /\ forall s' res', e <> EvAndroidHandleSignal s' res')
    /\ match res with
       | Some _ => exists p', outcome r = Ret tt p'
       | None => outcome r = NoReturn
       end.
Proof.
  intros r Hin Hres.
  assert (Hr : r = Handler plat libc code signo info uc p) by reflexivity.
  clearbody r. unfold Handler, bind in Hr.
  pose proof (SpecialHandlerPhase_shape signo info uc p) as (Hev & Hout).
  destruct (SpecialHandlerPhase plat libc code signo info uc p) as [t1 o1].
  unfold events, outcome in Hev, Hout. cbn [fst snd] in Hev, Hout.
  destruct o1 as [[[handled info1] uc1] p1| |]; [|contradiction|].
  - destruct handled.
    + unfold ret in Hr. cbn [app] in Hr. rewrite app_nil_r in Hr. subst r.
      unfold events, outcome in *. cbn [fst snd] in *.
      destruct Hout as (t & h' & b' & -> & Hall).
      apply In_last_or in Hin. destruct Hin as [Hin|Heq].
      { exfalso. apply Hres. exact (all_false_In _ _ _ _ _ Hall Hin). }
      injection Heq as -> -> -> ->.
      exists t. split; [reflexivity|]. split; [exact Hall|]. split; [exact Hev|].
      now exists p1.
    + exfalso. apply Hres.
      pose proof (RecoveryAndForward_no_special plat libc code signo info1 uc1 p1) as Hno.
      destruct (RecoveryAndForward plat libc code signo info1 uc1 p1) as [t2 o2].
      subst r. unfold events in *. cbn [fst] in *.
      apply in_app_or in Hin. destruct Hin as [Hin|Hin].
      * exact (all_false_In _ _ _ _ _ Hout Hin).
      * apply Hno in Hin. discriminate.
  - subst r. unfold events, outcome in *. cbn [fst snd] in *.
    destruct Hout as (t & h' & b' & -> & Hall).
    apply In_last_or in Hin. destruct Hin as [Hin|Heq].
    { exfalso. apply Hres. exact (all_false_In _ _ _ _ _ Hall Hin). }
    injection Heq as -> -> -> ->.
    exists t. split; [reflexivity|]. split; [exact Hall|]. split; [exact Hev|].
    reflexivity.
Qed.

(** X16: when [android_handle_signal] takes the signal, or does not come
    back, the delivery ends with that call: every special handler that was
    called returned false, and neither the user's handler nor the real
    [sigaction] is called. *)
Theorem Handler_stops_at_android_handle_signal signo info uc (p : Proc OS) s res :
  let r := Handler plat libc code signo info uc p in
  In (EvAndroidHandleSignal s res) (events r) ->
  res <> Some false ->
  exists t,
    events r = t ++ [EvAndroidHandleSignal signo res]
    /\ s = signo
    /\ Forall (eq (Some false)) (special_results (events r))
    /\ (forall e, In e (events r) ->
          is_user_call e = false /\ is_linked_sigaction e = false)
    /\ match res with
       | Some _ => exists p', outcome r = Ret tt p'
       | None => outcome r = NoReturn
       end.
Proof.
  intros r Hin Hres.
  assert (Hr : r = Handler plat libc code signo info uc p) by reflexivity.
  clearbody r. unfold Handler, bind in Hr.
  pose proof (SpecialHandlerPhase_shape signo info uc p) as (Hev & Hout).
  destruct (SpecialHandlerPhase plat libc code signo info uc p) as [t1 o1].
  unfold events, outcome in Hev, Hout. cbn [fst snd] in Hev, Hout.
  assert (Hno1 : ~ In (EvAndroidHandleSignal s res) t1).
  { intros H. apply Hev in H. destruct H as (_ & _ & H). now apply (H s res). }
  destruct o1 as [[[handled info1] uc1] p1| |]; [|contradiction|].
  2: { exfalso. subst r. now apply Hno1. }
  destruct handled.
  { exfalso. unfold ret in Hr. cbn [app] in Hr. rewrite app_nil_r in Hr. subst r.
    now apply Hno1. }
  unfold RecoveryAndForward, bind, PlatformRecoveryPhase in Hr.
  destruct (android_handle_signal code) as [f|].
  - unfold call_android_handle_signal in Hr.
    destruct (f signo info1 uc1 p1) as [[[[rec info2] uc2] p2]|];
      cbn [option_map fst] in Hr.
    + destruct rec.
      * unfold ret in Hr. cbn [app] in Hr. subst r.
        unfold events, outcome in *. cbn [fst snd] in *.
        apply in_app_or in Hin. destruct Hin as [Hin|[Heq|[]]]; [contradiction|].
        injection Heq as <- <-.
        exists t1. split; [reflexivity|]. split; [reflexivity|].
        split.
        { rewrite special_results_app. cbn. now rewrite app_nil_r. }
        split; [|now exists p2].
        intros e He. apply in_app_or in He. destruct He as [He|[<-|[]]].
        -- apply Hev in He. tauto.
        -- split; reflexivity.
      * exfalso.
        destruct (ForwardToUser_run plat libc code signo info2 uc2 p2)
          as (log & Hlog & Hf).
        cbv zeta in Hf. rewrite Hf in Hr. clear Hf.
        destruct (DispatchUserAction_run plat libc code signo
                    (selected_action plat libc signo info2 p2) info2 uc2 p2)
          as (rest & Hd & _ & _ & Hna & _).
        cbv zeta in Hd. rewrite Hd in Hr. subst r.
        unfold events in Hin. cbn [fst] in Hin.
        apply in_app_or in Hin. destruct Hin as [Hin|Hin]; [contradiction|].
        apply in_app_or in Hin. destruct Hin as [[Heq|[]]|Hin].
        { injection Heq as _ <-. now apply Hres. }
        apply in_app_or in Hin. destruct Hin as [Hin|[Heq|Hin]].
        -- apply Hlog in Hin. discriminate.
        -- discriminate.
        -- exact (Hna _ _ Hin).
    + subst r. unfold events, outcome in *. cbn [fst snd] in *.
      apply in_app_or in Hin. destruct Hin as [Hin|[Heq|[]]]; [contradiction|].
      injection Heq as <- <-.
      exists t1. split; [reflexivity|]. split; [reflexivity|].
      split.
      { rewrite special_results_app. cbn. now rewrite app_nil_r. }
      split; [|reflexivity].
      intros e He. apply in_app_or in He. destruct He as [He|[<-|[]]].
      -- apply Hev in He. tauto.
      -- split; reflexivity.
  - exfalso. unfold ret in Hr. cbn [app] in Hr.
    destruct (ForwardToUser_run plat libc code signo info1 uc1 p1)
      as (log & Hlog & Hf).
    cbv zeta in Hf. rewrite Hf in Hr. clear Hf.
    destruct (DispatchUserAction_run plat libc code signo
                (selected_action plat libc signo info1 p1) info1 uc1 p1)
      as (rest & Hd & _ & _ & Hna & _).
    cbv zeta in Hd. rewrite Hd in Hr. subst r.
    unfold events in Hin. cbn [fst] in Hin.
    apply in_app_or in Hin. destruct Hin as [Hin|Hin]; [contradiction|].
    apply in_app_or in Hin. destruct Hin as [Hin|[Heq|Hin]].
    + apply Hlog in Hin. discriminate.
    + discriminate.
    + exact (Hna _ _ Hin).
Qed.

(** X17: while no special handler changes the table, the dispatcher
    entered with the handling bit clear calls the installed special handlers
    in the order of the table, each at most once and none skipped, and all
    of them when each returns false. *)
Theorem Handler_calls_special_handlers_in_order signo info uc (p : Proc OS) :
  keeps_special_handlers code signo ->
  GetHandlingSignal plat signo p = false ->
  let r := Handler plat libc code signo info uc p in
  let installed := installed_handlers (special_handlers_ (chains p signo)) in
  exists rest,
    firstn kSpecialHandlers installed = called_handlers (events r) ++ rest
    /\ ((forall h s b res, In (EvSpecialHandler h s b res) (events r) ->
           res = Some false) -> rest = []).
Proof.
  intros Hk Hbit r installed.
  assert (Hr : r = Handler plat libc code signo info uc p) by reflexivity.
  clearbody r. unfold Handler, bind in Hr.
  unfold SpecialHandlerPhase in Hr. unfold bind at 1 in Hr. unfold gets at 1 in Hr.
  rewrite Hbit in Hr. cbn [negb app] in Hr.
  pose proof (SpecialHandlersLoop_order kSpecialHandlers 0 signo info uc p Hk)
    as (rest & Hfirst & Hout).
  pose proof (SpecialHandlersLoop_shape kSpecialHandlers 0 signo info uc p)
    as (_ & Hshape).
  cbv zeta in Hfirst, Hout, Hshape. change (skipn 0 ?l) with l in Hfirst.
  fold installed in Hfirst.
  destruct (SpecialHandlersLoop plat libc code kSpecialHandlers 0 signo info uc p)
    as [t1 o1].
  unfold events, outcome in Hfirst, Hout, Hshape. cbn [fst snd] in Hfirst, Hout, Hshape.
  exists rest.
  destruct o1 as [[[handled info1] uc1] p1| |]; [|contradiction|].
  - destruct handled.
    + unfold ret in Hr. cbn [app] in Hr. rewrite app_nil_r in Hr. subst r.
      unfold events. cbn [fst]. split; [exact Hfirst|].
      intros Hall. exfalso.
      destruct Hshape as (t & h & b & -> & _).
      specialize (Hall h signo b (Some true)
                    ltac:(apply in_or_app; right; now left)).
      discriminate.
    + pose proof (RecoveryAndForward_no_special plat libc code signo info1 uc1 p1) as Hno.
      destruct (RecoveryAndForward plat libc code signo info1 uc1 p1) as [t2 o2].
      subst r. unfold events in *. cbn [fst] in *.
      destruct Hout as [Hrest _]. rewrite (Hrest eq_refl) in *.
      split; [|reflexivity].
      rewrite called_handlers_app.
      destruct (no_special_call_results t2 Hno) as [_ ->].
      rewrite !app_nil_r in *. exact Hfirst.
  - subst r. unfold events. cbn [fst]. split; [exact Hfirst|].
    intros Hall. exfalso.
    destruct Hshape as (t & h & b & -> & _).
    specialize (Hall h signo b None ltac:(apply in_or_app; right; now left)).
    discriminate.
Qed.

Lemma DispatchUserAction_sigaction signo action info uc (p : Proc OS) :
  let r := DispatchUserAction plat libc code signo action info uc p in
  (forall e, In e (events r) -> is_linked_sigaction e = true ->
     e = EvLinkedSigaction struct_sigaction signo
           (Some (mkSigaction SIG_DFL 0 0 0)) false
     /\ user_calls (events r) = [])
  /\ (Z.land (sa_flags action) SA_SIGINFO = 0 -> sa_handler action = SIG_DFL ->
      In (EvLinkedSigaction struct_sigaction signo
            (Some (mkSigaction SIG_DFL 0 0 0)) false) (events r)
      /\ exists p', outcome r = Ret tt p').
Proof.
  intros r.
  assert (Hr : r = DispatchUserAction plat libc code signo action info uc p) by reflexivity.
  clearbody r.
  unfold DispatchUserAction, bind, LogError, emit, ret, linked_sigprocmask in Hr.
  destruct (libc_sigprocmask libc (mask_type (action_type plat)) SIG_SETMASK
              (Some (forward_mask plat signo action uc)) false (sys p))
    as [[r0 o0] s0].
  destruct (Z.eqb_spec (Z.land (sa_flags action) SA_SIGINFO) 0) as [Hsi|Hsi];
    cbn [negb] in Hr.
  2: { unfold call_sa_sigaction in Hr.
       destruct (sa_sigaction_code code (sa_sigaction action) signo
                   (forwarded_siginfo plat libc signo action info) uc (set_sys s0 p));
         cbn [app] in Hr; subst r; unfold events; cbn [fst];
         (split; [intros e [<-|[<-|[]]]; discriminate|intros; contradiction]). }
  destruct (Z.eqb_spec (sa_handler action) SIG_IGN) as [Hign|Hign].
  { cbn [app] in Hr; subst r; unfold events; cbn [fst].
    split; [intros e [<-|[]]; discriminate|].
    intros _ Hd. rewrite Hd in Hign. discriminate. }
  destruct (Z.eqb_spec (sa_handler action) SIG_DFL) as [Hdfl|Hdfl].
  { unfold LogStack, linked_sigaction, emit, ret in Hr.
    destruct (bionic plat);
      destruct (libc_sigaction libc struct_sigaction signo _ false (sys (set_sys s0 p)))
        as [[r1 o1] s1];
      cbn [app] in Hr; subst r; unfold events, outcome; cbn [fst snd];
      (split;
       [intros e He Hl; cbn in He;
        repeat (destruct He as [<-|He]; [try discriminate; split; reflexivity|]);
        contradiction
       |intros _ _; split; [cbn; tauto|eexists; reflexivity]]). }
  unfold call_sa_handler in Hr.
  destruct (sa_handler_code code (sa_handler action) signo (set_sys s0 p));
    cbn [app] in Hr; subst r; unfold events; cbn [fst];
    (split; [intros e [<-|[<-|[]]]; discriminate|intros; contradiction]).
Qed.

Lemma ForwardToUser_sigaction signo info uc (p : Proc OS) :
  let r := ForwardToUser plat libc code signo info uc p in
  forall e, In e (events r) -> is_linked_sigaction e = true ->
    e = EvLinkedSigaction struct_sigaction signo
          (Some (mkSigaction SIG_DFL 0 0 0)) false
    /\ user_calls (events r) = [].
Proof.
  intros r e. subst r.
  destruct (ForwardToUser_run plat libc code signo info uc p) as (log & Hlog & ->).
  pose proof (DispatchUserAction_sigaction signo
                (selected_action plat libc signo info p) info uc p) as [Hd _].
  cbv zeta in Hd.
  destruct (DispatchUserAction plat libc code signo
              (selected_action plat libc signo info p) info uc p) as [t o].
  unfold events in *. cbn [fst] in *.
  intros He Hl. apply in_app_or in He. destruct He as [He|He].
  { apply Hlog in He. destruct e; discriminate. }
  destruct (Hd e He Hl) as [-> Hu]. split; [reflexivity|].
  unfold user_calls in *. rewrite filter_app, Hu, app_nil_r.
  apply (user_calls_none log). intros e' He'. apply log_is_not_user_call.
  now apply Hlog.
Qed.

Lemma prefix_sigaction (pre F : list Event) (e X : Event) :
  (forall e', In e' pre -> is_user_call e' = false /\ is_linked_sigaction e' = false) ->
  (In e F -> is_linked_sigaction e = true -> e = X /\ user_calls F = []) ->
  In e (pre ++ F) -> is_linked_sigaction e = true ->
  e = X /\ user_calls (pre ++ F) = [].
Proof.
  intros Hpre HF He Hl. apply in_app_or in He. destruct He as [He|He].
  { apply Hpre in He. destruct He as [_ He]. congruence. }
  destruct (HF He Hl) as [-> Hu]. split; [reflexivity|].
  unfold user_calls in *. rewrite filter_app, Hu, app_nil_r.
  apply (user_calls_none pre). intros e' He'. now apply Hpre.
Qed.

(** X18: the dispatcher calls the real [sigaction] for one thing only, to
    install SIG_DFL when the action it forwards to is SIG_DFL without
    SA_SIGINFO; no handler of the user is called in that delivery.
    Forwarding to such an action always makes that call and returns. *)
Theorem Handler_real_sigaction_only_for_SIG_DFL signo info uc (p : Proc OS) :
  (forall e, In e (events (Handler plat libc code signo info uc p)) ->
     is_linked_sigaction e = true ->
     e = EvLinkedSigaction struct_sigaction signo
           (Some (mkSigaction SIG_DFL 0 0 0)) false
     /\ user_calls (events (Handler plat libc code signo info uc p)) = [])
  /\ (forall action,
        Z.land (sa_flags action) SA_SIGINFO = 0 -> sa_handler action = SIG_DFL ->
        In (EvLinkedSigaction struct_sigaction signo
              (Some (mkSigaction SIG_DFL 0 0 0)) false)
           (events (DispatchUserAction plat libc code signo action info uc p))
        /\ exists p', outcome (DispatchUserAction plat libc code signo action info uc p)
                      = Ret tt p').
Proof.
  split.
  2: { intros action. apply DispatchUserAction_sigaction. }
  intros e.
  set (r := Handler plat libc code signo info uc p).
  assert (Hr : r = Handler plat libc code signo info uc p) by reflexivity.
  clearbody r. unfold Handler, bind in Hr.
  pose proof (SpecialHandlerPhase_shape signo info uc p) as (Hev & Hout).
  destruct (SpecialHandlerPhase plat libc code signo info uc p) as [t1 o1].
  unfold events, outcome in Hev, Hout. cbn [fst snd] in Hev, Hout.
  assert (Hpre1 : forall e', In e' t1 ->
                    is_user_call e' = false /\ is_linked_sigaction e' = false).
  { intros e' H. apply Hev in H. tauto. }
  assert (Hno1 : In e t1 -> is_linked_sigaction e = true -> False).
  { intros H Hl. apply Hpre1 in H. destruct H. congruence. }
  destruct o1 as [[[handled info1] uc1] p1| |]; [|contradiction|].
  2: { subst r. intros H Hl. exfalso. exact (Hno1 H Hl). }
  destruct handled.
  { unfold ret in Hr. cbn [app] in Hr. rewrite app_nil_r in Hr. subst r.
    intros H Hl. exfalso. exact (Hno1 H Hl). }
  unfold RecoveryAndForward, bind, PlatformRecoveryPhase in Hr.
  destruct (android_handle_signal code) as [f|].
  - unfold call_android_handle_signal in Hr.
    destruct (f signo info1 uc1 p1) as [[[[rec info2] uc2] p2]|];
      cbn [option_map fst] in Hr.
    + destruct rec.
      * unfold ret in Hr. cbn [app] in Hr. subst r.
        unfold events. cbn [fst]. intros H Hl. exfalso.
        apply in_app_or in H. destruct H as [H|[<-|[]]]; [exact (Hno1 H Hl)|discriminate].
      * pose proof (ForwardToUser_sigaction signo info2 uc2 p2 e) as HF.
        destruct (ForwardToUser plat libc code signo info2 uc2 p2) as [t3 o3].
        subst r. unfold events in *. cbn [fst] in *.
        rewrite app_assoc. apply prefix_sigaction; [|exact HF].
        intros e' He'. apply in_app_or in He'.
        destruct He' as [He'|[<-|[]]]; [now apply Hpre1|split; reflexivity].
    + subst r. unfold events. cbn [fst]. intros H Hl. exfalso.
      apply in_app_or in H. destruct H as [H|[<-|[]]]; [exact (Hno1 H Hl)|discriminate].
  - unfold ret in Hr. cbn [app] in Hr.
    pose proof (ForwardToUser_sigaction signo info1 uc1 p1 e) as HF.
    destruct (ForwardToUser plat libc code signo info1 uc1 p1) as [t3 o3].
    subst r. unfold events in *. cbn [fst] in *.
    apply prefix_sigaction; [exact Hpre1|exact HF].
Qed.

End DispatcherStages.

Section MoreProperties.

Context (plat : Platform) {OS : Type} (libc : Libc OS) (code : Code OS).

Lemma DispatchUserAction_outcome signo action info uc (p : Proc OS) :
  let r := DispatchUserAction plat libc code signo action info uc p in
  match outcome r with
  | Ret _ _ => True
  | Fatal _ => False
  | NoReturn => exists t e, events r = t ++ [e] /\ is_user_call e = true
  end.
Proof.
  intros r.
  assert (Hr : r = DispatchUserAction plat libc code signo action info uc p) by reflexivity.
  clearbody r.
  unfold DispatchUserAction, bind, LogError, emit, ret, linked_sigprocmask in Hr.
  destruct (libc_sigprocmask libc (mask_type (action_type plat)) SIG_SETMASK
              (Some (forward_mask plat signo action uc)) false (sys p))
    as [[r0 o0] s0].
  destruct (negb (Z.land (sa_flags action) SA_SIGINFO =? 0)).
  { unfold call_sa_sigaction in Hr.
    destruct (sa_sigaction_code code (sa_sigaction action) signo
                (forwarded_siginfo plat libc signo action info) uc (set_sys s0 p));
      cbn [app] in Hr; subst r; unfold events, outcome; cbn [fst snd]; [exact I|].
    eexists [_], _. split; reflexivity. }
  destruct (sa_handler action =? SIG_IGN).
  { cbn [app] in Hr; subst r; exact I. }
  destruct (sa_handler action =? SIG_DFL).
  { unfold LogStack, linked_sigaction, emit, ret in Hr.
    destruct (bionic plat);
      destruct (libc_sigaction libc struct_sigaction signo _ false (sys (set_sys s0 p)))
        as [[r1 o1] s1];
      cbn [app] in Hr; subst r; exact I. }
  unfold call_sa_handler in Hr.
  destruct (sa_handler_code code (sa_handler action) signo (set_sys s0 p));
    cbn [app] in Hr; subst r; unfold events, outcome; cbn [fst snd]; [exact I|].
  eexists [_], _. split; reflexivity.
Qed.

(** Once the keys exist, the dispatcher has no fatal path, and it returns
    unless a handler it called did not come back. *)
Lemma Handler_outcome signo info uc (p : Proc OS) :
  let r := Handler plat libc code signo info uc p in
  match outcome r with
  | Ret _ _ => True
  | Fatal _ => False
  | NoReturn => exists t e, events r = t ++ [e] /\ is_handler_call e = true
  end.
Proof.
  intros r.
  assert (Hr : r = Handler plat libc code signo info uc p) by reflexivity.
  clearbody r. unfold Handler, bind in Hr.
  pose proof (SpecialHandlerPhase_shape plat libc code signo info uc p) as (_ & Hout).
  destruct (SpecialHandlerPhase plat libc code signo info uc p) as [t1 o1].
  unfold events, outcome in Hout. cbn [fst snd] in Hout.
  destruct o1 as [[[handled info1] uc1] p1| |]; [|contradiction|].
  2: { subst r. unfold events, outcome. cbn [fst snd].
       destruct Hout as (t & h & b & -> & _). eexists _, _. split; reflexivity. }
  destruct handled.
  { subst r. exact I. }
  clear Hout.
  unfold RecoveryAndForward, bind, PlatformRecoveryPhase in Hr.
  assert (Hfwd : forall pre info2 uc2 (p2 : Proc OS),
            match outcome (let (t', o) := ForwardToUser plat libc code signo info2 uc2 p2
                           in (pre ++ t', o)) with
            | Ret _ _ => True
            | Fatal _ => False
            | NoReturn =>
                exists t e,
                  events (let (t', o) := ForwardToUser plat libc code signo info2 uc2 p2
                          in (pre ++ t', o)) = t ++ [e]
                  /\ is_handler_call e = true
            end).
  { intros pre info2 uc2 p2.
    destruct (ForwardToUser_run plat libc code signo info2 uc2 p2) as (log & _ & ->).
    pose proof (DispatchUserAction_outcome signo
                  (selected_action plat libc signo info2 p2) info2 uc2 p2) as Hd.
    cbv zeta in Hd.
    destruct (DispatchUserAction plat libc code signo
                (selected_action plat libc signo info2 p2) info2 uc2 p2) as [t3 o3].
    unfold events, outcome in *. cbn [fst snd] in *.
    destruct o3; auto.
    destruct Hd as (t & e & -> & He).
    exists (pre ++ log ++ t), e. split; [now rewrite !app_assoc|].
    unfold is_handler_call. rewrite He. now rewrite orb_true_r. }
  destruct (android_handle_signal code) as [f|].
  - unfold call_android_handle_signal in Hr.
    destruct (f signo info1 uc1 p1) as [[[[rec info2] uc2] p2]|];
      cbn [option_map fst] in Hr.
    + destruct rec.
      * subst r. exact I.
      * specialize (Hfwd (t1 ++ [EvAndroidHandleSignal signo (Some false)]) info2 uc2 p2).
        destruct (ForwardToUser plat libc code signo info2 uc2 p2) as [t3 o3].
        subst r. unfold events, outcome in *. cbn [fst snd] in *.
        rewrite <- app_assoc in Hfwd. exact Hfwd.
    + subst r. unfold events, outcome. cbn [fst snd].
      eexists _, _. split; reflexivity.
  - unfold ret in Hr. cbn [app] in Hr.
    specialize (Hfwd t1 info1 uc1 p1).
    destruct (ForwardToUser plat libc code signo info1 uc1 p1) as [t3 o3].
    subst r. exact Hfwd.
Qed.

Lemma create_handling_signal_keys_run (pthread_key_create : Z -> Z) n :
  forall i (p : Proc OS),
    (create_handling_signal_keys pthread_key_create n i p = ([], Ret tt p)
     /\ forall j, (i <= j < i + n)%nat -> pthread_key_create (Z.of_nat j) = 0)
    \/ (create_handling_signal_keys pthread_key_create n i p =
          ([], Fatal "failed to create sigchain pthread key")
        /\ exists j, (i <= j < i + n)%nat /\ pthread_key_create (Z.of_nat j) <> 0).
Proof.
  induction n as [|n IH]; intros i p; cbn [create_handling_signal_keys].
  - left. split; [reflexivity|]. intros j Hj. lia.
  - destruct (Z.eqb_spec (pthread_key_create (Z.of_nat i)) 0) as [H0|H0].
    + destruct (IH (S i) p) as [[Hrun Hall]|[Hrun (j & Hj & Hne)]].
      * left. split; [exact Hrun|]. intros j Hj.
        destruct (Nat.eq_dec j i) as [->|]; [exact H0|]. apply Hall. lia.
      * right. split; [exact Hrun|]. exists j. split; [lia|exact Hne].
    + right. split; [reflexivity|]. exists i. split; [lia|exact H0].
Qed.

(** X19: the dispatcher aborts the process in one case only: the
    handling-signal keys do not exist yet and [pthread_key_create] fails
    when [GetHandlingSignalKey] creates them, which comes before anything
    else (no handler is called, nothing is logged).  In every other case it
    is the dispatcher of a process that has the keys, and it returns unless
    a handler it called did not come back: the delivery then ends with the
    call of that handler. *)
Theorem Handler_aborts_only_at_key_creation keys_created pthread_key_create
    signo info uc (p : Proc OS) :
  let r := Handler_on_entry plat libc code keys_created pthread_key_create
             signo info uc p in
  let fails :=
    exists i, 0 <= i < kHandlingSignalKeyCount plat /\ pthread_key_create i <> 0 in
  match outcome r with
  | Ret _ _ => True
  | Fatal msg =>
      keys_created = false /\ fails /\ events r = []
      /\ msg = "failed to create sigchain pthread key"%string
  | NoReturn => exists t e, events r = t ++ [e] /\ is_handler_call e = true
  end
  /\ (keys_created = false -> fails ->
      r = ([], Fatal "failed to create sigchain pthread key"))
  /\ (keys_created = true \/ ~ fails ->
      r = Handler plat libc code signo info uc p).
Proof.
  intros r fails.
  assert (Hr : r = Handler_on_entry plat libc code keys_created pthread_key_create
                     signo info uc p) by reflexivity.
  clearbody r.
  assert (Hsame : forall o : list Event * Outcome OS unit,
            (let (t', o') := o in ([] ++ t', o')) = o).
  { intros [t' o']. reflexivity. }
  pose proof (Handler_outcome signo info uc p) as Hout. cbv zeta in Hout.
  unfold Handler_on_entry, GetHandlingSignalKey_once, bind in Hr.
  destruct keys_created.
  { unfold ret in Hr. rewrite Hsame in Hr. subst r.
    split; [|split; [discriminate|reflexivity]].
    destruct (outcome (Handler plat libc code signo info uc p)); auto.
    contradiction. }
  destruct (create_handling_signal_keys_run pthread_key_create
              (Z.to_nat (kHandlingSignalKeyCount plat)) 0 p)
    as [[Hrun Hall]|[Hrun (j & Hj & Hne)]]; rewrite Hrun in Hr.
  - rewrite Hsame in Hr. subst r.
    assert (Hnf : ~ fails).
    { intros (i & Hi & Hne). apply Hne.
      rewrite <- (Z2Nat.id i) by lia. apply Hall. lia. }
    split; [|split; [contradiction|reflexivity]].
    destruct (outcome (Handler plat libc code signo info uc p)); auto.
    contradiction.
  - assert (Hf : fails).
    { exists (Z.of_nat j). split; [lia|exact Hne]. }
    subst r. unfold outcome, events. cbn [fst snd].
    split; [repeat split; assumption|].
    split; [reflexivity|]. intros [H|H]; [discriminate|contradiction].
Qed.

(** X20: a signal number out of range: [signal] and [bsd_signal] return
    SIG_ERR with errno EINVAL, [AddSpecialSignalHandlerFn],
    [RemoveSpecialSignalHandlerFn] and [EnsureFrontOfChain] abort, all
    before anything else is done. *)
Theorem invalid_signal_is_rejected signo (p : Proc OS) :
  signo <= 0 \/ signo >= NSIG plat ->
  (forall handler,
     signal plat libc code signo handler p = ([], Ret SIG_ERR (set_errno EINVAL p)))
  /\ (forall handler,
        bsd_signal plat libc code signo handler p =
          ([], Ret SIG_ERR (set_errno EINVAL p)))
  /\ (forall sa,
        AddSpecialSignalHandlerFn plat libc code signo sa p =
          ([], Fatal "Invalid signal"))
  /\ (forall fn,
        RemoveSpecialSignalHandlerFn plat signo fn p = ([], Fatal "Invalid signal"))
  /\ EnsureFrontOfChain plat libc code signo p = ([], Fatal "Invalid signal").
Proof.
  intros Hs.
  assert (Hr : (signo <=? 0) || (signo >=? NSIG plat) = true).
  { destruct (Z.leb_spec signo 0), (Z.geb_spec signo (NSIG plat)); try reflexivity; lia. }
  unfold bsd_signal, signal, AddSpecialSignalHandlerFn, RemoveSpecialSignalHandlerFn,
    EnsureFrontOfChain.
  rewrite Hr. repeat split.
Qed.

(** X21: claiming a signal keeps the disposition the process had: what
    the kernel hands out as the previous disposition when the dispatcher is
    installed becomes the stored action (and [orig_action_] on Bionic), and
    it is what [signal] returns afterwards and, while the debug toggle of
    [SkipAddSignalHandler] is off, what the interposed [sigaction] reports,
    flags included and without a call of the real [sigaction].  With the
    toggle on, [sigaction] reports nothing and returns 0. *)
Theorem claim_keeps_previous_disposition_visible s sa (p : Proc OS) r1 k y1 t p1 :
  0 < s < NSIG plat ->
  claimed_ (chains p s) = false ->
  libc_sigaction libc (action_type plat) s
    (Some (handler_action plat code)) true (sys p) = (r1, Some k, y1) ->
  AddSpecialSignalHandlerFn plat libc code s sa p = (t, Ret tt p1) ->
  action_ (chains p1 s) = k
  /\ (bionic plat = true -> orig_action_ (chains p1 s) = k)
  /\ (forall h, exists p2,
        signal plat libc code s h p1 = ([], Ret (sa_handler k) p2))
  /\ (is_signal_hook_debuggable p = false ->
      forall ty linked,
        exists q,
          __sigaction plat code ty s None true linked p1 = ([], Ret (0, Some q) p1)
          /\ sa_handler q = sa_handler k
          /\ sa_flags q = sa_flags k
          /\ (ty = action_type plat -> q = k))
  /\ (is_signal_hook_debuggable p = true ->
      forall ty new_action old_action linked,
        __sigaction plat code ty s new_action old_action linked p1 =
          ([], Ret (0, None) p1)).
Proof.
  intros Hs Hc E1 Hrun.
  destruct (libc_sigaction libc (action_type plat) s None true y1)
    as [[r2 rb] y2] eqn:E2.
  assert (Hp1 : claimed_ (chains p1 s) = true
                /\ action_ (chains p1 s) = k
                /\ (bionic plat = true -> orig_action_ (chains p1 s) = k)
                /\ is_signal_hook_debuggable p1 = is_signal_hook_debuggable p).
  { unfold AddSpecialSignalHandlerFn in Hrun.
    destruct (Z.leb_spec s 0); [lia|].
    destruct (Z.geb_spec s (NSIG plat)); [lia|]. cbn [orb] in Hrun.
    unfold bind in Hrun. rewrite AddSpecialHandler_run in Hrun.
    destruct (add_special_slot (special_handlers_ (chains p s)) sa) as [l1|];
      [|discriminate].
    set (p0 := set_chain s (with_special_handlers l1 (chains p s)) p) in Hrun.
    unfold Claim, bind, gets, modify in Hrun.
    assert (Hc0 : claimed_ (chains p0 s) = false).
    { unfold p0. rewrite set_chain_same. exact Hc. }
    rewrite Hc0 in Hrun. cbn [negb app] in Hrun.
    destruct (Register_run plat libc code s s p0 r1 (Some k) y1 r2 rb y2 E1 E2)
      as (p' & Hreg & Hchain & _ & _ & _ & Hdbg).
    rewrite Hreg in Hrun. cbn [app] in Hrun.
    injection Hrun as _ <-.
    rewrite set_chain_same, Hchain. cbn.
    split; [reflexivity|]. split; [reflexivity|]. split.
    - now intros ->.
    - exact Hdbg. }
  destruct Hp1 as (Hc1 & Ha1 & Ho1 & Hd1).
  split; [exact Ha1|]. split; [exact Ho1|]. split; [|split].
  - intros h. eexists. unfold signal.
    destruct (Z.leb_spec s 0); [lia|].
    destruct (Z.geb_spec s (NSIG plat)); [lia|]. cbn [orb].
    unfold bind, gets, modify, ret, IsClaimed. rewrite Hc1. cbn [app].
    destruct (GetAction_fields plat code struct_sigaction (chains p1 s)) as (_ & -> & _).
    rewrite Ha1. reflexivity.
  - intros Hd ty linked. rewrite Hd in Hd1.
    exists (GetAction plat code ty (chains p1 s)).
    split.
    { exact (__sigaction_claimed plat code ty s None true linked p1 Hd1 Hs Hc1). }
    destruct (GetAction_fields plat code ty (chains p1 s)) as (Hf & Hh & Hsame & _).
    rewrite Hf, Hh, Ha1. repeat split. intros ->. rewrite Hsame by reflexivity.
    exact Ha1.
  - intros Hd ty new_action old_action linked. rewrite Hd in Hd1.
    unfold __sigaction, bind, gets, ret. rewrite Hd1. reflexivity.
Qed.

End MoreProperties.

(** ** The properties above on the small system *)

Ltac by_computation :=
  vm_compute; first [reflexivity | discriminate | split; first [reflexivity | discriminate]].

(** X1, witness: 64, the number of signals per key on a 64-bit build. *)
Lemma IsPowerOfTwo_spec_witness :
  IsPowerOfTwo android_arm64 64 = true /\ IsPowerOfTwo android_arm64 0 = true
  /\ IsPowerOfTwo android_arm64 65 = false.
Proof.
  split; [|split; reflexivity].
  apply (IsPowerOfTwo_spec android_arm64 64); [split; [lia|reflexivity]|].
  right. exists 6. split; [lia|reflexivity].
Defined.

(** X2, witness: the 64 signals of Bionic rounded up to the 64 bits of a key. *)
Lemma RoundUp_spec_witness :
  RoundUp android_arm64 (kSignalSetLength android_arm64) 64 = 64 * 1.
Proof.
  destruct (RoundUp_spec android_arm64 (kSignalSetLength android_arm64) 64)
    as [H _].
  - exists 6. split; [lia|reflexivity].
  - vm_compute. discriminate.
  - reflexivity.
  - exact H.
Defined.

(** X3, witness: signal 33 on 32-bit Android lies in the second word. *)
Lemma handling_bit_layout_witness :
  0 <= key_idx_of android_arm 33 < kHandlingSignalKeyCount android_arm
  /\ key_idx_of android_arm 33 = 1 /\ kHandlingSignalKeyCount android_arm = 2.
Proof.
  split; [|split; reflexivity].
  refine (proj1 (handling_bit_layout android_arm 33 1 _ _ _)).
  - reflexivity.
  - split; reflexivity.
  - split; reflexivity.
Defined.

(** X4, witness: setting the bit of SIGSEGV leaves the one of SIGBUS clear. *)
Lemma SetHandlingSignal_frame_witness :
  exists p',
    SetHandlingSignal android_arm64 SIGSEGV true Linux.segv_claimed = ([], Ret false p')
    /\ GetHandlingSignal android_arm64 SIGSEGV p' = true
    /\ GetHandlingSignal android_arm64 SIGBUS p' = false.
Proof.
  destruct (SetHandlingSignal_frame android_arm64 SIGSEGV true Linux.segv_claimed)
    as (p' & Hrun & Hset & Hothers & _).
  - by_computation.
  - exists p'. split; [exact Hrun|]. split; [exact Hset|].
    rewrite (Hothers SIGBUS); [reflexivity|by_computation|discriminate].
Defined.

(** X5, witness: the bit of SIGSEGV is set. *)
Lemma GetHandlingSignalAny_spec_witness :
  GetHandlingSignalAny android_arm64
    (store_handling_bit android_arm64 SIGSEGV true Linux.boot) = true.
Proof.
  apply (GetHandlingSignalAny_spec android_arm64
           (store_handling_bit android_arm64 SIGSEGV true Linux.boot)).
  - reflexivity.
  - reflexivity.
  - intros idx. cbn. destruct (idx =? 0); by_computation.
  - exists SIGSEGV. split; [by_computation|reflexivity].
Defined.

(** X6, witness: a second special handler for SIGSEGV. *)
Lemma AddSpecialHandler_appends_witness :
  exists p',
    AddSpecialHandler SIGSEGV Linux.taking Linux.segv_claimed = ([], Ret tt p')
    /\ installed_handlers (special_handlers_ (chains p' SIGSEGV)) =
       [Linux.declining; Linux.taking].
Proof.
  destruct (AddSpecialHandler_appends SIGSEGV Linux.taking Linux.segv_claimed)
    as [Hroom _].
  - discriminate.
  - reflexivity.
  - destruct Hroom as (p' & Hrun & Hinst & _).
    + vm_compute. lia.
    + exists p'. split; [exact Hrun|]. rewrite Hinst. reflexivity.
Defined.

(** X7, witness: the first of two special handlers is removed. *)
Lemma RemoveSpecialHandler_removes_first_witness :
  exists p',
    RemoveSpecialHandler SIGSEGV 100 Scenario.segv_declined_then_taken = ([], Ret tt p')
    /\ installed_handlers (special_handlers_ (chains p' SIGSEGV)) = [Linux.taking].
Proof.
  destruct (RemoveSpecialHandler_removes_first SIGSEGV 100
              Scenario.segv_declined_then_taken) as [Hfound _].
  - discriminate.
  - reflexivity.
  - destruct Hfound as (p' & Hrun & Hinst & _).
    + reflexivity.
    + exists p'. split; [exact Hrun|]. rewrite Hinst. reflexivity.
Defined.

(** X8, witness: a second special handler is added and removed. *)
Lemma add_then_remove_special_handler_witness :
  exists p1 p2,
    AddSpecialHandler SIGSEGV Linux.taking Linux.segv_claimed = ([], Ret tt p1)
    /\ RemoveSpecialHandler SIGSEGV 101 p1 = ([], Ret tt p2)
    /\ installed_handlers (special_handlers_ (chains p2 SIGSEGV)) = [Linux.declining].
Proof.
  destruct (add_then_remove_special_handler SIGSEGV Linux.taking Linux.segv_claimed)
    as (p1 & p2 & H1 & H2 & H3 & _).
  - discriminate.
  - reflexivity.
  - vm_compute. lia.
  - reflexivity.
  - exists p1, p2. split; [exact H1|]. split; [exact H2|]. rewrite H3. reflexivity.
Defined.

(** X9, witness: one of the two slots of SIGSEGV is free. *)
Lemma RemoveSpecialHandler_nullptr_witness :
  exists p',
    RemoveSpecialHandler SIGSEGV nullptr Linux.segv_claimed = ([], Ret tt p')
    /\ installed_handlers (special_handlers_ (chains p' SIGSEGV)) = [Linux.declining].
Proof.
  destruct (RemoveSpecialHandler_nullptr SIGSEGV Linux.segv_claimed) as [Hroom _].
  - reflexivity.
  - destruct Hroom as (p' & Hrun & Hinst).
    + vm_compute. lia.
    + exists p'. split; [exact Hrun|]. rewrite Hinst. reflexivity.
Defined.


(** X11, witness: the process as the library is loaded. *)
Lemma unclaimed_shim_is_transparent_witness :
  sigprocmask android_arm64 Linux.libc SIG_BLOCK (Some (sigbit SIGSEGV)) true Linux.boot =
  linked_sigprocmask Linux.libc sigset_t SIG_BLOCK (Some (sigbit SIGSEGV)) true Linux.boot.
Proof.
  refine (proj1 (unclaimed_shim_is_transparent android_arm64 Linux.libc Linux.code
                   Linux.boot _) sigset_t SIG_BLOCK (Some (sigbit SIGSEGV)) true).
  intros i Hi. reflexivity.
Defined.

(** X12, witness: an action with a flag the kernel does not know is
    written, read and written back. *)
Lemma sigaction_read_write_round_trip_witness :
  exists t1 p1 t2 q t3 p3,
    sigaction android_arm64 Linux.libc Linux.code SIGSEGV
      (Some (mkSigaction 7777 (Z.lor SA_SIGINFO 0x20) 0 0)) false Linux.segv_claimed
      = (t1, Ret (0, None) p1)
    /\ sigaction android_arm64 Linux.libc Linux.code SIGSEGV None true p1
       = (t2, Ret (0, Some q) p1)
    /\ sigaction android_arm64 Linux.libc Linux.code SIGSEGV (Some q) false p1
       = (t3, Ret (0, None) p3)
    /\ chains p3 SIGSEGV = chains p1 SIGSEGV
    /\ sa_flags q = SA_SIGINFO.
Proof.
  destruct (sigaction_read_write_round_trip android_arm64 Linux.code struct_sigaction
              SIGSEGV (mkSigaction 7777 (Z.lor SA_SIGINFO 0x20) 0 0)
              (linked_sigaction Linux.libc struct_sigaction) Linux.segv_claimed)
    as (t1 & p1 & t2 & q & t3 & p3 & H1 & H2 & H3 & H4 & H5 & _).
  - reflexivity.
  - split; reflexivity.
  - reflexivity.
  - exists t1, p1, t2, q, t3, p3.
    split; [exact H1|]. split; [exact H2|]. split; [exact H3|]. split; [exact H4|].
    rewrite H5. reflexivity.
Defined.

(** X13, witness: [signal] twice on the claimed SIGSEGV. *)
Lemma signal_returns_previous_handler_witness :
  exists p1 p2,
    signal android_arm64 Linux.libc Linux.code SIGSEGV 7777 Linux.segv_claimed =
      ([], Ret SIG_DFL p1)
    /\ signal android_arm64 Linux.libc Linux.code SIGSEGV 8888 p1 = ([], Ret 7777 p2)
    /\ sa_handler (action_ (chains p2 SIGSEGV)) = 8888.
Proof.
  destruct (signal_returns_previous_handler android_arm64 Linux.libc Linux.code
              SIGSEGV 7777 8888 Linux.segv_claimed)
    as (p1 & p2 & H1 & H2 & H3 & _).
  - split; reflexivity.
  - reflexivity.
  - exists p1, p2. split; [exact H1|]. split; [exact H2|exact H3].
Defined.

(** X14, witness: SIGSEGV stays claimed when its only special handler is
    removed. *)
Lemma claimed_is_one_way_witness :
  claimed_ (chains (Linux.after (RemoveSpecialSignalHandlerFn android_arm64 SIGSEGV 100)
                      Linux.segv_claimed) SIGSEGV) = true.
Proof.
  pose proof (claimed_is_one_way android_arm64 Linux.libc Linux.code SIGSEGV
                Linux.segv_claimed
                (Linux.after (RemoveSpecialSignalHandlerFn android_arm64 SIGSEGV 100)
                   Linux.segv_claimed)) as (_ & _ & _ & H & _).
  rewrite (H SIGSEGV 100); reflexivity.
Defined.

(** X15, witness: the second special handler of SIGSEGV takes the signal
    the first one declined. *)
Lemma Handler_stops_at_special_handler_witness :
  exists t,
    events (Handler android_arm64 Linux.libc Linux.code SIGSEGV
              (mkSiginfo 1 0) (mkUcontext 0 0) Scenario.segv_declined_then_taken)
    = t ++ [EvSpecialHandler Linux.taking SIGSEGV true (Some true)]
    /\ special_results t = [Some false].
Proof.
  destruct (Handler_stops_at_special_handler android_arm64 Linux.libc Linux.code
              SIGSEGV (mkSiginfo 1 0) (mkUcontext 0 0)
              Scenario.segv_declined_then_taken
              Linux.taking SIGSEGV true (Some true))
    as (t & Hev & _).
  - vm_compute. do 4 right. left. reflexivity.
  - discriminate.
  - exists t. split; [exact Hev|].
    vm_compute in Hev.
    apply (f_equal (@rev Event)) in Hev. rewrite rev_app_distr in Hev.
    cbn in Hev. injection Hev as Hev. apply (f_equal (@rev Event)) in Hev.
    rewrite rev_involutive in Hev. subst t. reflexivity.
Defined.

(** X16, witness: [android_handle_signal] recovers from a SIGSEGV the
    special handler declined; the user's handler 7777 is not called. *)
Lemma Handler_stops_at_android_handle_signal_witness :
  user_calls (events (Handler android_arm64 Linux.libc Scenario.code_with_recovery
                        SIGSEGV (mkSiginfo 1 0) (mkUcontext 0 0)
                        Linux.segv_with_user_handler)) = []
  /\ exists p',
       outcome (Handler android_arm64 Linux.libc Scenario.code_with_recovery
                  SIGSEGV (mkSiginfo 1 0) (mkUcontext 0 0)
                  Linux.segv_with_user_handler) = Ret tt p'.
Proof.
  destruct (Handler_stops_at_android_handle_signal android_arm64 Linux.libc
              Scenario.code_with_recovery SIGSEGV (mkSiginfo 1 0) (mkUcontext 0 0)
              Linux.segv_with_user_handler SIGSEGV (Some true))
    as (t & _ & _ & _ & Hu & Ho).
  - vm_compute. do 3 right. left. reflexivity.
  - discriminate.
  - split; [|exact Ho].
    apply user_calls_none. intros e He. now apply Hu.
Defined.

(** X17, witness: the declining handler is called first, the taking one
    second. *)
Lemma Handler_calls_special_handlers_in_order_witness :
  exists rest,
    [Linux.declining; Linux.taking] =
    called_handlers (events (Handler android_arm64 Linux.libc Linux.code SIGSEGV
                               (mkSiginfo 1 0) (mkUcontext 0 0)
                               Scenario.segv_declined_then_taken)) ++ rest.
Proof.
  destruct (Handler_calls_special_handlers_in_order android_arm64 Linux.libc
              Linux.code SIGSEGV (mkSiginfo 1 0) (mkUcontext 0 0)
              Scenario.segv_declined_then_taken) as (rest & H & _).
  - intros fn s info uc q b info' uc' q'. unfold Linux.code, special_code.
    destruct (fn =? 100); [intros H; injection H as _ _ _ <-; reflexivity|].
    destruct (fn =? 101); [intros H; injection H as _ _ _ <-; reflexivity|].
    discriminate.
  - reflexivity.
  - exists rest. exact H.
Defined.

(** X18, witness: SIGSEGV with the default action is delivered and the
    special handler declines. *)
Lemma Handler_real_sigaction_only_for_SIG_DFL_witness :
  In (EvLinkedSigaction struct_sigaction SIGSEGV (Some (mkSigaction SIG_DFL 0 0 0)) false)
     (events (Handler android_arm64 Linux.libc Linux.code SIGSEGV
                (mkSiginfo 1 0) (mkUcontext 0 0) Linux.segv_claimed))
  /\ user_calls (events (Handler android_arm64 Linux.libc Linux.code SIGSEGV
                           (mkSiginfo 1 0) (mkUcontext 0 0) Linux.segv_claimed)) = [].
Proof.
  assert (H : In (EvLinkedSigaction struct_sigaction SIGSEGV
                    (Some (mkSigaction SIG_DFL 0 0 0)) false)
                 (events (Handler android_arm64 Linux.libc Linux.code SIGSEGV
                            (mkSiginfo 1 0) (mkUcontext 0 0) Linux.segv_claimed))).
  { vm_compute. do 6 right. left. reflexivity. }
  split; [exact H|].
  exact (proj2 (proj1 (Handler_real_sigaction_only_for_SIG_DFL android_arm64
                         Linux.libc Linux.code SIGSEGV (mkSiginfo 1 0)
                         (mkUcontext 0 0) Linux.segv_claimed) _ H eq_refl)).
Defined.

(** X19, witness: SIGSEGV is delivered in a process that has no keys yet
    while [pthread_key_create] answers EAGAIN, and in one that has them. *)
Lemma Handler_aborts_only_at_key_creation_witness :
  Handler_on_entry android_arm64 Linux.libc Linux.code false (fun _ => 11)
    SIGSEGV (mkSiginfo 1 0) (mkUcontext 0 0) Linux.segv_claimed =
    ([], Fatal "failed to create sigchain pthread key")
  /\ Handler_on_entry android_arm64 Linux.libc Linux.code true (fun _ => 11)
       SIGSEGV (mkSiginfo 1 0) (mkUcontext 0 0) Linux.segv_claimed =
     Handler android_arm64 Linux.libc Linux.code
       SIGSEGV (mkSiginfo 1 0) (mkUcontext 0 0) Linux.segv_claimed.
Proof.
  split.
  - refine (proj1 (proj2 (Handler_aborts_only_at_key_creation android_arm64
                            Linux.libc Linux.code false (fun _ => 11) SIGSEGV
                            (mkSiginfo 1 0) (mkUcontext 0 0) Linux.segv_claimed))
                  eq_refl _).
    exists 0. split; [by_computation|discriminate].
  - refine (proj2 (proj2 (Handler_aborts_only_at_key_creation android_arm64
                            Linux.libc Linux.code true (fun _ => 11) SIGSEGV
                            (mkSiginfo 1 0) (mkUcontext 0 0) Linux.segv_claimed))
                  (or_introl eq_refl)).
Defined.

(** X20, witness: the signal numbers 65 and 0 on Android. *)
Lemma invalid_signal_is_rejected_witness :
  signal android_arm64 Linux.libc Linux.code 65 7777 Linux.boot =
    ([], Ret SIG_ERR (set_errno EINVAL Linux.boot))
  /\ EnsureFrontOfChain android_arm64 Linux.libc Linux.code 0 Linux.boot =
       ([], Fatal "Invalid signal").
Proof.
  split.
  - refine (proj1 (invalid_signal_is_rejected android_arm64 Linux.libc Linux.code
                     65 Linux.boot _) 7777).
    right. discriminate.
  - refine (proj2 (proj2 (proj2 (proj2
              (invalid_signal_is_rejected android_arm64 Linux.libc Linux.code
                 0 Linux.boot _))))).
    left. discriminate.
Defined.

(** X21, witness: the application's handler 8888 is installed with the
    kernel when the runtime claims SIGSEGV. *)
Lemma claim_keeps_previous_disposition_visible_witness :
  exists t p1,
    AddSpecialSignalHandlerFn android_arm64 Linux.libc Linux.code SIGSEGV
      Linux.declining Scenario.segv_of_application = (t, Ret tt p1)
    /\ sigaction64 android_arm64 Linux.libc Linux.code SIGSEGV None true p1 =
         ([], Ret (0, Some (mkSigaction 8888 SA_SIGINFO 0 0)) p1).
Proof.
  destruct (AddSpecialSignalHandlerFn android_arm64 Linux.libc Linux.code SIGSEGV
              Linux.declining Scenario.segv_of_application) as [t o] eqn:Hrun.
  assert (Ho : exists p1, o = Ret tt p1).
  { vm_compute in Hrun. injection Hrun as _ <-. eexists. reflexivity. }
  destruct Ho as (p1 & ->).
  exists t, p1. split; [reflexivity|].
  destruct (claim_keeps_previous_disposition_visible android_arm64 Linux.libc
              Linux.code SIGSEGV Linux.declining Scenario.segv_of_application
              0 (mkSigaction 8888 SA_SIGINFO 0 0)
              (snd (Linux.real_sigaction struct_sigaction64 SIGSEGV
                      (Some (handler_action android_arm64 Linux.code)) true
                      (sys Scenario.segv_of_application)))
              t p1) as (_ & _ & _ & Hq & _).
  - split; reflexivity.
  - reflexivity.
  - reflexivity.
  - exact Hrun.
  - destruct (Hq eq_refl struct_sigaction64
                (linked_sigaction Linux.libc struct_sigaction64))
      as (q & Hs & _ & _ & Hk).
    unfold sigaction64. rewrite Hs, (Hk eq_refl). reflexivity.
Defined.
